(** * Hub-side subscription reconciliation (pkg/controller/mcmhub/hub.go)

    A shallow embedding of the hub reconciler of the subscription operator.
    Kubernetes objects are records, Go maps are [gmap]s (wrapped in [option]
    where the code or [reflect.DeepEqual] can tell a nil map from an empty
    one), and every call to the API client, the clock, the event recorder and
    the logger is an event of a small free monad, so that theorems can speak
    about the calls a reconciliation cycle issues against any API store. *)

From Stdlib Require Import ZArith Strings.Byte Strings.Ascii.
From stdpp Require Import base tactics option list strings gmap sets pretty.

Open Scope string_scope.
Open Scope list_scope.

(** ** Go values *)

Definition bytes := list Byte.byte.

#[global] Instance byte_eq_decision : EqDecision Byte.byte := Byte.byte_eq_dec.

(** A Go slice keeps its nil-ness: [reflect.DeepEqual] tells a nil slice from
    an empty one, and [append] on a nil slice allocates. *)
Definition slice (A : Type) := option (list A).

Definition elems {A} (s : slice A) : list A := default [] s.

Definition append {A} (s : slice A) (x : A) : slice A := Some (elems s ++ [x]).

(** [m[k]] on a [map[string]string]: the zero value when the map is nil or
    the key is absent. *)
Definition index (m : option (gmap string string)) (k : string) : string :=
  default "" (m ≫= (λ m', m' !! k)).

(** [m[k] = v] on a map known to be non-nil. *)
Definition assign (m : gmap string string) (k v : string) : gmap string string :=
  <[k := v]> m.

(** [strings.Split(s, sep)] for a one-character separator: the pieces between
    the separators, empty pieces included; the empty string gives one empty
    piece. *)
Fixpoint Split (s : string) (sep : ascii) : list string :=
  match s with
  | EmptyString => [EmptyString]
  | String c s' =>
      if Ascii.eqb c sep then EmptyString :: Split s' sep
      else match Split s' sep with
           | piece :: pieces => String c piece :: pieces
           | [] => [String c EmptyString]
           end
  end.

(** A key that can stand in a comma-joined list: no comma in it. *)
Fixpoint commaFree (s : string) : bool :=
  match s with
  | EmptyString => true
  | String c s' => negb (Ascii.eqb c ",") && commaFree s'
  end.

(** ** Errors *)

Inductive StatusReason :=
| StatusReasonNotFound
| StatusReasonAlreadyExists
| StatusReasonConflict
| StatusReasonUnknown.

(** A Go [error] value that is not nil: either an API status error, which
    carries a reason, or any other error (codec, scheme). *)
Inductive error :=
| StatusError (reason : StatusReason) (msg : string)
| PlainError (msg : string).

#[global] Instance StatusReason_eq_dec : EqDecision StatusReason.
Proof. solve_decision. Defined.

#[global] Instance error_eq_dec : EqDecision error.
Proof. solve_decision. Defined.

(** [errors.IsNotFound] *)
Definition IsNotFound (e : error) : bool :=
  match e with
  | StatusError StatusReasonNotFound _ => true
  | _ => false
  end.

(** ** API types *)

Module metav1.

Definition Time := Z.

Definition zeroTime : Time := 0%Z.

Record TypeMeta := {
  Kind : string;
  APIVersion : string
}.

Record OwnerReference := {
  ownerAPIVersion : string;
  ownerKind : string;
  ownerName : string;
  ownerUID : string;
  ownerController : option bool;
  ownerBlockOwnerDeletion : option bool
}.

Record ObjectMeta := {
  Name : string;
  Namespace : string;
  UID : string;
  ResourceVersion : string;
  Generation : Z;
  CreationTimestamp : Time;
  SelfLink : string;
  Labels : option (gmap string string);
  Annotations : option (gmap string string);
  OwnerReferences : list OwnerReference
}.

Record LabelSelectorRequirement := {
  reqKey : string;
  reqOperator : string;
  reqValues : list string
}.

Record LabelSelector := {
  MatchLabels : option (gmap string string);
  MatchExpressions : list LabelSelectorRequirement
}.

#[global] Instance TypeMeta_eq_dec : EqDecision TypeMeta.
Proof. solve_decision. Defined.
#[global] Instance OwnerReference_eq_dec : EqDecision OwnerReference.
Proof. solve_decision. Defined.
#[global] Instance ObjectMeta_eq_dec : EqDecision ObjectMeta.
Proof. solve_decision. Defined.
#[global] Instance LabelSelectorRequirement_eq_dec : EqDecision LabelSelectorRequirement.
Proof. solve_decision. Defined.
#[global] Instance LabelSelector_eq_dec : EqDecision LabelSelector.
Proof. solve_decision. Defined.

Definition setAnnotations (m : ObjectMeta) (a : option (gmap string string)) : ObjectMeta :=
  {| Name := Name m; Namespace := Namespace m; UID := UID m;
     ResourceVersion := ResourceVersion m; Generation := Generation m;
     CreationTimestamp := CreationTimestamp m; SelfLink := SelfLink m;
     Labels := Labels m; Annotations := a;
     OwnerReferences := OwnerReferences m |}.

Definition setName (m : ObjectMeta) (n : string) : ObjectMeta :=
  {| Name := n; Namespace := Namespace m; UID := UID m;
     ResourceVersion := ResourceVersion m; Generation := Generation m;
     CreationTimestamp := CreationTimestamp m; SelfLink := SelfLink m;
     Labels := Labels m; Annotations := Annotations m;
     OwnerReferences := OwnerReferences m |}.

Definition setNamespace (m : ObjectMeta) (n : string) : ObjectMeta :=
  {| Name := Name m; Namespace := n; UID := UID m;
     ResourceVersion := ResourceVersion m; Generation := Generation m;
     CreationTimestamp := CreationTimestamp m; SelfLink := SelfLink m;
     Labels := Labels m; Annotations := Annotations m;
     OwnerReferences := OwnerReferences m |}.

Definition setOwnerReferences (m : ObjectMeta) (o : list OwnerReference) : ObjectMeta :=
  {| Name := Name m; Namespace := Namespace m; UID := UID m;
     ResourceVersion := ResourceVersion m; Generation := Generation m;
     CreationTimestamp := CreationTimestamp m; SelfLink := SelfLink m;
     Labels := Labels m; Annotations := Annotations m;
     OwnerReferences := o |}.

End metav1.

Module types.

Record NamespacedName := {
  Namespace : string;
  Name : string
}.

#[global] Instance NamespacedName_eq_dec : EqDecision NamespacedName.
Proof. solve_decision. Defined.

(** [NamespacedName.String], namespace and name joined by a slash *)
Definition String (n : NamespacedName) : string :=
  Namespace n +:+ "/" +:+ Name n.

End types.

Module runtime.

(** [runtime.RawExtension]: the serialized document. Its [Object] field is
    nil on every value that went through the API store and is left out. *)
Record RawExtension := {
  Raw : bytes
}.

#[global] Instance RawExtension_eq_dec : EqDecision RawExtension.
Proof. solve_decision. Defined.

End runtime.

Module plrv1alpha1.

Record Placement := {
  Clusters : list string;
  ClusterSelector : option metav1.LabelSelector;
  PlacementRef : option string;
  Local : option bool
}.

#[global] Instance Placement_eq_dec : EqDecision Placement.
Proof. solve_decision. Defined.

End plrv1alpha1.

Module chnv1alpha1.

Record ChannelSpec := {
  Type_ : string
}.

Record Channel := {
  ObjectMeta : metav1.ObjectMeta;
  Spec : ChannelSpec
}.

End chnv1alpha1.

Module dplv1alpha1.

Definition ClusterOverride := runtime.RawExtension.

Record Overrides := {
  ClusterName : string;
  ClusterOverrides : slice ClusterOverride
}.

Record DeployableSpec := {
  Template : option runtime.RawExtension;
  Placement : option plrv1alpha1.Placement;
  Overrides_ : slice Overrides
}.

Record ResourceUnitStatus := {
  unitPhase : string;
  unitReason : string;
  unitMessage : string;
  unitLastUpdateTime : metav1.Time;
  ResourceStatus : option runtime.RawExtension
}.

(** The phase of the embedded unit status, and the status of each cluster;
    the entries of the map are not nil in an object of the store. *)
Record DeployableStatus := {
  Phase : string;
  PropagatedStatus : option (gmap string ResourceUnitStatus)
}.

Record Deployable := {
  TypeMeta : metav1.TypeMeta;
  ObjectMeta : metav1.ObjectMeta;
  Spec : DeployableSpec;
  Status : DeployableStatus
}.

#[global] Instance Overrides_eq_dec : EqDecision Overrides.
Proof. solve_decision. Defined.
#[global] Instance DeployableSpec_eq_dec : EqDecision DeployableSpec.
Proof. solve_decision. Defined.
#[global] Instance ResourceUnitStatus_eq_dec : EqDecision ResourceUnitStatus.
Proof. solve_decision. Defined.
#[global] Instance DeployableStatus_eq_dec : EqDecision DeployableStatus.
Proof. solve_decision. Defined.
#[global] Instance Deployable_eq_dec : EqDecision Deployable.
Proof. solve_decision. Defined.

Definition zeroStatus : DeployableStatus :=
  {| Phase := ""; PropagatedStatus := None |}.

Definition setObjectMeta (d : Deployable) (m : metav1.ObjectMeta) : Deployable :=
  {| TypeMeta := TypeMeta d; ObjectMeta := m; Spec := Spec d; Status := Status d |}.

Definition setSpec (d : Deployable) (s : DeployableSpec) : Deployable :=
  {| TypeMeta := TypeMeta d; ObjectMeta := ObjectMeta d; Spec := s; Status := Status d |}.

Definition setTemplate (s : DeployableSpec) (t : option runtime.RawExtension) : DeployableSpec :=
  {| Template := t; Placement := Placement s; Overrides_ := Overrides_ s |}.

Definition setOverrides (s : DeployableSpec) (o : slice Overrides) : DeployableSpec :=
  {| Template := Template s; Placement := Placement s; Overrides_ := o |}.

(** [GetAnnotations], [SetAnnotations], [GetName], [GetOwnerReferences] *)
Definition GetAnnotations (d : Deployable) := metav1.Annotations (ObjectMeta d).
Definition SetAnnotations (d : Deployable) (a : gmap string string) : Deployable :=
  setObjectMeta d (metav1.setAnnotations (ObjectMeta d) (Some a)).
Definition GetName (d : Deployable) := metav1.Name (ObjectMeta d).
Definition GetOwnerReferences (d : Deployable) := metav1.OwnerReferences (ObjectMeta d).

End dplv1alpha1.

Module labels.

(** [labels.Selector], the converted form of a label selector *)
Record Selector := {
  requirements : list metav1.LabelSelectorRequirement
}.

End labels.

Module appv1alpha1.

Record PackageFilter := {
  LabelSelector : option metav1.LabelSelector;
  Annotations : option (gmap string string);
  Version : string;
  FilterRef : option string
}.

Record PackageOverrides_ := {
  PackageName : string;
  PackageOverrides : list runtime.RawExtension
}.

Record SubscriptionSpec := {
  Channel : string;
  Package : string;
  PackageFilter_ : option PackageFilter;
  PackageOverrides__ : list PackageOverrides_;
  Overrides : slice dplv1alpha1.Overrides;
  Placement : option plrv1alpha1.Placement
}.

Record SubscriptionUnitStatus := {
  unitPhase : string;
  unitMessage : string;
  unitReason : string;
  unitLastUpdateTime : metav1.Time;
  ResourceStatus : option runtime.RawExtension
}.

(** [map[string]*SubscriptionUnitStatus] under the field [packages] *)
Record SubscriptionPerClusterStatus := {
  SubscriptionPackageStatus : option (gmap string (option SubscriptionUnitStatus))
}.

(** [Statuses] is a [map[string]*SubscriptionPerClusterStatus]: the map and
    each of its values may be nil. *)
Record SubscriptionStatus := {
  Phase : string;
  Message : string;
  Reason : string;
  LastUpdateTime : metav1.Time;
  Statuses : option (gmap string (option SubscriptionPerClusterStatus))
}.

Record Subscription := {
  TypeMeta : metav1.TypeMeta;
  ObjectMeta : metav1.ObjectMeta;
  Spec : SubscriptionSpec;
  Status : SubscriptionStatus
}.

#[global] Instance PackageFilter_eq_dec : EqDecision PackageFilter.
Proof. solve_decision. Defined.
#[global] Instance PackageOverrides_eq_dec : EqDecision PackageOverrides_.
Proof. solve_decision. Defined.
#[global] Instance SubscriptionSpec_eq_dec : EqDecision SubscriptionSpec.
Proof. solve_decision. Defined.
#[global] Instance SubscriptionUnitStatus_eq_dec : EqDecision SubscriptionUnitStatus.
Proof. solve_decision. Defined.
#[global] Instance SubscriptionPerClusterStatus_eq_dec : EqDecision SubscriptionPerClusterStatus.
Proof. solve_decision. Defined.
#[global] Instance SubscriptionStatus_eq_dec : EqDecision SubscriptionStatus.
Proof. solve_decision. Defined.
#[global] Instance Subscription_eq_dec : EqDecision Subscription.
Proof. solve_decision. Defined.

(** The zero values [SubscriptionStatus{}] and
    [SubscriptionPerClusterStatus{}] *)
Definition zeroStatus : SubscriptionStatus :=
  {| Phase := ""; Message := ""; Reason := "";
     LastUpdateTime := metav1.zeroTime; Statuses := None |}.

Definition zeroPerClusterStatus : SubscriptionPerClusterStatus :=
  {| SubscriptionPackageStatus := None |}.

Definition setObjectMeta (s : Subscription) (m : metav1.ObjectMeta) : Subscription :=
  {| TypeMeta := TypeMeta s; ObjectMeta := m; Spec := Spec s; Status := Status s |}.

Definition setStatus (s : Subscription) (st : SubscriptionStatus) : Subscription :=
  {| TypeMeta := TypeMeta s; ObjectMeta := ObjectMeta s; Spec := Spec s; Status := st |}.

Definition setStatuses (st : SubscriptionStatus)
    (m : option (gmap string (option SubscriptionPerClusterStatus))) : SubscriptionStatus :=
  {| Phase := Phase st; Message := Message st; Reason := Reason st;
     LastUpdateTime := LastUpdateTime st; Statuses := m |}.

Definition setLastUpdateTime (st : SubscriptionStatus) (t : metav1.Time) : SubscriptionStatus :=
  {| Phase := Phase st; Message := Message st; Reason := Reason st;
     LastUpdateTime := t; Statuses := Statuses st |}.

Definition GetAnnotations (s : Subscription) := metav1.Annotations (ObjectMeta s).
Definition SetAnnotations (s : Subscription) (a : gmap string string) : Subscription :=
  setObjectMeta s (metav1.setAnnotations (ObjectMeta s) (Some a)).
Definition GetName (s : Subscription) := metav1.Name (ObjectMeta s).

(** The group and version of the resource, as the resource definition of
    the subscription kind declares them. *)
Definition SchemeGroup : string := "app.ibm.com".
Definition SchemeVersion : string := "v1alpha1".

End appv1alpha1.

(** [schema.GroupVersion.String] *)
Definition GroupVersionString (group version : string) : string :=
  if decide (group = "") then version else group +:+ "/" +:+ version.

(** ** The reconciler's collaborators

    Every call that leaves the reconciler is an event: the API client
    ([Get], [List], [Create], [Update], [Delete], [Status().Update]), the
    clock, the event recorder and the unconditional [klog] calls. The
    verbosity-gated [klog.V(n)] calls are debugging output and are left out.
    A write answers with its error only: what the server fills into the
    object afterwards (resource version, UID) is read nowhere in the
    reconciler, so the object is taken as it was sent. A log line is named by
    the text it starts with. *)

Inductive Severity := INFO | ERROR.

Inductive clientE : Type → Type :=
| GetDeployable (key : types.NamespacedName) : clientE (error + dplv1alpha1.Deployable)
| GetSubscription (key : types.NamespacedName) : clientE (error + appv1alpha1.Subscription)
| GetChannel (key : types.NamespacedName) : clientE (error + chnv1alpha1.Channel)
| ListDeployables (namespace : string) (selector : option labels.Selector)
    : clientE (error + list dplv1alpha1.Deployable)
| CreateDeployable (d : dplv1alpha1.Deployable) : clientE (option error)
| UpdateDeployable (d : dplv1alpha1.Deployable) : clientE (option error)
| DeleteDeployable (d : dplv1alpha1.Deployable) : clientE (option error)
| UpdateSubscription (s : appv1alpha1.Subscription) : clientE (option error)
| StatusUpdate (s : appv1alpha1.Subscription) : clientE (option error)
| Now : clientE metav1.Time
| RecordEvent (s : appv1alpha1.Subscription) (reason msg : string) (err : option error)
    : clientE unit
| Klog (sev : Severity) (msg : string) : clientE unit.

(** A reconciler function is a tree of events; a nil-pointer dereference is
    the leaf [Panic]. *)
Inductive Prog (A : Type) : Type :=
| Ret (a : A)
| Panic
| Vis {R : Type} (e : clientE R) (k : R → Prog A).

Arguments Ret {A} a.
Arguments Panic {A}.
Arguments Vis {A R} e k.

Fixpoint bind {A B} (p : Prog A) (f : A → Prog B) : Prog B :=
  match p with
  | Ret a => f a
  | Panic => Panic
  | Vis e k => Vis e (λ r, bind (k r) f)
  end.

#[global] Instance Prog_ret : MRet Prog := @Ret.
#[global] Instance Prog_bind : MBind Prog := λ A B f p, bind p f.

Definition trigger {R} (e : clientE R) : Prog R := Vis e Ret.

(** One call together with the answer it got. *)
Inductive Event :=
| Ev (R : Type) (e : clientE R) (r : R).

Arguments Ev {R} e r.

Inductive Outcome (A : Type) :=
| Done (a : A)
| Panicked.

Arguments Done {A} a.
Arguments Panicked {A}.

(** The API store, the clock and the recorders, as seen by the reconciler:
    any function from a call and the current world to an answer and the next
    world. *)
Definition Handler (W : Type) := ∀ R, clientE R → W → R * W.

Fixpoint run {W A} (h : Handler W) (p : Prog A) (w : W) : Outcome A * list Event * W :=
  match p with
  | Ret a => (Done a, [], w)
  | Panic => (Panicked, [], w)
  | Vis e k =>
      let '(r, w1) := h _ e w in
      let '(o, tr, w2) := run h (k r) w1 in
      (o, Ev e r :: tr, w2)
  end.

Definition outcome {W A} (h : Handler W) (p : Prog A) (w : W) : Outcome A := (run h p w).1.1.
Definition trace {W A} (h : Handler W) (p : Prog A) (w : W) : list Event := (run h p w).1.2.
Definition world {W A} (h : Handler W) (p : Prog A) (w : W) : W := (run h p w).2.

(** *** Classifying the calls of a trace *)

Definition CallPred := ∀ R, clientE R → bool.

Definition isDeployableWrite : CallPred := λ R e,
  match e with
  | CreateDeployable _ | UpdateDeployable _ | DeleteDeployable _ => true
  | _ => false
  end.

Definition isDeployableUpdate : CallPred := λ R e,
  match e with
  | UpdateDeployable _ => true
  | _ => false
  end.

Definition isDeployableDelete : CallPred := λ R e,
  match e with
  | DeleteDeployable _ => true
  | _ => false
  end.

Definition isSubscriptionUpdate : CallPred := λ R e,
  match e with
  | UpdateSubscription _ => true
  | _ => false
  end.

Definition isStatusUpdate : CallPred := λ R e,
  match e with
  | StatusUpdate _ => true
  | _ => false
  end.

Definition isGetSubscription : CallPred := λ R e,
  match e with
  | GetSubscription _ => true
  | _ => false
  end.

Definition isList : CallPred := λ R e,
  match e with
  | ListDeployables _ _ => true
  | _ => false
  end.

(** A mutating call is any call that writes to the API store. *)
Definition isWrite : CallPred := λ R e,
  isDeployableWrite R e || isSubscriptionUpdate R e || isStatusUpdate R e.

Definition onCall (P : CallPred) (ev : Event) : bool :=
  match ev with
  | Ev e _ => P _ e
  end.

(** The calls of one kind in a trace, in order. *)
Definition calls (P : CallPred) (tr : list Event) : list Event := List.filter (onCall P) tr.

(** The errors with which fetches of a subscription, deletions and status
    writes of a trace failed, and the lines it logged. *)
Definition fetchError (ev : Event) : option error :=
  match ev with
  | Ev (GetSubscription _) (inl e) => Some e
  | _ => None
  end.

Definition deleteError (ev : Event) : option error :=
  match ev with
  | Ev (DeleteDeployable _) (Some e) => Some e
  | _ => None
  end.

Definition statusWriteError (ev : Event) : option error :=
  match ev with
  | Ev (StatusUpdate _) (Some e) => Some e
  | _ => None
  end.

Definition annotationWriteError (ev : Event) : option error :=
  match ev with
  | Ev (UpdateSubscription _) (Some e) => Some e
  | _ => None
  end.

(** The artifacts a list call returned. *)
Definition listed (ev : Event) : option (list dplv1alpha1.Deployable) :=
  match ev with
  | Ev (ListDeployables _ _) (inr items) => Some items
  | _ => None
  end.

Definition logged (ev : Event) : option string :=
  match ev with
  | Ev (Klog _ msg) _ => Some msg
  | _ => None
  end.

(** A program that never issues a call of kind [P], whatever it is
    answered. *)
Fixpoint noCall (P : CallPred) {A} (p : Prog A) : Prop :=
  match p with
  | Ret _ | Panic => True
  | Vis e k => P _ e = false ∧ ∀ r, noCall P (k r)
  end.

(** ** What the reconciler takes from outside this file

    The annotation keys and phase names are constants of the API packages; the
    codecs are [encoding/json] on the types named; [OverrideTemplate] and
    [ConvertLabels] belong to the deployable utilities; the three semantic
    version functions stand for the version library. A Go [range] over a map
    visits the keys in an order the language leaves open: [rangeKeys] is that
    order, one for each loop of the file, and any permutation of the keys is
    allowed. *)

Inductive RangeSite :=
| rangeAllDplsCompare
| rangeAllDplsJoin
| rangeStatuses
| rangePropagatedStatus
| rangeTemplateAnnotations
| rangeFilterAnnotations.

Class Externals := {
  AnnotationDeployables : string;
  AnnotationRollingUpdateTarget : string;
  AnnotationChannelGeneration : string;
  AnnotationSubscription : string;
  AnnotationLocal : string;
  AnnotationIsGenerated : string;
  AnnotationDeployableVersion : string;
  SubscriptionPropagated : string;
  DeployableFailed : string;
  DeployableDeployed : string;
  (* *unstructured.Unstructured and its codec *)
  Doc : Type;
  Doc_eq_dec :: EqDecision Doc;
  unmarshalDoc : bytes → error + Doc;
  marshalDoc : Doc → error + bytes;
  docAnnotations : Doc → option (gmap string string);
  (* the codecs of the subscription and of its status *)
  marshalSubscription : appv1alpha1.Subscription → error + bytes;
  unmarshalStatus : bytes → error + appv1alpha1.SubscriptionStatus;
  (* dplutils *)
  OverrideTemplate : Doc → slice dplv1alpha1.ClusterOverride → error + Doc;
  ConvertLabels : metav1.LabelSelector → error + labels.Selector;
  (* the scheme's answer for the kind of a subscription *)
  GVKForSubscription : error + metav1.TypeMeta;
  (* semantic versions *)
  Range : Type;
  SemVersion : Type;
  parseRange : string → option Range;
  parseVersion : string → option SemVersion;
  rangeAccepts : Range → SemVersion → bool;
  (* map iteration order *)
  rangeKeys : RangeSite → gset string → list string;
  rangeKeys_perm : ∀ site s, rangeKeys site s ≡ₚ elements s
}.

Section Hub.

Context `{Externals}.

Import appv1alpha1.

(** ** [reflect.DeepEqual]

    The arguments are interface values: two values of distinct dynamic types
    are never deeply equal; values of one type are compared structurally,
    pointers through their pointees. The generated [DeepCopy] of a status
    returns a pointer to the copy. *)
Inductive GoValue :=
| StatusValue (s : SubscriptionStatus)
| StatusPointer (p : option SubscriptionStatus)
| UnstructuredPointer (p : option Doc)
| OverridesSlice (o : slice dplv1alpha1.Overrides).

Definition DeepEqual (x y : GoValue) : bool :=
  match x, y with
  | StatusValue a, StatusValue b => bool_decide (a = b)
  | StatusPointer a, StatusPointer b => bool_decide (a = b)
  | UnstructuredPointer a, UnstructuredPointer b => bool_decide (a = b)
  | OverridesSlice a, OverridesSlice b => bool_decide (a = b)
  | _, _ => false
  end.

(** [sub.Status.DeepCopy()] *)
Definition DeepCopyStatus (s : SubscriptionStatus) : GoValue := StatusPointer (Some s).

(** Modelled from the spec: [subutil.SemverCheck], a function of this
    repository's utilities package, which is not among the sources. The range
    expression is evaluated against the artifact's recorded version; an
    expression that does not parse, and an absent or unparsable artifact
    version, give a non-match. *)
Definition SemverCheck (expr target : string) : bool :=
  match parseRange expr with
  | None => false
  | Some r =>
      if decide (target = "") then false
      else match parseVersion target with
           | None => false
           | Some v => rangeAccepts r v
           end
  end.

(** ** Package filter *)

(** [for k, v := range dplTemplateAnno { if dplanno[k] == "" { dplanno[k] = v } }] *)
Definition mergeTemplateAnnotations (dplTemplateAnno : gmap string string)
    (ks : list string) (dplanno : gmap string string) : gmap string string :=
  foldl (λ acc k,
           match dplTemplateAnno !! k with
           | Some v => if decide (index (Some acc) k = "") then assign acc k v else acc
           | None => acc
           end) dplanno ks.

(** [for k, v := range annotations { if dplanno[k] != v { matched = false; break } }] *)
Fixpoint annotationsMatch (annotations : gmap string string) (ks : list string)
    (dplanno : gmap string string) : bool :=
  match ks with
  | [] => true
  | k :: ks' =>
      match annotations !! k with
      | Some v =>
          if decide (index (Some dplanno) k = v)
          then annotationsMatch annotations ks' dplanno
          else false
      | None => annotationsMatch annotations ks' dplanno
      end
  end.

(** The annotations the filter matches against: the artifact's own map (a
    fresh one when it is nil) after the template's annotations were written
    into it. *)
Definition mergedAnnotations (dpl : dplv1alpha1.Deployable) : gmap string string :=
  let dplanno := default ∅ (dplv1alpha1.GetAnnotations dpl) in
  match dplv1alpha1.Template (dplv1alpha1.Spec dpl) with
  | Some t =>
      match unmarshalDoc (runtime.Raw t) with
      | inr dpltemplate =>
          let dplTemplateAnno := default ∅ (docAnnotations dpltemplate) in
          mergeTemplateAnnotations dplTemplateAnno
            (rangeKeys rangeTemplateAnnotations (dom dplTemplateAnno)) dplanno
      | inl _ => dplanno
      end
  | None => dplanno
  end.

(** The function gets the artifact by value, but the annotation map inside is
    shared with the caller's copy: when that map is not nil the merge writes
    through to it, and the caller's later deep copy carries the merged map.
    The result is the verdict and the artifact as the caller sees it
    afterwards. *)
Definition checkDeployableBySubcriptionPackageFilter (sub : Subscription)
    (dpl : dplv1alpha1.Deployable) : bool * dplv1alpha1.Deployable :=
  match PackageFilter_ (Spec sub) with
  | None => (true, dpl)
  | Some pf =>
      if bool_decide (Package (Spec sub) ≠ "")
         && bool_decide (Package (Spec sub) ≠ dplv1alpha1.GetName dpl)
      then (false, dpl)
      else
        let annotations := Annotations pf in
        let dplanno := mergedAnnotations dpl in
        let dpl' :=
          match dplv1alpha1.GetAnnotations dpl with
          | Some _ => dplv1alpha1.SetAnnotations dpl dplanno
          | None => dpl
          end in
        let vdpl := index (dplv1alpha1.GetAnnotations dpl') AnnotationDeployableVersion in
        let matched :=
          match annotations with
          | Some a => annotationsMatch a (rangeKeys rangeFilterAnnotations (dom a)) dplanno
          | None => true
          end in
        if negb matched then (false, dpl')
        else
          let vsub := Version pf in
          if bool_decide (vsub ≠ "") && negb (SemverCheck vsub vdpl)
          then (false, dpl')
          else (true, dpl')
  end.

(** ** Channel lookups *)

Definition channelKey (s : Subscription) : types.NamespacedName :=
  if decide (Channel (Spec s) = "") then
    {| types.Namespace := ""; types.Name := "" |}
  else
    match Split (Channel (Spec s)) "/" with
    | [ns; n] => {| types.Namespace := ns; types.Name := n |}
    | _ => {| types.Namespace := metav1.Namespace (ObjectMeta s); types.Name := "" |}
    end.

Definition GetChannelNamespaceType (s : Subscription) : Prog (string * string) :=
  r ← trigger (GetChannel (channelKey s));
  let chType := match r with
                | inr chobj => chnv1alpha1.Type_ (chnv1alpha1.Spec chobj)
                | inl _ => ""
                end in
  mret (types.Namespace (channelKey s), chType).

Definition GetChannelGeneration (s : Subscription) : Prog (error + string) :=
  r ← trigger (GetChannel (channelKey s));
  match r with
  | inl err => mret (inl err)
  | inr chobj => mret (inr (pretty (metav1.Generation (chnv1alpha1.ObjectMeta chobj))))
  end.

(** ** Matching the catalog *)

(** [types.NamespacedName{Name: dpl.Name, Namespace: dpl.Namespace}] *)
Definition deployableKey (d : dplv1alpha1.Deployable) : types.NamespacedName :=
  {| types.Namespace := metav1.Namespace (dplv1alpha1.ObjectMeta d);
     types.Name := metav1.Name (dplv1alpha1.ObjectMeta d) |}.

(** One turn of the loop over the listed artifacts. *)
Definition keepMatching (sub : Subscription)
    (allDpls : gmap string dplv1alpha1.Deployable) (dpl : dplv1alpha1.Deployable)
    : gmap string dplv1alpha1.Deployable :=
  let '(ok, dpl') := checkDeployableBySubcriptionPackageFilter sub dpl in
  if ok then
    let dplkey := types.String (deployableKey dpl) in
    <[dplkey := dpl']> allDpls
  else allDpls.

(** The keys of the artifacts of a list answer that pass the filter: the set
    the bookkeeping annotation is to hold. *)
Definition matchedKeys (sub : Subscription) (items : list dplv1alpha1.Deployable)
    : gset string :=
  list_to_set
    ((λ dpl, types.String (deployableKey dpl))
       <$> List.filter (λ dpl, (checkDeployableBySubcriptionPackageFilter sub dpl).1) items).

(** The selector of the list call, or the conversion error. *)
Definition listSelector (sub : Subscription) : error + option labels.Selector :=
  match PackageFilter_ (Spec sub) with
  | Some pf =>
      match LabelSelector pf with
      | Some ls =>
          match ConvertLabels ls with
          | inl err => inl err
          | inr clSelector => inr (Some clSelector)
          end
      | None => inr None
      end
  | None => inr None
  end.

(** The result is a Go map: [None] is the nil map of the two early returns. *)
Definition getSubscriptionDeployables (sub : Subscription)
    : Prog (option (gmap string dplv1alpha1.Deployable)) :=
  '(chNameSpace, _) ← GetChannelNamespaceType sub;
  match listSelector sub with
  | inl err =>
      _ ← trigger (Klog ERROR "Failed to set label selector of subscrption:");
      mret None
  | inr selector =>
      r ← trigger (ListDeployables chNameSpace selector);
      match r with
      | inl err =>
          _ ← trigger (Klog ERROR "Failed to list objects from sbuscription namespace ");
          mret None
      | inr items => mret (Some (foldl (keepMatching sub) ∅ items))
      end
  end.

(** ** The bookkeeping annotation *)

(** The keys recorded in the subscription's annotation. *)
Definition decodeDeployables (anno : option (gmap string string)) : gset string :=
  match anno with
  | None => ∅
  | Some _ =>
      let dpls := index anno AnnotationDeployables in
      if decide (dpls = "") then ∅ else list_to_set (Split dpls ",")
  end.

(** The first loop over [allDpls]: stop at the first key the annotation does
    not have, drop from [orgdplmap] every key seen before. *)
Fixpoint compareKeys (ks : list string) (orgdplmap : gset string) : bool * gset string :=
  match ks with
  | [] => (false, orgdplmap)
  | k :: ks' =>
      if decide (k ∈ orgdplmap) then compareKeys ks' (orgdplmap ∖ {[k]})
      else (true, orgdplmap)
  end.

(** The second loop over [allDpls]: the keys joined by commas. *)
Definition joinKeys (ks : list string) : string :=
  foldl (λ dplstr dplkey,
           (if decide (dplstr = "") then dplstr else dplstr +:+ ",") +:+ dplkey) "" ks.

Definition annotationChanged (allKeys : gset string) (anno : option (gmap string string)) : bool :=
  let '(updated, orgdplmap) :=
    compareKeys (rangeKeys rangeAllDplsCompare allKeys) (decodeDeployables anno) in
  if negb updated && bool_decide (0 < size orgdplmap) then true else updated.

(** The subscription with the annotation rewritten: [dplstr] stored under the
    bookkeeping key of the subscription's annotations, a fresh map when they
    were nil. *)
Definition annotated (sub : Subscription) (allKeys : gset string) : Subscription :=
  let dplstr := joinKeys (rangeKeys rangeAllDplsJoin allKeys) in
  let subanno := default ∅ (GetAnnotations sub) in
  SetAnnotations sub (assign subanno AnnotationDeployables dplstr).

Definition annotationFailureLine : string :=
  "Updating Subscription annotation app.ibm.com/Deployables failed.".

(** The subscription is behind a pointer: the function's changes to it are
    returned next to the Go result. *)
Definition UpdateDeployablesAnnotation (sub : Subscription) : Prog (bool * Subscription) :=
  allDpls ← getSubscriptionDeployables sub;
  let allKeys : gset string := dom (default ∅ allDpls) in
  let updated := annotationChanged allKeys (GetAnnotations sub) in
  if updated then
    _ ← trigger (Klog INFO "subscription updated for ");
    let sub' := annotated sub allKeys in
    err ← trigger (UpdateSubscription sub');
    match err with
    | Some _ =>
        _ ← trigger (Klog INFO annotationFailureLine);
        mret (updated, sub')
    | None => mret (updated, sub')
    end
  else mret (updated, sub).

(** ** Teardown *)

(** [for _, owner := range owners { if owner.UID == sub.UID { err = r.Delete(...) ... } }];
    only the loop over the target Deployable logs the failure
    unconditionally. *)
Fixpoint deleteOwned (sub : Subscription) (dpl : dplv1alpha1.Deployable)
    (owners : list metav1.OwnerReference) (logs : bool) : Prog (option error) :=
  match owners with
  | [] => mret None
  | owner :: owners' =>
      if decide (metav1.ownerUID owner = metav1.UID (ObjectMeta sub)) then
        err ← trigger (DeleteDeployable dpl);
        match err with
        | Some e =>
            if logs then
              _ ← trigger (Klog INFO "Error in deleting sbuscription target deploayble: ");
              mret (Some e)
            else mret (Some e)
        | None => deleteOwned sub dpl owners' logs
        end
      else deleteOwned sub dpl owners' logs
  end.

(** [for k := range sub.Status.Statuses { delete(sub.Status.Statuses, k) }] *)
Definition clearStatuses (st : SubscriptionStatus) : SubscriptionStatus :=
  match Statuses st with
  | Some m =>
      setStatuses st
        (Some (foldl (λ acc k, delete k acc) m (rangeKeys rangeStatuses (dom m))))
  | None => st
  end.

Definition resetPropagated (st : SubscriptionStatus) : SubscriptionStatus :=
  if decide (Phase st = SubscriptionPropagated) then
    {| Phase := ""; Message := ""; Reason := "";
       LastUpdateTime := LastUpdateTime st; Statuses := Statuses st |}
  else st.

Definition primaryKey (sub : Subscription) : types.NamespacedName :=
  {| types.Name := metav1.Name (ObjectMeta sub) +:+ "-deployable";
     types.Namespace := metav1.Namespace (ObjectMeta sub) |}.

Definition targetKey (sub : Subscription) : types.NamespacedName :=
  {| types.Name := metav1.Name (ObjectMeta sub) +:+ "-target-deployable";
     types.Namespace := metav1.Namespace (ObjectMeta sub) |}.

(** Get one of the two Deployables and delete it for every owner reference
    that carries the subscription's UID; a failed Get is skipped. *)
Definition deleteIfOwned (sub : Subscription) (key : types.NamespacedName) (logs : bool)
    : Prog (option error) :=
  r ← trigger (GetDeployable key);
  match r with
  | inr hubdpl => deleteOwned sub hubdpl (dplv1alpha1.GetOwnerReferences hubdpl) logs
  | inl _ => mret None
  end.

Definition stopDeploySubscription (sub : Subscription) : Prog (Subscription * option error) :=
  err ← deleteIfOwned sub (primaryKey sub) false;
  match err with
  | Some e => mret (sub, Some e)
  | None =>
      err ← deleteIfOwned sub (targetKey sub) true;
      match err with
      | Some e => mret (sub, Some e)
      | None =>
          let savest := DeepCopyStatus (Status sub) in
          let st := resetPropagated (clearStatuses (Status sub)) in
          if negb (DeepEqual savest (StatusValue st)) then
            now ← trigger Now;
            let sub' := setStatus sub (setLastUpdateTime st now) in
            err ← trigger (StatusUpdate sub');
            match err with
            | Some e =>
                _ ← trigger (Klog INFO "Error in updating subscription obj: ");
                mret (sub', Some e)
            | None => mret (sub', None)
            end
          else mret (setStatus sub st, None)
      end
  end.

(** ** Synthesis of the Deployable *)

Definition NewControllerRef (owner : Subscription) (gvk : metav1.TypeMeta)
    : metav1.OwnerReference :=
  {| metav1.ownerAPIVersion := metav1.APIVersion gvk;
     metav1.ownerKind := metav1.Kind gvk;
     metav1.ownerName := GetName owner;
     metav1.ownerUID := metav1.UID (ObjectMeta owner);
     metav1.ownerController := Some true;
     metav1.ownerBlockOwnerDeletion := Some true |}.

(** [controllerutil.SetControllerReference] on an object that has no
    controller yet (the Deployable was just built): it fails only when the
    scheme does not know the owner's kind. *)
Definition SetControllerReference (owner : Subscription) (object : dplv1alpha1.Deployable)
    : error + dplv1alpha1.Deployable :=
  match GVKForSubscription with
  | inl err => inl err
  | inr gvk =>
      inr (dplv1alpha1.setObjectMeta object
             (metav1.setOwnerReferences (dplv1alpha1.ObjectMeta object)
                (dplv1alpha1.GetOwnerReferences object ++ [NewControllerRef owner gvk])))
  end.

(** The body of the branch for the cluster name [/]: decode the template,
    apply the entry's overrides to the document, encode it again. An error
    comes with the text of its log line. *)
Definition patchTemplate (raw : bytes) (ov : dplv1alpha1.Overrides) : (string * error) + bytes :=
  match unmarshalDoc raw with
  | inl err => inl ("Error in unmarshall, err:", err)
  | inr tplobj =>
      match OverrideTemplate tplobj (dplv1alpha1.ClusterOverrides ov) with
      | inl err => inl ("Error in overriding obj ", err)
      | inr tplobj' =>
          match marshalDoc tplobj' with
          | inl err => inl ("Error in mashalling obj ", err)
          | inr raw' => inr raw'
          end
      end
  end.

(** One turn of the loop over [sub.Spec.Overrides], on the template bytes and
    the Deployable's override list. *)
Definition overrideStep (st : bytes * slice dplv1alpha1.Overrides) (ov : dplv1alpha1.Overrides)
    : (string * error) + (bytes * slice dplv1alpha1.Overrides) :=
  let '(raw, dplovs) := st in
  if decide (dplv1alpha1.ClusterName ov = "/") then
    match patchTemplate raw ov with
    | inl e => inl e
    | inr raw' => inr (raw', dplovs)
    end
  else inr (raw, append dplovs ov).

Fixpoint overrideLoop (ovs : list dplv1alpha1.Overrides)
    (st : bytes * slice dplv1alpha1.Overrides)
    : (string * error) + (bytes * slice dplv1alpha1.Overrides) :=
  match ovs with
  | [] => inr st
  | ov :: ovs' =>
      match overrideStep st ov with
      | inl e => inl e
      | inr st' => overrideLoop ovs' st'
      end
  end.

(** What the override rule says, to compare the loop with: the entries for
    the cluster name [/] are the global ones, the others are carried; the
    global ones are applied to the template one after the other, each to the
    result of the one before. *)
Definition isGlobal (ov : dplv1alpha1.Overrides) : bool :=
  bool_decide (dplv1alpha1.ClusterName ov = "/").

Definition globalEntries (ovs : list dplv1alpha1.Overrides) : list dplv1alpha1.Overrides :=
  List.filter isGlobal ovs.

Definition carriedEntries (ovs : list dplv1alpha1.Overrides) : list dplv1alpha1.Overrides :=
  List.filter (λ ov, negb (isGlobal ov)) ovs.

Fixpoint applyInOrder (raw : bytes) (globals : list dplv1alpha1.Overrides)
    : (string * error) + bytes :=
  match globals with
  | [] => inr raw
  | ov :: globals' =>
      match patchTemplate raw ov with
      | inl e => inl e
      | inr raw' => applyInOrder raw' globals'
      end
  end.

(** The clone of the subscription that becomes the template, before its
    annotations are set. *)
Definition subepClone (sub : Subscription) (rootSub : option Subscription) : Subscription :=
  {| TypeMeta := TypeMeta sub;
     ObjectMeta :=
       {| metav1.Name := match rootSub with
                         | None => GetName sub
                         | Some root => GetName root
                         end;
          metav1.Namespace := metav1.Namespace (ObjectMeta sub);
          metav1.UID := "";
          metav1.ResourceVersion := "";
          metav1.Generation := 1;
          metav1.CreationTimestamp := metav1.zeroTime;
          metav1.SelfLink := "";
          metav1.Labels := metav1.Labels (ObjectMeta sub);
          metav1.Annotations := metav1.Annotations (ObjectMeta sub);
          metav1.OwnerReferences := metav1.OwnerReferences (ObjectMeta sub) |};
     Spec :=
       {| Channel := Channel (Spec sub);
          Package := Package (Spec sub);
          PackageFilter_ := PackageFilter_ (Spec sub);
          PackageOverrides__ := PackageOverrides__ (Spec sub);
          Overrides := None;
          Placement := Some {| plrv1alpha1.Clusters := [];
                               plrv1alpha1.ClusterSelector := None;
                               plrv1alpha1.PlacementRef := None;
                               plrv1alpha1.Local := Some true |} |};
     Status := Status sub |}.

Definition hostingSubscription (sub : Subscription) (rootSub : option Subscription) : string :=
  match rootSub with
  | None => metav1.Namespace (ObjectMeta sub) +:+ "/" +:+ GetName sub
  | Some root => metav1.Namespace (ObjectMeta root) +:+ "/" +:+ metav1.Name (ObjectMeta root)
  end.

(** The template document: the clone with its annotations, kind and empty
    status. *)
Definition subepFinal (subep : Subscription) (subepanno : gmap string string) : Subscription :=
  {| TypeMeta := {| metav1.Kind := "Subscription";
                    metav1.APIVersion := GroupVersionString SchemeGroup SchemeVersion |};
     ObjectMeta := metav1.setAnnotations (ObjectMeta subep) (Some subepanno);
     Spec := Spec subep;
     Status := zeroStatus |}.

Definition newDeployable (sub : Subscription) (rawep : bytes) : dplv1alpha1.Deployable :=
  {| dplv1alpha1.TypeMeta := {| metav1.Kind := "Deployable";
                                metav1.APIVersion := "app.ibm.com/v1alpha1" |};
     dplv1alpha1.ObjectMeta :=
       {| metav1.Name := metav1.Name (ObjectMeta sub) +:+ "-deployable";
          metav1.Namespace := metav1.Namespace (ObjectMeta sub);
          metav1.UID := "";
          metav1.ResourceVersion := "";
          metav1.Generation := 0;
          metav1.CreationTimestamp := metav1.zeroTime;
          metav1.SelfLink := "";
          metav1.Labels := None;
          metav1.Annotations :=
            Some (assign (assign ∅ AnnotationLocal "false") AnnotationIsGenerated "true");
          metav1.OwnerReferences := [] |};
     dplv1alpha1.Spec :=
       {| dplv1alpha1.Template := Some {| runtime.Raw := rawep |};
          dplv1alpha1.Placement := Placement (Spec sub);
          dplv1alpha1.Overrides_ := None |};
     dplv1alpha1.Status := dplv1alpha1.zeroStatus |}.

Definition prepareDeployableForSubscription (sub : Subscription) (rootSub : option Subscription)
    : Prog (error + dplv1alpha1.Deployable) :=
  let subep := subepClone sub rootSub in
  let subepanno := assign ∅ AnnotationSubscription (hostingSubscription sub rootSub) in
  subepanno ←
    (if decide (Channel (Spec subep) = "") then mret subepanno
     else
       chng ← GetChannelGeneration subep;
       match chng with
       | inr g => mret (assign subepanno AnnotationChannelGeneration g)
       | inl _ => mret subepanno
       end);
  match marshalSubscription (subepFinal subep subepanno) with
  | inl err =>
      _ ← trigger (Klog INFO "Error in mashalling subscription ");
      mret (inl err)
  | inr rawep =>
      match SetControllerReference sub (newDeployable sub rawep) with
      | inl err => mret (inl err)
      | inr dpl =>
          match overrideLoop (elems (Overrides (Spec sub))) (rawep, None) with
          | inl (msg, err) =>
              _ ← trigger (Klog INFO msg);
              mret (inl err)
          | inr (raw, dplovs) =>
              mret (inr (dplv1alpha1.setSpec dpl
                           (dplv1alpha1.setOverrides
                              (dplv1alpha1.setTemplate (dplv1alpha1.Spec dpl)
                                 (Some {| runtime.Raw := raw |}))
                              dplovs)))
          end
      end
  end.

(** ** Status aggregation *)

(** [mcsubstatus.Statuses["/"]]: a nil pointer when the map is nil or has no
    such key. *)
Definition slashEntry (mcsubstatus : SubscriptionStatus) : option SubscriptionPerClusterStatus :=
  match Statuses mcsubstatus with
  | Some m => default None (m !! "/")
  | None => None
  end.

(** The nested status a cluster reports: the decoded payload, or the zero
    status when the cluster sent no payload. *)
Definition decodeResourceStatus (v : dplv1alpha1.ResourceUnitStatus)
    : error + SubscriptionStatus :=
  match dplv1alpha1.ResourceStatus v with
  | Some rs => unmarshalStatus (runtime.Raw rs)
  | None => inr zeroStatus
  end.

(** The entry of one cluster of the Deployable's propagated status. *)
Definition clusterEntry (v : dplv1alpha1.ResourceUnitStatus)
    : error + option SubscriptionPerClusterStatus :=
  if decide (dplv1alpha1.unitPhase v = DeployableDeployed) then
    match decodeResourceStatus v with
    | inl err => inl err
    | inr mcsubstatus => inr (slashEntry mcsubstatus)
    end
  else inr (Some zeroPerClusterStatus).

(** [for k, v := range found.Status.PropagatedStatus { ... }] *)
Fixpoint aggregateStatuses (ps : gmap string dplv1alpha1.ResourceUnitStatus)
    (ks : list string) (acc : gmap string (option SubscriptionPerClusterStatus))
    : error + gmap string (option SubscriptionPerClusterStatus) :=
  match ks with
  | [] => inr acc
  | k :: ks' =>
      match ps !! k with
      | Some v =>
          match clusterEntry v with
          | inl err => inl err
          | inr clusterSubStatus => aggregateStatuses ps ks' (<[k := clusterSubStatus]> acc)
          end
      | None => aggregateStatuses ps ks' acc
      end
  end.

Definition newStatuses (found : dplv1alpha1.Deployable)
    : error + option (gmap string (option SubscriptionPerClusterStatus)) :=
  if decide (dplv1alpha1.Phase (dplv1alpha1.Status found) = DeployableFailed) then inr None
  else
    let ps := default ∅ (dplv1alpha1.PropagatedStatus (dplv1alpha1.Status found)) in
    match aggregateStatuses ps (rangeKeys rangePropagatedStatus (dom ps)) ∅ with
    | inl err => inl err
    | inr m => inr (Some m)
    end.

Definition newSubStatus (sub : Subscription)
    (sts : option (gmap string (option SubscriptionPerClusterStatus))) : SubscriptionStatus :=
  {| Phase := SubscriptionPropagated; Message := ""; Reason := "";
     LastUpdateTime := LastUpdateTime (Status sub); Statuses := sts |}.

Definition decodeFailureLine : string := "Failed to unmashall status from clusters".

Definition statusFailureLine : string := "Failed to update hub subscription status. error: ".

Definition updateSubscriptionStatus (sub : Subscription) (found : dplv1alpha1.Deployable)
    : Prog (Subscription * option error) :=
  match newStatuses found with
  | inl err =>
      _ ← trigger (Klog INFO decodeFailureLine);
      mret (sub, Some err)
  | inr sts =>
      let newsubstatus := newSubStatus sub sts in
      if negb (DeepEqual (StatusValue newsubstatus) (StatusValue (Status sub))) then
        now ← trigger Now;
        let sub' := setStatus sub (setLastUpdateTime newsubstatus now) in
        err ← trigger (StatusUpdate sub');
        match err with
        | Some _ =>
            _ ← trigger (Klog INFO statusFailureLine);
            mret (sub', None)
        | None => mret (sub', None)
        end
      else mret (sub, None)
  end.

(** ** Drift reconciliation *)

(** The found Deployable after [desired.Spec.DeepCopyInto(&found.Spec)] and
    the two bookkeeping annotations. *)
Definition stampFound (desired found : dplv1alpha1.Deployable) : dplv1alpha1.Deployable :=
  let found' := dplv1alpha1.setSpec found (dplv1alpha1.Spec desired) in
  let foundanno := default ∅ (dplv1alpha1.GetAnnotations found') in
  dplv1alpha1.SetAnnotations found'
    (assign (assign foundanno AnnotationIsGenerated "true") AnnotationLocal "false").

Definition updateTargetSubscriptionDeployable (sub : Subscription)
    (targetSubDpl : dplv1alpha1.Deployable) : Prog (option error) :=
  let targetKey := deployableKey targetSubDpl in
  r ← trigger (GetDeployable targetKey);
  match r with
  | inl err =>
      if IsNotFound err then
        _ ← trigger (Klog INFO "Creating target Deployable - ");
        err' ← trigger (CreateDeployable targetSubDpl);
        _ ← trigger (RecordEvent sub "Deploy"
                       ("target Depolyable " +:+ types.String targetKey
                        +:+ " created in the subscription namespace") err');
        mret err'
      else mret (Some err)
  | inr found =>
      match dplv1alpha1.Template (dplv1alpha1.Spec targetSubDpl) with
      | None => Panic
      | Some t =>
          match unmarshalDoc (runtime.Raw t) with
          | inl err => mret (Some err)
          | inr orgTpl =>
              match dplv1alpha1.Template (dplv1alpha1.Spec found) with
              | None => Panic
              | Some ft =>
                  match unmarshalDoc (runtime.Raw ft) with
                  | inl err => mret (Some err)
                  | inr fndTpl =>
                      if negb (DeepEqual (UnstructuredPointer (Some orgTpl))
                                         (UnstructuredPointer (Some fndTpl)))
                         || negb (DeepEqual
                                    (OverridesSlice (dplv1alpha1.Overrides_ (dplv1alpha1.Spec targetSubDpl)))
                                    (OverridesSlice (dplv1alpha1.Overrides_ (dplv1alpha1.Spec found))))
                      then
                        err ← trigger (UpdateDeployable (stampFound targetSubDpl found));
                        _ ← trigger (RecordEvent sub "Deploy"
                                       ("target Depolyable " +:+ types.String targetKey
                                        +:+ " updated in the subscription namespace") err);
                        mret err
                      else mret None
                  end
              end
          end
      end
  end.

(** The key of the target subscription. *)
Definition targetSubKey (sub : Subscription) : types.NamespacedName :=
  {| types.Namespace := metav1.Namespace (ObjectMeta sub);
     types.Name := index (GetAnnotations sub) AnnotationRollingUpdateTarget |}.

(** The result is Go's pair of a Deployable pointer and an error; the last
    return gives both the Deployable and the error of its reconciliation. *)
Definition createTargetDplForRollingUpdate (sub : Subscription)
    : Prog (option dplv1alpha1.Deployable * option error) :=
  let annotations := GetAnnotations sub in
  if bool_decide (annotations = None)
     || bool_decide (index annotations AnnotationRollingUpdateTarget = "")
  then mret (None, None)
  else
    r ← trigger (GetSubscription (targetSubKey sub));
    match r with
    | inl err =>
        if IsNotFound err then
          _ ← trigger (Klog INFO "target Subscription is gone: ");
          mret (None, None)
        else
          _ ← trigger (Klog INFO "fetching target Subscription failed: ");
          mret (None, Some err)
    | inr targetSub =>
        p ← prepareDeployableForSubscription targetSub (Some sub);
        match p with
        | inl err => mret (None, Some err)
        | inr targetSubDpl =>
            let targetSubDpl :=
              dplv1alpha1.setObjectMeta targetSubDpl
                (metav1.setNamespace
                   (metav1.setName (dplv1alpha1.ObjectMeta targetSubDpl)
                      (metav1.Name (ObjectMeta sub) +:+ "-target-deployable"))
                   (metav1.Namespace (ObjectMeta sub))) in
            err ← updateTargetSubscriptionDeployable sub targetSubDpl;
            mret (Some targetSubDpl, err)
        end
    end.

(** The primary Deployable once it was found: compare the decoded templates,
    update on a difference, aggregate the status otherwise. *)
Definition reconcileFound (sub : Subscription) (dpl found : dplv1alpha1.Deployable)
    : Prog (Subscription * option error) :=
  match dplv1alpha1.Template (dplv1alpha1.Spec dpl) with
  | None => Panic
  | Some t =>
      match unmarshalDoc (runtime.Raw t) with
      | inl err => mret (sub, Some err)
      | inr org =>
          match dplv1alpha1.Template (dplv1alpha1.Spec found) with
          | None => Panic
          | Some ft =>
              match unmarshalDoc (runtime.Raw ft) with
              | inl err => mret (sub, Some err)
              | inr fnd =>
                  if negb (DeepEqual (UnstructuredPointer (Some org))
                                     (UnstructuredPointer (Some fnd)))
                  then
                    err ← trigger (UpdateDeployable (stampFound dpl found));
                    _ ← trigger (RecordEvent sub "Deploy"
                                   ("Depolyable " +:+ types.String (deployableKey dpl)
                                    +:+ " updated in the subscription namespace for deploying the subscription to managed clusters") err);
                    mret (sub, err)
                  else updateSubscriptionStatus sub found
              end
          end
      end
  end.

(** The primary Deployable from the Get on: create, or fail, or
    [reconcileFound]. *)
Definition reconcilePrimary (sub : Subscription) (dpl : dplv1alpha1.Deployable)
    : Prog (Subscription * option error) :=
  r ← trigger (GetDeployable (deployableKey dpl));
  match r with
  | inl err =>
      if IsNotFound err then
        err' ← trigger (CreateDeployable dpl);
        _ ← trigger (RecordEvent sub "Deploy"
                       ("Depolyable " +:+ types.String (deployableKey dpl)
                        +:+ " created in the subscription namespace for deploying the subscription to managed clusters") err');
        mret (sub, err')
      else mret (sub, Some err)
  | inr found => reconcileFound sub dpl found
  end.

(** [dplAnno[AnnotationRollingUpdateTarget] = targetDpl.GetName()] *)
Definition markRollingUpdateTarget (dpl : dplv1alpha1.Deployable)
    (targetDpl : option dplv1alpha1.Deployable) : dplv1alpha1.Deployable :=
  match targetDpl with
  | Some t =>
      dplv1alpha1.SetAnnotations dpl
        (assign (default ∅ (dplv1alpha1.GetAnnotations dpl))
           AnnotationRollingUpdateTarget (dplv1alpha1.GetName t))
  | None => dpl
  end.

Definition doMCMHubReconcile (sub : Subscription) : Prog (Subscription * option error) :=
  '(updated, sub) ← UpdateDeployablesAnnotation sub;
  if updated : bool then mret (sub, None)
  else
    match Placement (Spec sub) with
    | None => stopDeploySubscription sub
    | Some _ =>
        p ← prepareDeployableForSubscription sub None;
        match p with
        | inl err => mret (sub, Some err)
        | inr dpl =>
            '(targetDpl, err) ← createTargetDplForRollingUpdate sub;
            match err with
            | Some e => mret (sub, Some e)
            | None => reconcilePrimary sub (markRollingUpdateTarget dpl targetDpl)
            end
        end
    end.

End Hub.

(** ** A test double: small codecs and an in-memory API store

    The theorems below hold for every choice of the collaborators; this
    instance is what the examples run on. Documents are byte strings read up
    to blanks, so two templates that differ in spacing only decode to the
    same document. *)

Module Fake.

Import appv1alpha1.

Definition b (s : string) : bytes := String.list_byte_of_string s.

Definition space : Byte.byte := Byte.x20.

Definition fake_unmarshalDoc (raw : bytes) : error + bytes :=
  match List.filter (λ c, negb (Byte.eqb c space)) raw with
  | [] => inl (PlainError "unexpected end of JSON input")
  | d => inr d
  end.

Definition fake_docAnnotations (d : bytes) : option (gmap string string) :=
  if decide (d = b "{annotated}") then Some {[ "a" := "x" ]} else None.

(** A patch is appended to the document; the patch [!] is refused. *)
Definition fake_OverrideTemplate (d : bytes) (ops : slice dplv1alpha1.ClusterOverride)
    : error + bytes :=
  if bool_decide (Exists (λ op, runtime.Raw op = b "!") (elems ops))
  then inl (PlainError "cannot apply override")
  else inr (d ++ concat (runtime.Raw <$> elems ops)).

Definition fake_marshalSubscription (s : Subscription) : error + bytes :=
  inr (b ("{sub " +:+ GetName s +:+ " " +:+ Channel (Spec s) +:+ "}")).

Definition subscribed : SubscriptionPerClusterStatus :=
  {| SubscriptionPackageStatus :=
       Some {[ "pkg" := Some {| unitPhase := "Subscribed"; unitMessage := "";
                                 unitReason := ""; unitLastUpdateTime := 7%Z;
                                 ResourceStatus := None |} ]} |}.

Definition fake_unmarshalStatus (raw : bytes) : error + SubscriptionStatus :=
  if decide (raw = b "{subscribed}") then
    inr {| Phase := "Subscribed"; Message := ""; Reason := "";
           LastUpdateTime := 7%Z; Statuses := Some {[ "/" := Some subscribed ]} |}
  else if decide (raw = b "{}") then inr zeroStatus
  else inl (PlainError "invalid character").

Definition fake_ConvertLabels (ls : metav1.LabelSelector) : error + labels.Selector :=
  if bool_decide (Exists (λ r, metav1.reqOperator r = "bogus") (metav1.MatchExpressions ls))
  then inl (PlainError "not a valid selector operator")
  else inr {| labels.requirements := metav1.MatchExpressions ls |}.

(** Ranges of the form [1.2.x] only, as a prefix test. *)
Definition fake_parseRange (expr : string) : option string :=
  if decide (expr = "1.2.x") then Some "1.2." else None.

Definition fake_parseVersion (v : string) : option string :=
  if decide (v = "") then None else Some v.

#[export] Instance externals : Externals := {|
  AnnotationDeployables := "app.ibm.com/deployables";
  AnnotationRollingUpdateTarget := "app.ibm.com/rollingupdate-target";
  AnnotationChannelGeneration := "app.ibm.com/channel-generation";
  AnnotationSubscription := "app.ibm.com/hosting-subscription";
  AnnotationLocal := "app.ibm.com/is-local-deployable";
  AnnotationIsGenerated := "app.ibm.com/is-generated";
  AnnotationDeployableVersion := "app.ibm.com/deployable-version";
  SubscriptionPropagated := "Propagated";
  DeployableFailed := "Failed";
  DeployableDeployed := "Deployed";
  Doc := bytes;
  unmarshalDoc := fake_unmarshalDoc;
  marshalDoc := inr;
  docAnnotations := fake_docAnnotations;
  marshalSubscription := fake_marshalSubscription;
  unmarshalStatus := fake_unmarshalStatus;
  OverrideTemplate := fake_OverrideTemplate;
  ConvertLabels := fake_ConvertLabels;
  GVKForSubscription := inr {| metav1.Kind := "Subscription";
                               metav1.APIVersion := "app.ibm.com/v1alpha1" |};
  Range := string;
  SemVersion := string;
  parseRange := fake_parseRange;
  parseVersion := fake_parseVersion;
  rangeAccepts := String.prefix;
  rangeKeys := λ _ s, elements s;
  rangeKeys_perm := λ _ s, reflexivity (elements s)
|}.

(** The store: objects by [namespace/name], a clock, and switches that make
    a kind of call fail. *)
Record Store := {
  deployables : gmap string dplv1alpha1.Deployable;
  subscriptions : gmap string Subscription;
  channels : gmap string chnv1alpha1.Channel;
  clock : Z;
  failGetSubscription : option error;
  failDelete : bool;
  failUpdateSubscription : bool;
  failStatusUpdate : bool
}.

Definition setDeployables (w : Store) (d : gmap string dplv1alpha1.Deployable) : Store :=
  {| deployables := d; subscriptions := subscriptions w; channels := channels w;
     clock := clock w; failGetSubscription := failGetSubscription w;
     failDelete := failDelete w; failUpdateSubscription := failUpdateSubscription w;
     failStatusUpdate := failStatusUpdate w |}.

Definition setSubscriptions (w : Store) (s : gmap string Subscription) : Store :=
  {| deployables := deployables w; subscriptions := s; channels := channels w;
     clock := clock w; failGetSubscription := failGetSubscription w;
     failDelete := failDelete w; failUpdateSubscription := failUpdateSubscription w;
     failStatusUpdate := failStatusUpdate w |}.

Definition tick (w : Store) : Store :=
  {| deployables := deployables w; subscriptions := subscriptions w; channels := channels w;
     clock := (clock w + 1)%Z; failGetSubscription := failGetSubscription w;
     failDelete := failDelete w; failUpdateSubscription := failUpdateSubscription w;
     failStatusUpdate := failStatusUpdate w |}.

Definition notFound : error := StatusError StatusReasonNotFound "not found".
Definition conflict : error := StatusError StatusReasonConflict "conflict".

Definition fetch {A} (m : gmap string A) (key : types.NamespacedName) : error + A :=
  match m !! types.String key with
  | Some x => inr x
  | None => inl notFound
  end.

Definition dplKey (d : dplv1alpha1.Deployable) : string :=
  types.String (deployableKey d).

Definition subKey (s : Subscription) : string :=
  metav1.Namespace (ObjectMeta s) +:+ "/" +:+ metav1.Name (ObjectMeta s).

Definition client : Handler Store := λ R e,
  match e in clientE R return Store → R * Store with
  | GetDeployable key => λ w, (fetch (deployables w) key, w)
  | GetSubscription key => λ w,
      match failGetSubscription w with
      | Some err => (inl err, w)
      | None => (fetch (subscriptions w) key, w)
      end
  | GetChannel key => λ w, (fetch (channels w) key, w)
  | ListDeployables ns _ => λ w,
      (inr (List.filter
              (λ d, bool_decide (metav1.Namespace (dplv1alpha1.ObjectMeta d) = ns))
              ((map_to_list (deployables w)).*2)), w)
  | CreateDeployable d => λ w,
      match deployables w !! dplKey d with
      | Some _ => (Some (StatusError StatusReasonAlreadyExists "exists"), w)
      | None => (None, setDeployables w (<[dplKey d := d]> (deployables w)))
      end
  | UpdateDeployable d => λ w,
      match deployables w !! dplKey d with
      | Some _ => (None, setDeployables w (<[dplKey d := d]> (deployables w)))
      | None => (Some notFound, w)
      end
  | DeleteDeployable d => λ w,
      if failDelete w then (Some conflict, w)
      else match deployables w !! dplKey d with
           | Some _ => (None, setDeployables w (delete (dplKey d) (deployables w)))
           | None => (Some notFound, w)
           end
  | UpdateSubscription s => λ w,
      if failUpdateSubscription w then (Some conflict, w)
      else (None, setSubscriptions w (<[subKey s := s]> (subscriptions w)))
  | StatusUpdate s => λ w,
      if failStatusUpdate w then (Some conflict, w)
      else (None, setSubscriptions w (<[subKey s := s]> (subscriptions w)))
  | Now => λ w, (clock w, tick w)
  | RecordEvent _ _ _ _ => λ w, (tt, w)
  | Klog _ _ => λ w, (tt, w)
  end.

Definition emptyStore : Store :=
  {| deployables := ∅; subscriptions := ∅; channels := ∅; clock := 100;
     failGetSubscription := None; failDelete := false;
     failUpdateSubscription := false; failStatusUpdate := false |}.

(** *** Objects of the examples *)

Definition meta (ns n uid : string) (anno : option (gmap string string))
    (owners : list metav1.OwnerReference) : metav1.ObjectMeta :=
  {| metav1.Name := n; metav1.Namespace := ns; metav1.UID := uid;
     metav1.ResourceVersion := "1"; metav1.Generation := 1;
     metav1.CreationTimestamp := 1%Z; metav1.SelfLink := "";
     metav1.Labels := None; metav1.Annotations := anno;
     metav1.OwnerReferences := owners |}.

Definition anyPlacement : plrv1alpha1.Placement :=
  {| plrv1alpha1.Clusters := ["clusterA"]; plrv1alpha1.ClusterSelector := None;
     plrv1alpha1.PlacementRef := None; plrv1alpha1.Local := None |}.

Definition subscription (anno : option (gmap string string))
    (filter : option PackageFilter) (ovs : slice dplv1alpha1.Overrides)
    (placement : option plrv1alpha1.Placement) (st : SubscriptionStatus) : Subscription :=
  {| TypeMeta := {| metav1.Kind := "Subscription";
                    metav1.APIVersion := "app.ibm.com/v1alpha1" |};
     ObjectMeta := meta "ns" "sub" "uid-sub" anno [];
     Spec := {| Channel := "ch-ns/ch"; Package := ""; PackageFilter_ := filter;
                PackageOverrides__ := []; Overrides := ovs; Placement := placement |};
     Status := st |}.

Definition artifact (n : string) (anno : option (gmap string string))
    (template : string) : dplv1alpha1.Deployable :=
  {| dplv1alpha1.TypeMeta := {| metav1.Kind := "Deployable";
                                metav1.APIVersion := "app.ibm.com/v1alpha1" |};
     dplv1alpha1.ObjectMeta := meta "ch-ns" n ("uid-" +:+ n) anno [];
     dplv1alpha1.Spec := {| dplv1alpha1.Template := Some {| runtime.Raw := b template |};
                            dplv1alpha1.Placement := None;
                            dplv1alpha1.Overrides_ := None |};
     dplv1alpha1.Status := dplv1alpha1.zeroStatus |}.

Definition override (cluster patch : string) : dplv1alpha1.Overrides :=
  {| dplv1alpha1.ClusterName := cluster;
     dplv1alpha1.ClusterOverrides := Some [ {| runtime.Raw := b patch |} ] |}.

Definition withDeployables (w : Store) (ds : list dplv1alpha1.Deployable) : Store :=
  setDeployables w (foldl (λ m d, <[dplKey d := d]> m) (deployables w) ds).

Definition withFaults (w : Store) (getSub : option error) (del upd st : bool) : Store :=
  {| deployables := deployables w; subscriptions := subscriptions w; channels := channels w;
     clock := clock w; failGetSubscription := getSub; failDelete := del;
     failUpdateSubscription := upd; failStatusUpdate := st |}.

(** A subscription without annotations and overrides, and a catalog of two
    artifacts in the channel's namespace. *)
Definition plainSub : Subscription :=
  subscription None None None (Some anyPlacement) zeroStatus.

Definition catalog : Store :=
  withDeployables emptyStore [artifact "a1" None "{x}"; artifact "a2" None "{y}"].

(** Two global overrides around a per-cluster one. *)
Definition overridingSub : Subscription :=
  subscription None None
    (Some [override "/" "+1"; override "clusterA" "q"; override "/" "+2"])
    (Some anyPlacement) zeroStatus.

(** The subscription after a per-cluster override was added to it. *)
Definition clusterOverrideSub : Subscription :=
  subscription None None (Some [override "clusterA" "q"]) (Some anyPlacement) zeroStatus.

(** A subscription that names a rollout target. *)
Definition rollingSub : Subscription :=
  subscription (Some {[ "app.ibm.com/rollingupdate-target" := "next" ]}) None None
    (Some anyPlacement) zeroStatus.

(** A subscription whose placement was withdrawn and whose status is
    already cleared. *)
Definition withdrawnSub : Subscription :=
  subscription None None None None zeroStatus.

Definition unit_ (phase : string) (payload : option string) : dplv1alpha1.ResourceUnitStatus :=
  {| dplv1alpha1.unitPhase := phase; dplv1alpha1.unitReason := "";
     dplv1alpha1.unitMessage := ""; dplv1alpha1.unitLastUpdateTime := 5%Z;
     dplv1alpha1.ResourceStatus :=
       (λ p, {| runtime.Raw := b p |}) <$> payload |}.

Definition foundWith (phase : string)
    (propagated : gmap string dplv1alpha1.ResourceUnitStatus) : dplv1alpha1.Deployable :=
  {| dplv1alpha1.TypeMeta := {| metav1.Kind := "Deployable";
                                metav1.APIVersion := "app.ibm.com/v1alpha1" |};
     dplv1alpha1.ObjectMeta := meta "ns" "sub-deployable" "uid-dpl" None [];
     dplv1alpha1.Spec := {| dplv1alpha1.Template := Some {| runtime.Raw := b "{t}" |};
                            dplv1alpha1.Placement := Some anyPlacement;
                            dplv1alpha1.Overrides_ := None |};
     dplv1alpha1.Status := {| dplv1alpha1.Phase := phase;
                              dplv1alpha1.PropagatedStatus := Some propagated |} |}.

(** Cluster A is deployed and reports a subscribed package, cluster B is
    not deployed yet. *)
Definition reportingFound : dplv1alpha1.Deployable :=
  foundWith "Propagated"
    (<["clusterB" := unit_ "Propagated" None]>
       {[ "clusterA" := unit_ "Deployed" (Some "{subscribed}") ]}).

(** Cluster A is deployed and reports a payload that does not decode. *)
Definition garbledFound : dplv1alpha1.Deployable :=
  foundWith "Propagated" {[ "clusterA" := unit_ "Deployed" (Some "garbage") ]}.

Definition filterWith (selector : option metav1.LabelSelector)
    (anno : option (gmap string string)) (version : string) : PackageFilter :=
  {| LabelSelector := selector; Annotations := anno; Version := version;
     FilterRef := None |}.

Definition bogusSelector : metav1.LabelSelector :=
  {| metav1.MatchLabels := None;
     metav1.MatchExpressions :=
       [ {| metav1.reqKey := "tier"; metav1.reqOperator := "bogus";
            metav1.reqValues := [] |} ] |}.

Definition bogusSelectorSub : Subscription :=
  subscription None (Some (filterWith (Some bogusSelector) None "")) None
    (Some anyPlacement) zeroStatus.

Definition badVersionSub : Subscription :=
  subscription None (Some (filterWith None None "latest")) None
    (Some anyPlacement) zeroStatus.

(** An artifact whose own annotation [a] is present with the empty value,
    with a template that carries [a = x]; and a subscription that asks for
    the empty value. *)
Definition emptyValuedArtifact : dplv1alpha1.Deployable :=
  artifact "a1" (Some {[ "a" := "" ]}) "{annotated}".

Definition emptyValueSub : Subscription :=
  subscription None (Some (filterWith None (Some {[ "a" := "" ]}) "")) None
    (Some anyPlacement) zeroStatus.

(** The Deployable the synthesis returns against a store, and the store
    after a first cycle of the plain subscription. *)
Definition prepared (sub : Subscription) (w : Store) : option dplv1alpha1.Deployable :=
  match outcome client (prepareDeployableForSubscription sub None) w with
  | Done (inr dpl) => Some dpl
  | _ => None
  end.

Definition afterFirstCycle : Store :=
  world client (doMCMHubReconcile plainSub) emptyStore.

Definition catalogKeys : gset string := {[ "ch-ns/a1"; "ch-ns/a2" ]}.

Definition statusWriteFails : Store := withFaults emptyStore None false false true.

Definition annotationWriteFails : Store := withFaults catalog None false true false.

Definition targetFetchFails : Store := withFaults emptyStore (Some conflict) false false false.

End Fake.


(** ** Further readings of a trace *)

Definition isDeployableCreate : CallPred := λ R e,
  match e with
  | CreateDeployable _ => true
  | _ => false
  end.

Definition isGetDeployable : CallPred := λ R e,
  match e with
  | GetDeployable _ => true
  | _ => false
  end.

(** The errors with which creations, updates and deletions of Deployables
    failed. *)
Definition deployableWriteError (ev : Event) : option error :=
  match ev with
  | Ev (CreateDeployable _) (Some e) | Ev (UpdateDeployable _) (Some e)
  | Ev (DeleteDeployable _) (Some e) => Some e
  | _ => None
  end.

(** The reason and the error of a recorded event. *)
Definition recorded (ev : Event) : option (string * option error) :=
  match ev with
  | Ev (RecordEvent _ reason _ err) _ => Some (reason, err)
  | _ => None
  end.

(** The subscription a status write sent. *)
Definition sentStatus (ev : Event) : option appv1alpha1.Subscription :=
  match ev with
  | Ev (StatusUpdate s) _ => Some s
  | _ => None
  end.

(** The Deployable a Get returned. *)
Definition fetchedDeployable (ev : Event) : option dplv1alpha1.Deployable :=
  match ev with
  | Ev (GetDeployable _) (inr d) => Some d
  | _ => None
  end.

(** The answers of the clock. *)
Definition clockAnswer (ev : Event) : option metav1.Time :=
  match ev with
  | Ev Now t => Some t
  | _ => None
  end.

(** The Deployables that creations and updates sent, and the subscriptions
    that fetches returned. *)
Definition createdDeployable (ev : Event) : option dplv1alpha1.Deployable :=
  match ev with
  | Ev (CreateDeployable d) _ => Some d
  | _ => None
  end.

Definition updatedDeployable (ev : Event) : option dplv1alpha1.Deployable :=
  match ev with
  | Ev (UpdateDeployable d) _ => Some d
  | _ => None
  end.

Definition fetchedSubscription (ev : Event) : option appv1alpha1.Subscription :=
  match ev with
  | Ev (GetSubscription _) (inr s) => Some s
  | _ => None
  end.

(** A piece that can stand between separators: the separator is not in it. *)
Fixpoint sepFree (sep : ascii) (s : string) : bool :=
  match s with
  | EmptyString => true
  | String c s' => negb (Ascii.eqb c sep) && sepFree sep s'
  end.

(** ** Further objects of the examples *)

Module Cases.

Import Fake appv1alpha1.

(** A desired Deployable whose template differs from the one the catalog
    holds under the same name, and the store after the update was stored. *)
Definition desiredA1 : dplv1alpha1.Deployable := artifact "a1" None "{z}".

Definition afterUpdate : Store :=
  withDeployables emptyStore [stampFound desiredA1 (artifact "a1" None "{x}")].

(** The primary Deployable of the subscription as the synthesis builds it,
    in a store whose deletions fail. *)
Definition ownedPrimary : dplv1alpha1.Deployable :=
  default emptyValuedArtifact (prepared withdrawnSub emptyStore).

Definition deleteFails : Store :=
  withFaults (withDeployables emptyStore [ownedPrimary]) None true false false.

(** A stored primary Deployable without a template. *)
Definition templateLess : dplv1alpha1.Deployable :=
  {| dplv1alpha1.TypeMeta := {| metav1.Kind := "Deployable";
                                metav1.APIVersion := "app.ibm.com/v1alpha1" |};
     dplv1alpha1.ObjectMeta := meta "ns" "sub-deployable" "uid-dpl" None [];
     dplv1alpha1.Spec := {| dplv1alpha1.Template := None;
                            dplv1alpha1.Placement := Some anyPlacement;
                            dplv1alpha1.Overrides_ := None |};
     dplv1alpha1.Status := dplv1alpha1.zeroStatus |}.

Definition brokenStore : Store := withDeployables emptyStore [templateLess].

(** The target subscription of the rollout, the store that holds it, and the
    target Deployable the rolling-update step builds from it. *)
Definition nextSub : Subscription :=
  {| TypeMeta := TypeMeta plainSub;
     ObjectMeta := meta "ns" "next" "uid-next" None [];
     Spec := Spec plainSub;
     Status := zeroStatus |}.

Definition rollout : Store := setSubscriptions emptyStore {[ "ns/next" := nextSub ]}.

Definition rolloutTarget : dplv1alpha1.Deployable :=
  match outcome client (createTargetDplForRollingUpdate rollingSub) rollout with
  | Done (Some d, _) => d
  | _ => emptyValuedArtifact
  end.

(** A subscription whose annotation lists an artifact and whose label
    selector does not convert. *)
Definition staleSub : Subscription :=
  subscription (Some {[ "app.ibm.com/deployables" := "ch-ns/a1" ]})
    (Some (filterWith (Some bogusSelector) None "")) None (Some anyPlacement) zeroStatus.

(** A subscription with a global override that the template refuses. *)
Definition refusedSub : Subscription :=
  subscription None None (Some [override "/" "!"]) (Some anyPlacement) zeroStatus.

End Cases.

(** * The object store client (pkg/utils/aws/objectstore.go)

    The handler wraps the S3 client of the AWS SDK. What the SDK does is
    taken from outside: loading the default configuration, the default
    endpoint resolver, [s3.New], and the sending of a request to the store
    behind the client, which answers and moves on to its next state. A
    paginator is given by the pages its [Next] delivers and the error its
    [Err] reports after the last one. The unconditional [klog] calls of a
    method are returned as the lines it logged, each named by the text it
    starts with. [List] and [Get] are given the client of a connected
    handler. *)

Module aws.

Record Endpoint := { URL : string }.

Record Credentials := { AccessKeyID : string; SecretAccessKey : string }.

Record credentialProvider := {
  providerAccessKeyID : string;
  providerSecretAccessKey : string
}.

(** [cfg.Credentials] is a provider: the one of the default configuration or
    the handler's own. *)
Inductive CredentialsProvider :=
| defaultProvider
| staticProvider (p : credentialProvider).

(** What this file does not look into: the other settings of a
    configuration, the state of the store, the body of a response. *)
Class Opaque := {
  Settings : Type;
  Store : Type;
  Body : Type
}.

Section Types.

Context `{Opaque}.

Record Config := {
  Region : string;
  EndpointResolver : string → string → error + Endpoint;
  Credentials_ : CredentialsProvider;
  Other : Settings
}.

(** [s3.Client] *)
Record Client := { ClientConfig : Config; ForcePathStyle : bool }.

(** [Handler] embeds a [*s3.Client], nil before the connection is made. *)
Record Handler := { HandlerClient : option Client }.

Record Object := { Key : string }.

Record ListObjectsOutput := { Contents : list Object }.

End Types.

Class SDK `{Opaque} := {
  (* external.LoadDefaultAWSConfig *)
  LoadDefaultAWSConfig : error + Config;
  (* endpoints.NewDefaultResolver().ResolveEndpoint *)
  ResolveEndpoint : string → string → error + Endpoint;
  (* s3.New *)
  New : Config → option Client;
  (* the pages of a ListObjects paginator and its final error *)
  ListObjectsPages : Client → string → Store → (list ListObjectsOutput * option error) * Store;
  (* GetObjectRequest(...).Send *)
  SendGetObject : Client → string → string → Store → (error + Body) * Store;
  (* ioutil.ReadAll: what was read, and the error that ended the reading *)
  ReadAll : Body → bytes * option error
}.

Section Methods.

Context `{SDK}.

(** [Retrieve] *)
Definition Retrieve (p : credentialProvider) : Credentials * option error :=
  ({| SecretAccessKey := providerSecretAccessKey p;
      AccessKeyID := providerAccessKeyID p |}, None).

(** The closure [s3CustResolverFn]. *)
Definition s3CustResolverFn (endpoint : string) (service region : string)
    : error + Endpoint :=
  if decide (service = "s3") then inr {| URL := endpoint |}
  else ResolveEndpoint service region.

(** The configuration handed to [s3.New]: the default one with its region,
    endpoint resolver and credentials replaced. *)
Definition connectionConfig (cfg : Config) (endpoint accessKeyID secretAccessKey : string)
    : Config :=
  {| Region := "minio";
     EndpointResolver := s3CustResolverFn endpoint;
     Credentials_ :=
       staticProvider {| providerAccessKeyID := accessKeyID;
                         providerSecretAccessKey := secretAccessKey |};
     Other := Other cfg |}.

(** The result is the error, the handler afterwards and the lines logged.
    When [s3.New] gives no client the function returns [err], which is the
    nil error of the load. *)
Definition InitObjectStoreConnection (h : Handler)
    (endpoint accessKeyID secretAccessKey : string)
    : option error * Handler * list string :=
  match LoadDefaultAWSConfig with
  | inl err => (Some err, h, ["Preparing S3 settings"; "Failed to load aws config. error: "])
  | inr cfg =>
      match New (connectionConfig cfg endpoint accessKeyID secretAccessKey) with
      | None =>
          (None, {| HandlerClient := None |},
           ["Preparing S3 settings"; "Failed to connect to s3 service"])
      | Some c =>
          (None,
           {| HandlerClient := Some {| ClientConfig := ClientConfig c;
                                       ForcePathStyle := true |} |},
           ["Preparing S3 settings"])
      end
  end.

(** [for p.Next(...) { for _, obj := range page.Contents { keys = append(keys, *obj.Key) } }] *)
Definition collectKeys (pages : list ListObjectsOutput) : slice string :=
  foldl (λ keys page, foldl (λ keys obj, append keys (Key obj)) keys (Contents page))
    None pages.

(** [List] *)
Definition List (c : Client) (bucket : string) (s : Store)
    : (slice string * option error) * list string * Store :=
  let '((pages, err), s') := ListObjectsPages c bucket s in
  let keys := collectKeys pages in
  match err with
  | Some e => ((None, Some e), ["failed to list objects. error: "], s')
  | None => ((keys, None), [], s')
  end.

(** [Get]; a failed read of the body is logged with an empty [klog.Error()]
    and the function goes on. *)
Definition Get (c : Client) (bucket name : string) (s : Store)
    : (slice Byte.byte * option error) * list string * Store :=
  let '(resp, s') := SendGetObject c bucket name s in
  match resp with
  | inl err => ((None, Some err), ["Failed to send Get request. error: "], s')
  | inr body =>
      let '(data, err) := ReadAll body in
      ((Some data, None), match err with Some _ => [""] | None => [] end, s')
  end.

End Methods.

End aws.

(** * Reasoning about programs *)

Section Programs.

Context {W : Type} (h : Handler W).

Lemma run_bind {A B} (p : Prog A) (f : A → Prog B) (w : W) :
  run h (p ≫= f) w =
    match run h p w with
    | (Done a, tr, w1) => let '(o, tr2, w2) := run h (f a) w1 in (o, tr ++ tr2, w2)
    | (Panicked, tr, w1) => (Panicked, tr, w1)
    end.
Proof.
  unfold mbind, Prog_bind. revert w.
  induction p as [a| |R e k IH]; intros w; simpl.
  - by destruct (run h (f a) w) as [[o tr] w'].
  - done.
  - destruct (h R e w) as [r w1]. rewrite IH.
    destruct (run h (k r) w1) as [[[a|] tr] w2]; [|done].
    by destruct (run h (f a) w2) as [[o tr2] w3].
Qed.

Lemma noCall_bind (P : CallPred) {A B} (p : Prog A) (f : A → Prog B) :
  noCall P p → (∀ a, noCall P (f a)) → noCall P (p ≫= f).
Proof.
  unfold mbind, Prog_bind. intros Hp Hf.
  induction p as [a| |R e k IH]; simpl in *; [by apply Hf|done|].
  destruct Hp as [He Hk]. split; [done|]. intros r. by apply IH.
Qed.

Lemma noCall_trigger (P : CallPred) {R} (e : clientE R) :
  P R e = false → noCall P (trigger e).
Proof. by intros He. Qed.

Lemma noCall_calls (P : CallPred) {A} (p : Prog A) (w : W) :
  noCall P p → calls P (trace h p w) = [].
Proof.
  unfold trace. revert w.
  induction p as [a| |R e k IH]; intros w Hp; simpl in *; [done|done|].
  destruct Hp as [He Hk].
  destruct (h R e w) as [r w1]. specialize (IH r w1 (Hk r)).
  destruct (run h (k r) w1) as [[o tr] w2]. simpl in *. by rewrite He.
Qed.

Lemma calls_app (P : CallPred) (tr1 tr2 : list Event) :
  calls P (tr1 ++ tr2) = calls P tr1 ++ calls P tr2.
Proof. apply List.filter_app. Qed.

End Programs.

Lemma calls_nil_weaken (P Q : CallPred) (tr : list Event) :
  (∀ R (e : clientE R), Q R e = true → P R e = true) →
  calls P tr = [] → calls Q tr = [].
Proof.
  intros HQP. unfold calls. induction tr as [|[R e r] tr IH]; [done|]. simpl.
  destruct (P R e) eqn:HP; [done|]. intros Htr.
  destruct (Q R e) eqn:HQ; [|by apply IH].
  apply HQP in HQ. congruence.
Qed.

Lemma omap_app_events {B} (f : Event → option B) (tr1 tr2 : list Event) :
  omap f (tr1 ++ tr2) = omap f tr1 ++ omap f tr2.
Proof. apply omap_app. Qed.

(** A projection that only answers on calls of kind [P] finds nothing in a
    trace without such calls. *)
Lemma omap_calls_nil {B} (P : CallPred) (f : Event → option B) (tr : list Event) :
  (∀ ev, is_Some (f ev) → onCall P ev = true) →
  calls P tr = [] → omap f tr = [].
Proof.
  intros Hf. induction tr as [|ev tr IH]; [done|].
  unfold calls in *. simpl. intros Hc.
  destruct (f ev) as [x|] eqn:Hx.
  - rewrite (Hf ev) in Hc; [done|by rewrite Hx].
  - apply IH. by destruct (onCall P ev).
Qed.

(** ** Which calls a function can issue *)

Ltac footprint_step :=
  match goal with
  | |- noCall _ (mbind _ _) => apply noCall_bind
  | |- noCall _ (Prog_bind _ _ _ _) => apply noCall_bind
  | |- noCall _ (Vis _ _) => split; [reflexivity|]
  | |- noCall _ (trigger _) => apply noCall_trigger; reflexivity
  | |- noCall _ (mret _) => exact I
  | |- noCall _ (Ret _) => exact I
  | |- noCall _ Panic => exact I
  | |- noCall _ (match ?x with _ => _ end) => destruct x
  | |- ∀ _, _ => intros
  | H : noCall ?P ?p |- noCall ?P ?p => exact H
  | |- noCall _ _ => progress cbv zeta
  end.

Ltac footprint := repeat footprint_step.

Section Footprints.

Context `{Externals}.

Import appv1alpha1.

Lemma getSubscriptionDeployables_reads sub :
  noCall isWrite (getSubscriptionDeployables sub)
  ∧ noCall isGetSubscription (getSubscriptionDeployables sub).
Proof.
  split; unfold getSubscriptionDeployables, GetChannelNamespaceType; footprint.
Qed.

Lemma UpdateDeployablesAnnotation_footprint sub :
  noCall isDeployableWrite (UpdateDeployablesAnnotation sub)
  ∧ noCall isStatusUpdate (UpdateDeployablesAnnotation sub)
  ∧ noCall isGetSubscription (UpdateDeployablesAnnotation sub).
Proof.
  repeat split;
    unfold UpdateDeployablesAnnotation, getSubscriptionDeployables, GetChannelNamespaceType;
    footprint.
Qed.

Lemma deleteOwned_footprint sub dpl owners logs :
  noCall isGetSubscription (deleteOwned sub dpl owners logs)
  ∧ noCall isSubscriptionUpdate (deleteOwned sub dpl owners logs)
  ∧ noCall isStatusUpdate (deleteOwned sub dpl owners logs).
Proof.
  induction owners as [|owner owners' IH]; simpl; [done|].
  destruct IH as (IH1 & IH2 & IH3). repeat split; footprint.
Qed.

Lemma stopDeploySubscription_footprint sub :
  noCall isGetSubscription (stopDeploySubscription sub)
  ∧ noCall isSubscriptionUpdate (stopDeploySubscription sub).
Proof.
  split; unfold stopDeploySubscription, deleteIfOwned; footprint;
    apply deleteOwned_footprint.
Qed.

Lemma prepareDeployableForSubscription_reads sub rootSub :
  noCall isWrite (prepareDeployableForSubscription sub rootSub)
  ∧ noCall isGetSubscription (prepareDeployableForSubscription sub rootSub).
Proof.
  split; unfold prepareDeployableForSubscription, GetChannelGeneration; footprint.
Qed.

Lemma updateSubscriptionStatus_footprint sub found :
  noCall isDeployableWrite (updateSubscriptionStatus sub found)
  ∧ noCall isSubscriptionUpdate (updateSubscriptionStatus sub found)
  ∧ noCall isGetSubscription (updateSubscriptionStatus sub found).
Proof.
  repeat split; unfold updateSubscriptionStatus; footprint.
Qed.

Lemma updateTargetSubscriptionDeployable_footprint sub targetSubDpl :
  noCall isGetSubscription (updateTargetSubscriptionDeployable sub targetSubDpl)
  ∧ noCall isSubscriptionUpdate (updateTargetSubscriptionDeployable sub targetSubDpl)
  ∧ noCall isStatusUpdate (updateTargetSubscriptionDeployable sub targetSubDpl).
Proof.
  repeat split; unfold updateTargetSubscriptionDeployable; footprint.
Qed.

Lemma reconcilePrimary_footprint sub dpl :
  noCall isGetSubscription (reconcilePrimary sub dpl)
  ∧ noCall isSubscriptionUpdate (reconcilePrimary sub dpl).
Proof.
  split; unfold reconcilePrimary, reconcileFound; footprint;
    apply updateSubscriptionStatus_footprint.
Qed.

End Footprints.

(** The reconciler's functions are unfolded by name only. *)
#[global] Arguments getSubscriptionDeployables : simpl never.
#[global] Arguments UpdateDeployablesAnnotation : simpl never.
#[global] Arguments stopDeploySubscription : simpl never.
#[global] Arguments deleteIfOwned : simpl never.
#[global] Arguments prepareDeployableForSubscription : simpl never.
#[global] Arguments updateSubscriptionStatus : simpl never.
#[global] Arguments updateTargetSubscriptionDeployable : simpl never.
#[global] Arguments createTargetDplForRollingUpdate : simpl never.
#[global] Arguments reconcileFound : simpl never.
#[global] Arguments reconcilePrimary : simpl never.
#[global] Arguments doMCMHubReconcile : simpl never.

(** * The bookkeeping annotation *)

Section SplitJoin.

#[local] Arguments String.append !_ _ / : simpl nomatch.

Lemma append_assoc (s1 s2 s3 : string) : (s1 +:+ s2) +:+ s3 = s1 +:+ (s2 +:+ s3).
Proof. induction s1 as [|c s1 IH]; simpl; [done|by rewrite IH]. Qed.

Lemma append_nonempty_l (s1 s2 : string) : s1 ≠ "" → s1 +:+ s2 ≠ "".
Proof. by destruct s1. Qed.

Lemma Split_nonempty (s : string) (sep : ascii) : ∃ piece pieces, Split s sep = piece :: pieces.
Proof.
  induction s as [|c s IH]; simpl; [by eauto|].
  destruct IH as (piece & pieces & ->). destruct (Ascii.eqb c sep); eauto.
Qed.

Lemma Split_commaFree (k : string) : commaFree k = true → Split k "," = [k].
Proof.
  induction k as [|c k IH]; simpl; [done|].
  intros [Hc Hk]%andb_prop. apply negb_true_iff in Hc. rewrite Hc.
  by rewrite IH.
Qed.

Lemma Split_snoc (acc k : string) :
  commaFree k = true → Split (acc +:+ String "," k) "," = Split acc "," ++ [k].
Proof.
  intros Hk. induction acc as [|c acc IH]; simpl.
  - by rewrite Split_commaFree.
  - rewrite IH. destruct (Split_nonempty acc ",") as (piece & pieces & ->).
    by destruct (Ascii.eqb c ",").
Qed.

Lemma joinKeys_step (acc : string) (ks : list string) :
  acc ≠ "" →
  Forall (λ k, commaFree k = true) ks →
  let joined := foldl (λ dplstr dplkey,
                         (if decide (dplstr = "") then dplstr else dplstr +:+ ",") +:+ dplkey)
                      acc ks in
  joined ≠ "" ∧ Split joined "," = Split acc "," ++ ks.
Proof.
  intros Hacc Hks. revert acc Hacc.
  induction Hks as [|k ks Hk Hks IH]; intros acc Hacc; simpl.
  - by rewrite app_nil_r.
  - destruct (decide (acc = "")) as [|_]; [done|].
    destruct (IH ((acc +:+ ",") +:+ k)) as [Hne Hsplit].
    { by apply append_nonempty_l, append_nonempty_l. }
    split; [done|]. rewrite Hsplit, append_assoc. simpl. rewrite Split_snoc by done.
    by rewrite <- app_assoc.
Qed.

(** Splitting the joined keys at the commas gives the keys back. *)
Lemma Split_joinKeys (ks : list string) :
  ks ≠ [] →
  Forall (λ k, commaFree k = true ∧ k ≠ "") ks →
  joinKeys ks ≠ "" ∧ Split (joinKeys ks) "," = ks.
Proof.
  intros Hne Hks. destruct ks as [|k ks]; [done|].
  apply Forall_cons in Hks as [[Hk Hk'] Hks].
  unfold joinKeys. simpl.
  destruct (joinKeys_step k ks) as [H1 H2]; [done| |].
  { eapply Forall_impl; [done|]. by intros ? []. }
  split; [done|]. by rewrite H2, Split_commaFree.
Qed.

End SplitJoin.

Section BookkeepingAnnotation.

Context `{Externals}.

Import appv1alpha1.

Lemma rangeKeys_NoDup site (s : gset string) : NoDup (rangeKeys site s).
Proof. rewrite rangeKeys_perm. apply NoDup_elements. Qed.

Lemma rangeKeys_set site (s : gset string) : list_to_set (rangeKeys site s) = s.
Proof. rewrite rangeKeys_perm. apply list_to_set_elements_L. Qed.

Lemma elem_of_rangeKeys site (s : gset string) k : k ∈ rangeKeys site s ↔ k ∈ s.
Proof. rewrite rangeKeys_perm. apply elem_of_elements. Qed.

(** The first loop stops with [true] exactly when some key is not in the
    annotation; otherwise it leaves the annotation's keys that were not
    visited. *)
Lemma compareKeys_spec (ks : list string) (org : gset string) :
  NoDup ks →
  ((compareKeys ks org).1 = false ↔ list_to_set ks ⊆ org)
  ∧ ((compareKeys ks org).1 = false → (compareKeys ks org).2 = org ∖ list_to_set ks).
Proof.
  intros Hnd. revert org.
  induction Hnd as [|k ks Hk Hnd IH]; intros org; simpl.
  - split; [set_solver|]. intros _. set_solver.
  - destruct (decide (k ∈ org)) as [Hin|Hout].
    + destruct (IH (org ∖ {[k]})) as [IH1 IH2]. split.
      * rewrite IH1. set_solver.
      * intros Hf. rewrite IH2 by done. set_solver.
    + simpl. split; [|done]. split; [done|]. set_solver.
Qed.

(** The change test of [UpdateDeployablesAnnotation] compares two sets. *)
Lemma annotationChanged_iff (matched : gset string) (anno : option (gmap string string)) :
  annotationChanged matched anno = true ↔ matched ≠ decodeDeployables anno.
Proof.
  unfold annotationChanged.
  pose proof (compareKeys_spec (rangeKeys rangeAllDplsCompare matched)
                (decodeDeployables anno) (rangeKeys_NoDup _ _)) as [H1 H2].
  rewrite rangeKeys_set in H1, H2.
  destruct (compareKeys _ _) as [updated orgdplmap]. simpl in *.
  destruct updated; simpl.
  - split; [|done]. intros _ Heq.
    assert (true = false) by (apply H1; set_solver). done.
  - specialize (H2 eq_refl). subst orgdplmap.
    assert (matched ⊆ decodeDeployables anno) as Hsub by by apply H1.
    case_bool_decide as Hsize.
    + split; [|done]. intros _ Heq.
      apply size_pos_elem_of in Hsize as [x Hx]. set_solver.
    + split; [done|]. intros Hne. exfalso. apply Hne.
      apply set_eq. intros x. split; [set_solver|]. intros Hx.
      destruct (decide (x ∈ matched)) as [|Hnx]; [done|]. exfalso. apply Hsize.
      assert (size (decodeDeployables anno ∖ matched) ≠ 0); [|lia].
      apply size_non_empty_iff. set_solver.
Qed.

(** Reading the annotation back after the update. *)
Lemma decode_after_update (matched : gset string) (subanno : gmap string string) :
  (∀ k, k ∈ matched → commaFree k = true ∧ k ≠ "") →
  decodeDeployables
    (Some (assign subanno AnnotationDeployables
             (joinKeys (rangeKeys rangeAllDplsJoin matched)))) = matched.
Proof.
  intros Hks. unfold decodeDeployables, index, assign. simpl.
  rewrite lookup_insert_eq. simpl.
  destruct (rangeKeys rangeAllDplsJoin matched) as [|k ks] eqn:Hr.
  - simpl. rewrite <- (rangeKeys_set rangeAllDplsJoin matched), Hr. done.
  - destruct (Split_joinKeys (k :: ks)) as [Hne Hsplit]; [done| |].
    { apply Forall_forall. intros x Hx. apply Hks.
      apply (elem_of_rangeKeys rangeAllDplsJoin). by rewrite Hr. }
    destruct (decide _) as [|_]; [done|].
    by rewrite Hsplit, <- Hr, rangeKeys_set.
Qed.

(** Every key of the matched map names a listed artifact, so none is
    empty. *)
Lemma keepMatching_keys sub (items : list dplv1alpha1.Deployable)
    (acc : gmap string dplv1alpha1.Deployable) k :
  k ∈ dom (foldl (keepMatching sub) acc items) →
  k ∈ dom acc
  ∨ ∃ dpl, dpl ∈ items
           ∧ (checkDeployableBySubcriptionPackageFilter sub dpl).1 = true
           ∧ k = types.String (deployableKey dpl).
Proof.
  revert acc. induction items as [|dpl items IH]; intros acc; simpl; [by left|].
  intros [Hk|(d & Hd & Hc & ->)]%IH.
  - unfold keepMatching in Hk.
    destruct (checkDeployableBySubcriptionPackageFilter sub dpl) as [ok dpl'] eqn:Hc.
    destruct ok; [|by left].
    rewrite dom_insert_L in Hk. apply elem_of_union in Hk as [->%elem_of_singleton|Hk].
    + right. exists dpl. rewrite Hc. split; [by left|]. done.
    + by left.
  - right. exists d. split; [by right|done].
Qed.

Lemma deployableKey_nonempty dpl : types.String (deployableKey dpl) ≠ "".
Proof.
  unfold types.String. simpl.
  destruct (metav1.Namespace (dplv1alpha1.ObjectMeta dpl)); done.
Qed.

End BookkeepingAnnotation.

Section AnnotationRefresh.

Context `{Externals} {W : Type} (h : Handler W).

Import appv1alpha1.

Lemma getSubscriptionDeployables_done sub w :
  ∃ allDpls tr w1,
    run h (getSubscriptionDeployables sub) w = (Done allDpls, tr, w1)
    ∧ ∀ k, k ∈ dom (default ∅ allDpls) → k ≠ "".
Proof.
  unfold getSubscriptionDeployables, GetChannelNamespaceType. simpl.
  destruct (h _ (GetChannel (channelKey sub)) w) as [r w1].
  destruct (listSelector sub) as [err|selector]; simpl.
  - destruct (h _ (Klog ERROR _) w1) as [[] w2]. simpl.
    eexists _, _, _. split; [done|]. set_solver.
  - destruct (h _ (ListDeployables _ selector) w1) as [[err|items] w2]; simpl.
    + destruct (h _ (Klog ERROR _) w2) as [[] w3]. simpl.
      eexists _, _, _. split; [done|]. set_solver.
    + eexists _, _, _. split; [done|]. simpl. intros k Hk.
      apply keepMatching_keys in Hk as [Hk|(dpl & _ & _ & ->)]; [set_solver|].
      apply deployableKey_nonempty.
Qed.

(** The match pass evaluates every artifact of a list answer. *)
Lemma getSubscriptionDeployables_listed sub (w : W) items :
  items ∈ omap listed (trace h (getSubscriptionDeployables sub) w) →
  outcome h (getSubscriptionDeployables sub) w
  = Done (Some (foldl (keepMatching sub) ∅ items)).
Proof.
  unfold trace, outcome, getSubscriptionDeployables, GetChannelNamespaceType. simpl.
  destruct (h _ (GetChannel (channelKey sub)) w) as [r w1].
  destruct (listSelector sub) as [err|selector]; simpl.
  - destruct (h _ (Klog ERROR _) w1) as [[] w2]. simpl. by intros ?%elem_of_nil.
  - destruct (h _ (ListDeployables _ selector) w1) as [[err|items'] w2]; simpl.
    + destruct (h _ (Klog ERROR _) w2) as [[] w3]. simpl. by intros ?%elem_of_nil.
    + by intros ->%list_elem_of_singleton.
Qed.

(** The keys of the matched map are the keys of the listed artifacts that pass
    the filter. *)
Lemma foldl_keepMatching_dom sub (items : list dplv1alpha1.Deployable)
    (acc : gmap string dplv1alpha1.Deployable) :
  dom (foldl (keepMatching sub) acc items) = dom acc ∪ matchedKeys sub items.
Proof.
  revert acc. unfold matchedKeys.
  induction items as [|dpl items IH]; intros acc; simpl; [set_solver|].
  rewrite IH. unfold keepMatching.
  destruct (checkDeployableBySubcriptionPackageFilter sub dpl) as [[] dpl']; simpl.
  - rewrite dom_insert_L. set_solver.
  - done.
Qed.

Lemma getSubscriptionDeployables_matched sub (w : W) items :
  items ∈ omap listed (trace h (getSubscriptionDeployables sub) w) →
  ∃ allDpls, outcome h (getSubscriptionDeployables sub) w = Done allDpls
             ∧ dom (default ∅ allDpls) = matchedKeys sub items.
Proof.
  intros Hitems. rewrite (getSubscriptionDeployables_listed sub w items Hitems).
  eexists. split; [done|]. simpl. rewrite foldl_keepMatching_dom. set_solver.
Qed.

(** The whole run of the refresh, given the run of the match pass. *)
Lemma UpdateDeployablesAnnotation_run sub w allDpls tr1 w1 :
  run h (getSubscriptionDeployables sub) w = (Done allDpls, tr1, w1) →
  let matched : gset string := dom (default ∅ allDpls) in
  if annotationChanged matched (GetAnnotations sub) then
    ∃ err w2,
      run h (UpdateDeployablesAnnotation sub) w =
        (Done (true, annotated sub matched),
         tr1 ++ Ev (Klog INFO "subscription updated for ") ()
             :: Ev (UpdateSubscription (annotated sub matched)) err
             :: match err with
                | Some _ => [Ev (Klog INFO annotationFailureLine) ()]
                | None => []
                end,
         w2)
  else run h (UpdateDeployablesAnnotation sub) w = (Done (false, sub), tr1, w1).
Proof.
  intros Hrun matched. unfold UpdateDeployablesAnnotation.
  rewrite run_bind, Hrun. fold matched.
  destruct (annotationChanged matched (GetAnnotations sub)) eqn:Hch; simpl.
  - destruct (h _ (Klog INFO _) w1) as [[] w2].
    destruct (h _ (UpdateSubscription _) w2) as [[err|] w3]; simpl.
    + destruct (h _ (Klog INFO _) w3) as [[] w4]. simpl.
      exists (Some err), w4. done.
    + exists None, w3. done.
  - by rewrite app_nil_r.
Qed.

End AnnotationRefresh.

Section BookkeepingClosure.

Context `{Externals} {W : Type} (h : Handler W).

Import appv1alpha1.

Lemma decode_annotated sub (matched : gset string) :
  (∀ k, k ∈ matched → commaFree k = true ∧ k ≠ "") →
  decodeDeployables (GetAnnotations (annotated sub matched)) = matched.
Proof. intros Hks. by apply decode_after_update. Qed.

(** C3. [UpdateDeployablesAnnotation] reports a change exactly when the set
    of keys of the matched artifacts (the keys of the listed artifacts that
    pass the filter) differs from the set decoded from the subscription's
    annotation, whatever the order of either. When it does, the only mutating
    call is one update of the subscription, and the annotation of the
    subscription sent decodes to exactly the matched keys, provided no key
    holds a comma, as is the case for the names of Kubernetes objects; when
    it does not, nothing is written and the subscription is as before. *)
Theorem C3_annotation_is_the_matched_set sub (w : W)
    (allDpls : option (gmap string dplv1alpha1.Deployable)) :
  outcome h (getSubscriptionDeployables sub) w = Done allDpls →
  let matched : gset string := dom (default ∅ allDpls) in
  (∀ items, items ∈ omap listed (trace h (getSubscriptionDeployables sub) w) →
            matched = matchedKeys sub items)
  ∧ ∃ updated sub',
      outcome h (UpdateDeployablesAnnotation sub) w = Done (updated, sub')
      ∧ (updated = true ↔ matched ≠ decodeDeployables (GetAnnotations sub))
      ∧ (updated = true →
         (∃ err, calls isWrite (trace h (UpdateDeployablesAnnotation sub) w)
                 = [Ev (UpdateSubscription sub') err])
         ∧ (forallb commaFree (elements matched) = true →
            decodeDeployables (GetAnnotations sub') = matched))
      ∧ (updated = false →
         calls isWrite (trace h (UpdateDeployablesAnnotation sub) w) = []
         ∧ sub' = sub).
Proof.
  intros Hout matched. split.
  { intros items Hitems.
    destruct (getSubscriptionDeployables_matched h sub w items Hitems) as (a & Ha & Hdom).
    rewrite Hout in Ha. by injection Ha as <-. }
  destruct (getSubscriptionDeployables_done h sub w) as (allDpls' & tr1 & w1 & Hrun & Hne).
  unfold outcome in Hout. rewrite Hrun in Hout. simpl in Hout.
  injection Hout as ->.
  assert (calls isWrite tr1 = []) as Hreads.
  { pose proof (noCall_calls h isWrite _ w (proj1 (getSubscriptionDeployables_reads sub))) as Hc.
    unfold trace in Hc. by rewrite Hrun in Hc. }
  pose proof (UpdateDeployablesAnnotation_run h sub w allDpls tr1 w1 Hrun) as Hu.
  cbv zeta in Hu. fold matched in Hu.
  pose proof (annotationChanged_iff matched (GetAnnotations sub)) as Hiff.
  unfold outcome, trace.
  destruct (annotationChanged matched (GetAnnotations sub)).
  - destruct Hu as (err & w2 & ->). simpl.
    exists true, (annotated sub matched). split; [done|]. split; [done|]. split; [|done].
    intros _. split.
    + exists err. rewrite calls_app, Hreads. simpl. by destruct err.
    + intros Hcomma. apply decode_annotated. intros k Hk. split; [|by apply Hne].
      rewrite forallb_forall in Hcomma. apply Hcomma.
      apply list_elem_of_In, elem_of_elements, Hk.
  - rewrite Hu. simpl. exists false, sub. split; [done|]. split.
    + split; [done|]. intros Hne'. by apply Hiff in Hne'.
    + split; done.
Qed.

End BookkeepingClosure.

(** * The cycle ends after an annotation change *)

Section AnnotationChange.

Context `{Externals} {W : Type} (h : Handler W).

Import appv1alpha1.

(** C10. When the refresh of the bookkeeping annotation detects a change,
    [doMCMHubReconcile] returns nil right after it: the calls of the cycle
    are the calls of the refresh, among them no create, update or delete of a
    Deployable and no status write; and when the update of the annotation
    itself failed, the failure is in the log and the cycle still returns
    nil. *)
Theorem C10_annotation_change_ends_the_cycle sub (w : W) sub' :
  outcome h (UpdateDeployablesAnnotation sub) w = Done (true, sub') →
  outcome h (doMCMHubReconcile sub) w = Done (sub', None)
  ∧ trace h (doMCMHubReconcile sub) w = trace h (UpdateDeployablesAnnotation sub) w
  ∧ calls isDeployableWrite (trace h (doMCMHubReconcile sub) w) = []
  ∧ calls isStatusUpdate (trace h (doMCMHubReconcile sub) w) = []
  ∧ (omap annotationWriteError (trace h (doMCMHubReconcile sub) w) ≠ [] →
     annotationFailureLine ∈ omap logged (trace h (doMCMHubReconcile sub) w)).
Proof.
  intros Hout.
  destruct (UpdateDeployablesAnnotation_footprint sub) as (Hf1 & Hf2 & _).
  pose proof (noCall_calls h _ _ w Hf1) as Hc1.
  pose proof (noCall_calls h _ _ w Hf2) as Hc2.
  assert (run h (doMCMHubReconcile sub) w
          = (Done (sub', None), trace h (UpdateDeployablesAnnotation sub) w,
             world h (UpdateDeployablesAnnotation sub) w)) as Hrun.
  { unfold doMCMHubReconcile. rewrite run_bind.
    unfold outcome, trace, world in *.
    destruct (run h (UpdateDeployablesAnnotation sub) w) as [[o tr] w1].
    simpl in *. subst o. simpl. by rewrite app_nil_r. }
  unfold outcome at 1. unfold trace at 1 3 4 5 6. rewrite Hrun. simpl.
  split; [done|]. split; [done|]. split; [done|]. split; [done|].
  destruct (getSubscriptionDeployables_done h sub w) as (allDpls & tr1 & w1 & Hg & _).
  pose proof (UpdateDeployablesAnnotation_run h sub w allDpls tr1 w1 Hg) as Hu.
  cbv zeta in Hu.
  assert (omap annotationWriteError tr1 = []) as Hno.
  { apply (omap_calls_nil isSubscriptionUpdate).
    - intros [R e r] [x Hx]. by destruct e; try done.
    - apply (calls_nil_weaken isWrite).
      + intros R e He. unfold isWrite. rewrite He. by destruct (isDeployableWrite R e).
      + pose proof (noCall_calls h isWrite _ w
                      (proj1 (getSubscriptionDeployables_reads sub))) as Hc.
        unfold trace in Hc. by rewrite Hg in Hc. }
  unfold outcome, trace in *.
  destruct (annotationChanged _ _).
  - destruct Hu as (err & w2 & ->). simpl.
    rewrite !omap_app_events, Hno. simpl.
    destruct err as [e|]; simpl; [|done].
    intros _. apply elem_of_app. right. simpl. rewrite !elem_of_cons. auto.
  - rewrite Hu in Hout. simpl in Hout. by injection Hout.
Qed.

End AnnotationChange.

(** * Global and per-cluster overrides *)

Section Overrides.

Context `{Externals} {W : Type} (h : Handler W).

Import appv1alpha1.

Lemma overrideStep_carried raw dplovs ov :
  dplv1alpha1.ClusterName ov ≠ "/" →
  overrideStep (raw, dplovs) ov = inr (raw, append dplovs ov).
Proof. intros Hne. unfold overrideStep. by destruct (decide _). Qed.

Lemma overrideStep_global raw dplovs ov :
  dplv1alpha1.ClusterName ov = "/" →
  overrideStep (raw, dplovs) ov
  = match patchTemplate raw ov with
    | inl e => inl e
    | inr raw' => inr (raw', dplovs)
    end.
Proof. intros Heq. unfold overrideStep. by destruct (decide _). Qed.

(** The loop against the rule: the template went through the global entries
    in order, the carried entries were appended in order. *)
Lemma overrideLoop_spec ovs raw dplovs raw' dplovs' :
  overrideLoop ovs (raw, dplovs) = inr (raw', dplovs') →
  applyInOrder raw (globalEntries ovs) = inr raw'
  ∧ elems dplovs' = elems dplovs ++ carriedEntries ovs
  ∧ (carriedEntries ovs = [] → dplovs' = dplovs).
Proof.
  revert raw dplovs. induction ovs as [|ov ovs IH]; intros raw dplovs; simpl.
  - intros [= -> ->]. by rewrite app_nil_r.
  - unfold globalEntries, carriedEntries. simpl.
    fold (globalEntries ovs). fold (carriedEntries ovs).
    destruct (decide (dplv1alpha1.ClusterName ov = "/")) as [Hg|Hc].
    + assert (isGlobal ov = true) as -> by by apply bool_decide_eq_true_2.
      simpl. destruct (patchTemplate raw ov) as [e|raw1]; [done|]. apply IH.
    + assert (isGlobal ov = false) as -> by by apply bool_decide_eq_false_2.
      simpl. intros (H1 & H2 & H3)%IH. split; [done|]. split; [|done].
      rewrite H2. unfold append. simpl. by rewrite <- app_assoc.
Qed.

(** The successful runs of the synthesis. *)
Lemma prepareDeployableForSubscription_ok sub rootSub (w : W) dpl :
  outcome h (prepareDeployableForSubscription sub rootSub) w = Done (inr dpl) →
  ∃ subepanno rawep dpl0 raw dplovs,
    marshalSubscription (subepFinal (subepClone sub rootSub) subepanno) = inr rawep
    ∧ SetControllerReference sub (newDeployable sub rawep) = inr dpl0
    ∧ overrideLoop (elems (Overrides (Spec sub))) (rawep, None) = inr (raw, dplovs)
    ∧ dpl = dplv1alpha1.setSpec dpl0
              (dplv1alpha1.setOverrides
                 (dplv1alpha1.setTemplate (dplv1alpha1.Spec dpl0)
                    (Some {| runtime.Raw := raw |}))
                 dplovs).
Proof.
  unfold outcome, prepareDeployableForSubscription. rewrite run_bind.
  destruct (run h _ w) as [[[subepanno|] tr] w1]; [|done].
  destruct (marshalSubscription _) as [err|rawep] eqn:Hm; simpl.
  { by destruct (h _ (Klog INFO _) w1) as [[] w2]. }
  destruct (SetControllerReference sub (newDeployable sub rawep)) as [err|dpl0] eqn:Hs;
    simpl; [done|].
  destruct (overrideLoop _ _) as [[msg err]|[raw dplovs]] eqn:Hl; simpl.
  { by destruct (h _ (Klog INFO _) w1) as [[] w2]. }
  intros [= <-]. by eexists _, _, _, _, _.
Qed.

(** C2. In the Deployable that [prepareDeployableForSubscription] returns,
    the template is the serialized clone after the entries named [/] were
    applied to it in input order, each to the result of the one before, and
    [spec.overrides] holds the other entries, verbatim and in input order;
    an entry with another cluster name leaves the template as it is and an
    entry named [/] leaves the override list as it is. *)
Theorem C2_global_overrides_applied_others_carried sub rootSub (w : W) dpl :
  outcome h (prepareDeployableForSubscription sub rootSub) w = Done (inr dpl) →
  let ovs := elems (Overrides (Spec sub)) in
  (∃ subepanno rawep raw,
     marshalSubscription (subepFinal (subepClone sub rootSub) subepanno) = inr rawep
     ∧ applyInOrder rawep (globalEntries ovs) = inr raw
     ∧ dplv1alpha1.Template (dplv1alpha1.Spec dpl) = Some {| runtime.Raw := raw |})
  ∧ elems (dplv1alpha1.Overrides_ (dplv1alpha1.Spec dpl)) = carriedEntries ovs
  ∧ Forall (λ ov, dplv1alpha1.ClusterName ov ≠ "/")
      (elems (dplv1alpha1.Overrides_ (dplv1alpha1.Spec dpl)))
  ∧ (∀ raw dplovs ov, dplv1alpha1.ClusterName ov ≠ "/" →
       overrideStep (raw, dplovs) ov = inr (raw, append dplovs ov))
  ∧ (∀ raw dplovs ov, dplv1alpha1.ClusterName ov = "/" →
       overrideStep (raw, dplovs) ov
       = match patchTemplate raw ov with
         | inl e => inl e
         | inr raw' => inr (raw', dplovs)
         end).
Proof.
  intros (subepanno & rawep & dpl0 & raw & dplovs & Hm & Hs & Hl & ->)
    %prepareDeployableForSubscription_ok ovs.
  apply overrideLoop_spec in Hl as (Happly & Hcarried & _). simpl in Hcarried.
  split; [by exists subepanno, rawep, raw|].
  split; [done|].
  split.
  - simpl. rewrite Hcarried. apply Forall_forall. intros ov Hov.
    apply list_elem_of_In, List.filter_In in Hov as [_ Hov].
    unfold isGlobal in Hov. by case_bool_decide.
  - split; [apply overrideStep_carried|apply overrideStep_global].
Qed.

End Overrides.

(** * Status aggregation *)

Section StatusAggregation.

Context `{Externals} {W : Type} (h : Handler W).

Import appv1alpha1.

(** A successful pass over the clusters gives every visited cluster its
    entry and leaves the other keys alone. *)
Lemma aggregateStatuses_ok ps ks acc m :
  aggregateStatuses ps ks acc = inr m →
  (∀ k v, k ∈ ks → ps !! k = Some v →
     ∃ entry, clusterEntry v = inr entry ∧ m !! k = Some entry)
  ∧ (∀ k, k ∉ ks ∨ ps !! k = None → m !! k = acc !! k).
Proof.
  revert acc. induction ks as [|k0 ks IH]; intros acc; simpl.
  - intros [= ->]. split; [by intros ?? ?%elem_of_nil|done].
  - destruct (ps !! k0) as [v0|] eqn:Hk0.
    + destruct (clusterEntry v0) as [err|entry0] eqn:He; [done|].
      intros [IH1 IH2]%IH. split.
      * intros k v [->|Hk]%elem_of_cons Hv.
        -- destruct (decide (k0 ∈ ks)) as [Hin|Hout]; [by eapply IH1|].
           rewrite Hv in Hk0. injection Hk0 as ->.
           exists entry0. split; [done|].
           rewrite IH2 by by left. by rewrite lookup_insert_eq.
        -- by eapply IH1.
      * intros k Hk. destruct (decide (k = k0)) as [->|Hne].
        -- destruct Hk as [Hk|Hk]; [|congruence]. exfalso. apply Hk. by left.
        -- rewrite IH2, lookup_insert_ne by (try done; set_solver). done.
    + intros [IH1 IH2]%IH. split.
      * intros k v [->|Hk]%elem_of_cons Hv; [congruence|by eapply IH1].
      * intros k Hk. apply IH2. destruct Hk as [Hk|Hk]; [|by right].
        left. set_solver.
Qed.

(** The pass fails as soon as one visited cluster has an entry that does not
    decode. *)
Lemma aggregateStatuses_fails ps ks acc k v e :
  k ∈ ks → ps !! k = Some v → clusterEntry v = inl e →
  ∃ e', aggregateStatuses ps ks acc = inl e'.
Proof.
  revert acc. induction ks as [|k0 ks IH]; intros acc Hk Hv He; simpl.
  - by apply elem_of_nil in Hk.
  - destruct (decide (k = k0)) as [<-|Hne].
    + rewrite Hv, He. by eexists.
    + apply elem_of_cons in Hk as [|Hk]; [done|].
      destruct (ps !! k0) as [v0|]; [|by apply IH].
      destruct (clusterEntry v0) as [err|entry]; [by eexists|by apply IH].
Qed.

(** The whole run of the aggregator. *)
Lemma updateSubscriptionStatus_run sub found (w : W) :
  match newStatuses found with
  | inl err =>
      ∃ w1, run h (updateSubscriptionStatus sub found) w
            = (Done (sub, Some err), [Ev (Klog INFO decodeFailureLine) ()], w1)
  | inr sts =>
      let new := newSubStatus sub sts in
      if decide (new = Status sub) then
        run h (updateSubscriptionStatus sub found) w = (Done (sub, None), [], w)
      else
        ∃ now err w1,
          run h (updateSubscriptionStatus sub found) w
          = (Done (setStatus sub (setLastUpdateTime new now), None),
             Ev Now now
               :: Ev (StatusUpdate (setStatus sub (setLastUpdateTime new now))) err
               :: match err with
                  | Some _ => [Ev (Klog INFO statusFailureLine) ()]
                  | None => []
                  end,
             w1)
  end.
Proof.
  unfold updateSubscriptionStatus.
  destruct (newStatuses found) as [err|sts]; simpl.
  - destruct (h _ (Klog INFO _) w) as [[] w1]. by exists w1.
  - destruct (decide (newSubStatus sub sts = Status sub)) as [Heq|Hne].
    + by rewrite bool_decide_eq_true_2.
    + rewrite bool_decide_eq_false_2 by done. simpl.
      destruct (h _ Now w) as [now w1].
      destruct (h _ (StatusUpdate _) w1) as [[err|] w2]; simpl.
      * destruct (h _ (Klog INFO _) w2) as [[] w3]. by exists now, (Some err), w3.
      * by exists now, None, w2.
Qed.

End StatusAggregation.

Section StatusRollup.

Context `{Externals} {W : Type} (h : Handler W).

Import appv1alpha1.

Lemma newStatuses_entries found m :
  dplv1alpha1.Phase (dplv1alpha1.Status found) ≠ DeployableFailed →
  newStatuses found = inr (Some m) →
  let ps := default ∅ (dplv1alpha1.PropagatedStatus (dplv1alpha1.Status found)) in
  dom m = dom ps
  ∧ ∀ k v, ps !! k = Some v → ∃ entry, clusterEntry v = inr entry ∧ m !! k = Some entry.
Proof.
  intros Hphase Hnew ps. unfold newStatuses in Hnew.
  destruct (decide _) as [|_]; [done|]. fold ps in Hnew.
  destruct (aggregateStatuses _ _ _) as [err|m'] eqn:Hagg; [done|].
  injection Hnew as ->.
  apply aggregateStatuses_ok in Hagg as [Hin Hout].
  assert (∀ k v, ps !! k = Some v → ∃ entry, clusterEntry v = inr entry ∧ m !! k = Some entry)
    as Hentries.
  { intros k v Hv. apply (Hin k v); [|done].
    apply elem_of_rangeKeys, elem_of_dom. by exists v. }
  split; [|done].
  apply set_eq. intros k. rewrite !elem_of_dom. split.
  - intros [entry Hk]. destruct (ps !! k) as [v|] eqn:Hv; [done|].
    rewrite Hout in Hk by by right. by rewrite lookup_empty in Hk.
  - intros [v Hv]. destruct (Hentries k v Hv) as (entry & _ & ->). done.
Qed.

(** C4. The status the aggregator computes, for a Deployable whose payloads
    decode: no per-cluster statuses when the Deployable's phase is Failed;
    otherwise one entry for each cluster key of the propagated status, which
    is the [/] entry of the decoded payload for a cluster that reports
    Deployed and the empty entry for any other phase. These per-cluster
    statuses are the ones of the new status, whose phase is Propagated, whose
    message and reason are empty and whose time is the stored one. The
    status is written exactly when it differs from the stored status: the
    subscription sent and returned is the given one with the new status,
    per-cluster statuses included, stamped with the time just read from the
    clock. *)
Theorem C4_status_rollup sub found (w : W) sts :
  newStatuses found = inr sts →
  let ps := default ∅ (dplv1alpha1.PropagatedStatus (dplv1alpha1.Status found)) in
  let new := newSubStatus sub sts in
  (dplv1alpha1.Phase (dplv1alpha1.Status found) = DeployableFailed → sts = None)
  ∧ (dplv1alpha1.Phase (dplv1alpha1.Status found) ≠ DeployableFailed →
     ∃ m, sts = Some m ∧ dom m = dom ps
          ∧ ∀ k v, ps !! k = Some v →
              (dplv1alpha1.unitPhase v = DeployableDeployed →
               ∃ mcsubstatus, decodeResourceStatus v = inr mcsubstatus
                              ∧ m !! k = Some (slashEntry mcsubstatus))
              ∧ (dplv1alpha1.unitPhase v ≠ DeployableDeployed →
                 m !! k = Some (Some zeroPerClusterStatus)))
  ∧ Phase new = SubscriptionPropagated
  ∧ Statuses new = sts
  ∧ Message new = "" ∧ Reason new = ""
  ∧ LastUpdateTime new = LastUpdateTime (Status sub)
  ∧ (new ≠ Status sub →
     ∃ now err,
       outcome h (updateSubscriptionStatus sub found) w
       = Done (setStatus sub (setLastUpdateTime new now), None)
       ∧ trace h (updateSubscriptionStatus sub found) w
         = Ev Now now
             :: Ev (StatusUpdate (setStatus sub (setLastUpdateTime new now))) err
             :: match err with
                | Some _ => [Ev (Klog INFO statusFailureLine) ()]
                | None => []
                end
       ∧ setStatus sub (setLastUpdateTime new now)
         = {| TypeMeta := TypeMeta sub; ObjectMeta := ObjectMeta sub; Spec := Spec sub;
              Status := {| Phase := SubscriptionPropagated; Message := ""; Reason := "";
                           LastUpdateTime := now; Statuses := sts |} |})
  ∧ (new = Status sub →
     outcome h (updateSubscriptionStatus sub found) w = Done (sub, None)
     ∧ trace h (updateSubscriptionStatus sub found) w = []
     ∧ Statuses (Status sub) = sts).
Proof.
  intros Hsts ps new.
  split.
  { intros Hfailed. unfold newStatuses in Hsts.
    destruct (decide _) as [_|]; [|done]. by injection Hsts as <-. }
  split.
  { intros Hphase. destruct sts as [m|].
    2: { unfold newStatuses in Hsts. destruct (decide _); [done|].
         by destruct (aggregateStatuses _ _ _). }
    destruct (newStatuses_entries found m Hphase Hsts) as [Hdom Hentries].
    exists m. split; [done|]. split; [done|].
    intros k v Hv. destruct (Hentries k v Hv) as (entry & Hentry & Hk).
    unfold clusterEntry in Hentry. split; intros Hp.
    - destruct (decide _) as [_|]; [|done].
      destruct (decodeResourceStatus v) as [err|mc]; [done|].
      injection Hentry as <-. by exists mc.
    - destruct (decide _) as [|_]; [done|]. by injection Hentry as <-. }
  do 5 (split; [done|]).
  pose proof (updateSubscriptionStatus_run h sub found w) as Hrun.
  rewrite Hsts in Hrun. cbv zeta in Hrun. fold new in Hrun.
  unfold outcome, trace.
  destruct (decide (new = Status sub)) as [Heq|Hne].
  - rewrite Hrun. split; [done|]. intros _. split; [done|]. split; [done|].
    by rewrite <- Heq.
  - destruct Hrun as (now & err & w1 & ->). split; [|done].
    intros _. by exists now, err.
Qed.

(** C7. When the payload of a cluster that reports Deployed does not decode,
    the aggregator returns an error and writes nothing; when the status
    write fails, the failure is logged and the aggregator returns nil. *)
Theorem C7_decode_error_aborts_write_error_swallowed sub found (w : W) :
  (∀ k v rs e,
     dplv1alpha1.Phase (dplv1alpha1.Status found) ≠ DeployableFailed →
     default ∅ (dplv1alpha1.PropagatedStatus (dplv1alpha1.Status found)) !! k = Some v →
     dplv1alpha1.unitPhase v = DeployableDeployed →
     dplv1alpha1.ResourceStatus v = Some rs →
     unmarshalStatus (runtime.Raw rs) = inl e →
     (∃ e', outcome h (updateSubscriptionStatus sub found) w = Done (sub, Some e'))
     ∧ calls isWrite (trace h (updateSubscriptionStatus sub found) w) = [])
  ∧ (omap statusWriteError (trace h (updateSubscriptionStatus sub found) w) ≠ [] →
     (∃ sub', outcome h (updateSubscriptionStatus sub found) w = Done (sub', None))
     ∧ statusFailureLine ∈ omap logged (trace h (updateSubscriptionStatus sub found) w)).
Proof.
  pose proof (updateSubscriptionStatus_run h sub found w) as Hrun.
  unfold outcome, trace. split.
  - intros k v rs e Hphase Hv Hdeployed Hrs Hdecode.
    assert (∃ e', newStatuses found = inl e') as [e' He'].
    { unfold newStatuses. destruct (decide _) as [|_]; [done|].
      destruct (aggregateStatuses_fails
                  (default ∅ (dplv1alpha1.PropagatedStatus (dplv1alpha1.Status found)))
                  (rangeKeys rangePropagatedStatus
                     (dom (default ∅ (dplv1alpha1.PropagatedStatus (dplv1alpha1.Status found)))))
                  ∅ k v e) as [e' ->].
      - apply elem_of_rangeKeys, elem_of_dom. by exists v.
      - done.
      - unfold clusterEntry, decodeResourceStatus.
        destruct (decide _) as [_|]; [|done]. by rewrite Hrs, Hdecode.
      - by eexists. }
    rewrite He' in Hrun. destruct Hrun as [w1 ->]. simpl. split; [by exists e'|done].
  - destruct (newStatuses found) as [err|sts].
    + destruct Hrun as [w1 ->]. done.
    + cbv zeta in Hrun. destruct (decide _) as [Heq|Hne].
      * rewrite Hrun. done.
      * destruct Hrun as (now & err & w1 & ->). simpl.
        destruct err as [e|]; [|done]. intros _. split; [by eexists|].
        simpl. by left.
Qed.

End StatusRollup.

(** * The rolling-update target *)

Section RollingUpdate.

Context `{Externals} {W : Type} (h : Handler W).

Import appv1alpha1.

Lemma fetchError_nil (tr : list Event) :
  calls isGetSubscription tr = [] → omap fetchError tr = [].
Proof.
  apply omap_calls_nil. intros [R e r] [x Hx]. by destruct e.
Qed.

Lemma no_fetch_in {A} (p : Prog A) (w : W) :
  noCall isGetSubscription p → omap fetchError (run h p w).1.2 = [].
Proof. intros Hp. apply fetchError_nil, (noCall_calls h _ p w Hp). Qed.

Lemma no_write_in {A} (p : Prog A) (w : W) :
  noCall isWrite p → calls isWrite (run h p w).1.2 = [].
Proof. intros Hp. apply (noCall_calls h _ p w Hp). Qed.

(** A subscription that names a target is fetched first of all. *)
Lemma createTargetDplForRollingUpdate_fetches sub (w : W) :
  index (GetAnnotations sub) AnnotationRollingUpdateTarget ≠ "" →
  ∃ r tr, trace h (createTargetDplForRollingUpdate sub) w
          = Ev (GetSubscription (targetSubKey sub)) r :: tr.
Proof.
  intros Hanno. unfold trace, createTargetDplForRollingUpdate.
  rewrite (bool_decide_eq_false_2 (index _ _ = "")) by done.
  destruct (GetAnnotations sub) as [anno|] eqn:Ha; [|done].
  rewrite bool_decide_eq_false_2 by done. simpl.
  destruct (h _ (GetSubscription _) w) as [r w1].
  destruct (run h _ w1) as [[o tr] w2]. simpl. by eexists _, _.
Qed.

(** What a failed fetch of the target subscription leads to. *)
Lemma createTargetDplForRollingUpdate_fetch_failed sub (w : W) e :
  e ∈ omap fetchError (trace h (createTargetDplForRollingUpdate sub) w) →
  calls isWrite (trace h (createTargetDplForRollingUpdate sub) w) = []
  ∧ outcome h (createTargetDplForRollingUpdate sub) w
    = Done (None, if IsNotFound e then None else Some e).
Proof.
  unfold trace, outcome, createTargetDplForRollingUpdate.
  destruct (_ || _); [by intros ?%elem_of_nil|].
  cbn [run bind mbind Prog_bind trigger].
  destruct (h _ (GetSubscription _) w) as [[err|targetSub] w1].
  - destruct (IsNotFound err) eqn:Hnf; simpl;
      destruct (h _ (Klog INFO _) w1) as [[] w2]; simpl;
      intros ->%list_elem_of_singleton; by rewrite Hnf.
  - destruct (run h _ w1) as [[o tr] w2] eqn:Hrun. intros He. exfalso.
    change (e ∈ omap fetchError tr) in He.
    rewrite run_bind in Hrun.
    pose proof (no_fetch_in (prepareDeployableForSubscription targetSub (Some sub)) w1
                  (proj2 (prepareDeployableForSubscription_reads _ _))) as Hp.
    destruct (run h (prepareDeployableForSubscription targetSub (Some sub)) w1)
      as [[[[err|dpl]|] tr2] w3]; simpl in Hp; cbv beta iota zeta in Hrun.
    + injection Hrun as <- <- <-. rewrite app_nil_r, Hp in He. by apply elem_of_nil in He.
    + rewrite run_bind in Hrun.
      match type of Hrun with
      | context [run h (updateTargetSubscriptionDeployable ?s ?d) w3] =>
          pose proof (no_fetch_in (updateTargetSubscriptionDeployable s d) w3
                        (proj1 (updateTargetSubscriptionDeployable_footprint _ _))) as Hu;
          destruct (run h (updateTargetSubscriptionDeployable s d) w3) as [[[err|] tr3] w4]
      end; simpl in Hu; cbv beta iota zeta in Hrun; simpl in Hrun;
        injection Hrun as <- <- <-;
        rewrite ?app_nil_r, ?omap_app_events, Hp, ?Hu in He; by apply elem_of_nil in He.
    + injection Hrun as <- <- <-. rewrite Hp in He. by apply elem_of_nil in He.
Qed.

End RollingUpdate.

Section RollingUpdateCycle.

Context `{Externals} {W : Type} (h : Handler W).

Import appv1alpha1.

(** The cycle up to the primary Deployable: the refresh found no change, the
    synthesis and the target step succeeded. Every other run ends before. *)
Lemma doMCMHubReconcile_run sub (w : W) :
  ∃ allDpls tr1 w1,
    run h (getSubscriptionDeployables sub) w = (Done allDpls, tr1, w1)
    ∧ if annotationChanged (dom (default ∅ allDpls)) (GetAnnotations sub) then
        ∃ tr w2, run h (UpdateDeployablesAnnotation sub) w
                 = (Done (true, annotated sub (dom (default ∅ allDpls))), tr, w2)
                 ∧ run h (doMCMHubReconcile sub) w
                   = (Done (annotated sub (dom (default ∅ allDpls)), None), tr, w2)
      else
        match Placement (Spec sub) with
        | None =>
            run h (doMCMHubReconcile sub) w
            = let '(o, tr, w2) := run h (stopDeploySubscription sub) w1 in (o, tr1 ++ tr, w2)
        | Some _ =>
            match run h (prepareDeployableForSubscription sub None) w1 with
            | (Done (inl err), tr2, w2) =>
                run h (doMCMHubReconcile sub) w = (Done (sub, Some err), tr1 ++ tr2, w2)
            | (Done (inr dpl), tr2, w2) =>
                match run h (createTargetDplForRollingUpdate sub) w2 with
                | (Done (targetDpl, Some e), tr3, w3) =>
                    run h (doMCMHubReconcile sub) w
                    = (Done (sub, Some e), tr1 ++ tr2 ++ tr3, w3)
                | (Done (targetDpl, None), tr3, w3) =>
                    run h (doMCMHubReconcile sub) w
                    = let '(o, tr4, w4) :=
                        run h (reconcilePrimary sub (markRollingUpdateTarget dpl targetDpl)) w3
                      in (o, tr1 ++ tr2 ++ tr3 ++ tr4, w4)
                | (Panicked, tr3, w3) =>
                    run h (doMCMHubReconcile sub) w = (Panicked, tr1 ++ tr2 ++ tr3, w3)
                end
            | (Panicked, tr2, w2) =>
                run h (doMCMHubReconcile sub) w = (Panicked, tr1 ++ tr2, w2)
            end
        end.
Proof.
  destruct (getSubscriptionDeployables_done h sub w) as (allDpls & tr1 & w1 & Hg & _).
  exists allDpls, tr1, w1. split; [done|].
  pose proof (UpdateDeployablesAnnotation_run h sub w allDpls tr1 w1 Hg) as Hu.
  cbv zeta in Hu. unfold doMCMHubReconcile. rewrite run_bind.
  destruct (annotationChanged _ _).
  - destruct Hu as (err & w2 & ->). eexists _, w2. split; [done|].
    simpl. by rewrite app_nil_r.
  - rewrite Hu. cbv beta iota.
    destruct (Placement (Spec sub)) as [p|]; [|done].
    rewrite run_bind.
    destruct (run h (prepareDeployableForSubscription sub None) w1)
      as [[[[err|dpl]|] tr2] w2]; cbv beta iota; [simpl; by rewrite app_nil_r| |done].
    rewrite run_bind.
    destruct (run h (createTargetDplForRollingUpdate sub) w2)
      as [[[[targetDpl [e|]]|] tr3] w3]; cbv beta iota.
    + simpl. by rewrite app_nil_r.
    + by destruct (run h (reconcilePrimary _ _) w3) as [[o tr4] w4].
    + done.
Qed.

End RollingUpdateCycle.

Section RollingUpdateErrors.

Context `{Externals} {W : Type} (h : Handler W).

Import appv1alpha1.

Lemma getSubscriptionDeployables_trace sub (w : W) allDpls tr1 w1 :
  run h (getSubscriptionDeployables sub) w = (Done allDpls, tr1, w1) →
  omap fetchError tr1 = [] ∧ calls isWrite tr1 = [].
Proof.
  intros Hg.
  pose proof (no_fetch_in h _ w (proj2 (getSubscriptionDeployables_reads sub))) as H1.
  pose proof (no_write_in h _ w (proj1 (getSubscriptionDeployables_reads sub))) as H2.
  by rewrite Hg in H1, H2.
Qed.

(** A failed fetch of the target subscription with an error other than
    not-found ends the cycle with that error, before anything is written. *)
Lemma doMCMHubReconcile_fetch_failed sub (w : W) e :
  e ∈ omap fetchError (trace h (doMCMHubReconcile sub) w) →
  IsNotFound e = false →
  outcome h (doMCMHubReconcile sub) w = Done (sub, Some e)
  ∧ calls isWrite (trace h (doMCMHubReconcile sub) w) = [].
Proof.
  unfold trace, outcome. intros He Hnf.
  destruct (doMCMHubReconcile_run h sub w) as (allDpls & tr1 & w1 & Hg & Hrun).
  destruct (getSubscriptionDeployables_trace sub w allDpls tr1 w1 Hg) as [Hf1 Hw1].
  destruct (annotationChanged _ _).
  { destruct Hrun as (tr & w2 & Hu & Hrun). rewrite Hrun in He. simpl in He.
    pose proof (no_fetch_in h _ w (proj2 (proj2 (UpdateDeployablesAnnotation_footprint sub))))
      as Hf.
    rewrite Hu in Hf. simpl in Hf. rewrite Hf in He. by apply elem_of_nil in He. }
  destruct (Placement (Spec sub)) as [p|].
  2: { pose proof (no_fetch_in h _ w1 (proj1 (stopDeploySubscription_footprint sub))) as Hf.
       rewrite Hrun in He.
       destruct (run h (stopDeploySubscription sub) w1) as [[o tr] w2]. simpl in *.
       rewrite omap_app_events, Hf1, Hf in He. by apply elem_of_nil in He. }
  pose proof (no_fetch_in h _ w1 (proj2 (prepareDeployableForSubscription_reads sub None)))
    as Hf2.
  pose proof (no_write_in h _ w1 (proj1 (prepareDeployableForSubscription_reads sub None)))
    as Hw2.
  destruct (run h (prepareDeployableForSubscription sub None) w1)
    as [[[[err|dpl]|] tr2] w2]; simpl in Hf2, Hw2.
  - rewrite Hrun in He. simpl in He.
    rewrite omap_app_events, Hf1, Hf2 in He. by apply elem_of_nil in He.
  - pose proof (createTargetDplForRollingUpdate_fetch_failed h sub w2 e) as Hct.
    unfold trace, outcome in Hct.
    destruct (run h (createTargetDplForRollingUpdate sub) w2)
      as [[[[targetDpl [e'|]]|] tr3] w3]; simpl in Hct.
    + rewrite Hrun in He |- *. simpl in He |- *.
      rewrite !omap_app_events, Hf1, Hf2 in He. simpl in He.
      destruct (Hct He) as [Hw3 Hout]. rewrite Hnf in Hout.
      injection Hout as -> ->. split; [done|].
      by rewrite !calls_app, Hw1, Hw2, Hw3.
    + exfalso.
      pose proof (no_fetch_in h _ w3
                    (proj1 (reconcilePrimary_footprint sub
                              (markRollingUpdateTarget dpl targetDpl)))) as Hf4.
      rewrite Hrun in He.
      destruct (run h (reconcilePrimary _ _) w3) as [[o tr4] w4]. simpl in He, Hf4.
      rewrite !omap_app_events, Hf1, Hf2, Hf4, app_nil_r in He. simpl in He.
      destruct (Hct He) as [_ Hout]. by rewrite Hnf in Hout.
    + exfalso. rewrite Hrun in He. simpl in He.
      rewrite !omap_app_events, Hf1, Hf2 in He. simpl in He.
      by destruct (Hct He) as [_ Hout].
  - rewrite Hrun in He. simpl in He.
    rewrite omap_app_events, Hf1, Hf2 in He. by apply elem_of_nil in He.
Qed.

(** C6. A subscription with a rollout-target annotation fetches the target
    subscription. When the fetch fails with not-found, the target manager
    returns no Deployable and no error and has written nothing; when it fails
    with any other error, the manager returns that error, and the cycle ends
    with that error before anything is written. *)
Theorem C6_retired_target_is_skipped_other_errors_abort sub e :
  index (GetAnnotations sub) AnnotationRollingUpdateTarget ≠ "" →
  (∀ w : W, ∃ r tr, trace h (createTargetDplForRollingUpdate sub) w
                    = Ev (GetSubscription (targetSubKey sub)) r :: tr)
  ∧ (∀ w : W,
       e ∈ omap fetchError (trace h (createTargetDplForRollingUpdate sub) w) →
       calls isWrite (trace h (createTargetDplForRollingUpdate sub) w) = []
       ∧ outcome h (createTargetDplForRollingUpdate sub) w
         = Done (None, if IsNotFound e then None else Some e))
  ∧ (∀ w : W,
       e ∈ omap fetchError (trace h (doMCMHubReconcile sub) w) →
       IsNotFound e = false →
       outcome h (doMCMHubReconcile sub) w = Done (sub, Some e)
       ∧ calls isWrite (trace h (doMCMHubReconcile sub) w) = []).
Proof.
  intros Hanno. split; [|split].
  - intros w. by apply createTargetDplForRollingUpdate_fetches.
  - intros w. apply createTargetDplForRollingUpdate_fetch_failed.
  - intros w. apply doMCMHubReconcile_fetch_failed.
Qed.

End RollingUpdateErrors.

(** * Filter errors *)

Section FilterErrors.

Context `{Externals} {W : Type} (h : Handler W).

Import appv1alpha1.

Lemma SemverCheck_malformed expr target :
  parseRange expr = None → SemverCheck expr target = false.
Proof. intros Hp. unfold SemverCheck. by rewrite Hp. Qed.

Lemma check_malformed_version sub pf dpl :
  PackageFilter_ (Spec sub) = Some pf →
  Version pf ≠ "" → parseRange (Version pf) = None →
  (checkDeployableBySubcriptionPackageFilter sub dpl).1 = false.
Proof.
  intros Hpf Hv Hp. unfold checkDeployableBySubcriptionPackageFilter. rewrite Hpf.
  destruct (_ && _); [done|]. cbv zeta.
  destruct (negb _); [done|].
  rewrite (bool_decide_eq_true_2 (Version pf ≠ "")) by done.
  by rewrite SemverCheck_malformed.
Qed.

Lemma keepMatching_skip sub acc dpl :
  (checkDeployableBySubcriptionPackageFilter sub dpl).1 = false →
  keepMatching sub acc dpl = acc.
Proof.
  unfold keepMatching.
  by destruct (checkDeployableBySubcriptionPackageFilter sub dpl) as [[] dpl'].
Qed.

Lemma foldl_keepMatching_none sub items acc :
  (∀ dpl, (checkDeployableBySubcriptionPackageFilter sub dpl).1 = false) →
  foldl (keepMatching sub) acc items = acc.
Proof.
  intros Hall. induction items as [|dpl items IH]; simpl; [done|].
  by rewrite keepMatching_skip.
Qed.

(** C8. When the label selector of the package filter does not convert, the
    match pass returns the nil map without listing, so no artifact is
    evaluated. A version range that does not parse makes the artifact at hand
    a non-match and nothing more: the artifacts kept so far stay, the pass
    goes on over the listed artifacts and returns a map, which is empty
    because the same range is applied to each. *)
Theorem C8_selector_error_aborts_version_error_skips sub pf :
  PackageFilter_ (Spec sub) = Some pf →
  (∀ ls err (w : W),
     LabelSelector pf = Some ls → ConvertLabels ls = inl err →
     outcome h (getSubscriptionDeployables sub) w = Done None
     ∧ calls isList (trace h (getSubscriptionDeployables sub) w) = [])
  ∧ (Version pf ≠ "" → parseRange (Version pf) = None →
     (∀ dpl, (checkDeployableBySubcriptionPackageFilter sub dpl).1 = false)
     ∧ (∀ acc dpl, keepMatching sub acc dpl = acc)
     ∧ (∀ (w : W) items,
          items ∈ omap listed (trace h (getSubscriptionDeployables sub) w) →
          outcome h (getSubscriptionDeployables sub) w = Done (Some ∅))).
Proof.
  intros Hpf. split.
  - intros ls err w Hls Hconv.
    unfold trace, outcome, getSubscriptionDeployables, GetChannelNamespaceType. simpl.
    destruct (h _ (GetChannel (channelKey sub)) w) as [r w1].
    unfold listSelector. rewrite Hpf, Hls, Hconv. simpl.
    by destruct (h _ (Klog ERROR _) w1) as [[] w2].
  - intros Hv Hp.
    pose proof (λ dpl, check_malformed_version sub pf dpl Hpf Hv Hp) as Hall.
    split; [done|]. split.
    + intros acc dpl. by apply keepMatching_skip.
    + intros w items Hitems.
      rewrite (getSubscriptionDeployables_listed h sub w items Hitems).
      by rewrite foldl_keepMatching_none.
Qed.

End FilterErrors.

(** * Drift of the primary and of the target Deployable *)

Section Drift.

Context `{Externals} {W : Type} (h : Handler W).

Import appv1alpha1.

(** The primary Deployable is updated exactly when the decoded templates
    differ; its override list plays no part. *)
Lemma reconcileFound_update_iff_templates_differ sub dpl found (w : W) t ft org fnd :
  dplv1alpha1.Template (dplv1alpha1.Spec dpl) = Some t →
  dplv1alpha1.Template (dplv1alpha1.Spec found) = Some ft →
  unmarshalDoc (runtime.Raw t) = inr org →
  unmarshalDoc (runtime.Raw ft) = inr fnd →
  (org ≠ fnd →
   ∃ err, calls isDeployableWrite (trace h (reconcileFound sub dpl found) w)
          = [Ev (UpdateDeployable (stampFound dpl found)) err])
  ∧ (org = fnd → calls isDeployableWrite (trace h (reconcileFound sub dpl found) w) = []).
Proof.
  intros Ht Hft Horg Hfnd. unfold trace, reconcileFound.
  rewrite Ht, Horg, Hft, Hfnd. simpl. split.
  - intros Hne. rewrite bool_decide_eq_false_2 by congruence. simpl.
    destruct (h _ (UpdateDeployable _) w) as [err w1].
    destruct (h _ (RecordEvent _ _ _ _) w1) as [[] w2]. simpl. by exists err.
  - intros ->. rewrite bool_decide_eq_true_2 by done. simpl.
    apply (noCall_calls h isDeployableWrite (updateSubscriptionStatus sub found) w).
    apply updateSubscriptionStatus_footprint.
Qed.

(** The target Deployable is updated exactly when the decoded templates or
    the override lists differ. *)
Lemma updateTarget_update_iff_differ sub targetSubDpl found (w : W) t ft org fnd :
  (h _ (GetDeployable (deployableKey targetSubDpl)) w).1 = inr found →
  dplv1alpha1.Template (dplv1alpha1.Spec targetSubDpl) = Some t →
  dplv1alpha1.Template (dplv1alpha1.Spec found) = Some ft →
  unmarshalDoc (runtime.Raw t) = inr org →
  unmarshalDoc (runtime.Raw ft) = inr fnd →
  let differ := org ≠ fnd
                ∨ dplv1alpha1.Overrides_ (dplv1alpha1.Spec targetSubDpl)
                  ≠ dplv1alpha1.Overrides_ (dplv1alpha1.Spec found) in
  (differ →
   ∃ err, calls isDeployableWrite (trace h (updateTargetSubscriptionDeployable sub targetSubDpl) w)
          = [Ev (UpdateDeployable (stampFound targetSubDpl found)) err])
  ∧ (¬ differ →
     calls isDeployableWrite (trace h (updateTargetSubscriptionDeployable sub targetSubDpl) w)
     = []).
Proof.
  intros Hget Ht Hft Horg Hfnd differ.
  unfold trace, updateTargetSubscriptionDeployable. simpl.
  destruct (h _ (GetDeployable _) w) as [r w1]. simpl in Hget. subst r.
  rewrite Ht, Horg, Hft, Hfnd. simpl.
  destruct (decide (org = fnd)) as [->|Hne];
    destruct (decide (dplv1alpha1.Overrides_ (dplv1alpha1.Spec targetSubDpl)
                      = dplv1alpha1.Overrides_ (dplv1alpha1.Spec found))) as [Heq|Hov].
  - rewrite Heq, !bool_decide_eq_true_2 by done. simpl. split; [|done].
    intros [|]; done.
  - rewrite bool_decide_eq_true_2, bool_decide_eq_false_2 by done. simpl.
    destruct (h _ (UpdateDeployable _) w1) as [err w2].
    destruct (h _ (RecordEvent _ _ _ _) w2) as [[] w3]. simpl.
    split; [by exists err|]. intros Hnd. exfalso. apply Hnd. by right.
  - rewrite bool_decide_eq_false_2 by congruence. simpl.
    destruct (h _ (UpdateDeployable _) w1) as [err w2].
    destruct (h _ (RecordEvent _ _ _ _) w2) as [[] w3]. simpl.
    split; [by exists err|]. intros Hnd. exfalso. apply Hnd. by left.
  - rewrite bool_decide_eq_false_2 by congruence. simpl.
    destruct (h _ (UpdateDeployable _) w1) as [err w2].
    destruct (h _ (RecordEvent _ _ _ _) w2) as [[] w3]. simpl.
    split; [by exists err|]. intros Hnd. exfalso. apply Hnd. by left.
Qed.

End Drift.

(** * Teardown *)

Section Teardown.

Context `{Externals} {W : Type} (h : Handler W).

Import appv1alpha1.

(** The saved status is behind a pointer, the current one is a struct value:
    the comparison of teardown never finds them equal. *)
Lemma DeepEqual_saved_status st st' :
  DeepEqual (DeepCopyStatus st) (StatusValue st') = false.
Proof. done. Qed.

(** A Deployable without an owner reference of the subscription's UID is not
    deleted. *)
Lemma deleteOwned_not_owned sub dpl owners logs :
  Forall (λ owner, metav1.ownerUID owner ≠ metav1.UID (ObjectMeta sub)) owners →
  deleteOwned sub dpl owners logs = mret None.
Proof.
  induction 1 as [|owner owners Hne _ IH]; simpl; [done|].
  by destruct (decide _).
Qed.

(** A failed deletion ends the loop with its error. *)
Lemma deleteOwned_failure sub dpl owners logs (w : W) e :
  e ∈ omap deleteError (trace h (deleteOwned sub dpl owners logs) w) →
  outcome h (deleteOwned sub dpl owners logs) w = Done (Some e).
Proof.
  unfold trace, outcome. revert w.
  induction owners as [|owner owners IH]; intros w; simpl; [by intros ?%elem_of_nil|].
  destruct (decide _) as [_|_]; [|by apply IH]. simpl.
  destruct (h _ (DeleteDeployable dpl) w) as [[err|] w1].
  - destruct logs; simpl.
    + destruct (h _ (Klog INFO _) w1) as [[] w2]. simpl.
      by intros ->%list_elem_of_singleton.
    + by intros ->%list_elem_of_singleton.
  - specialize (IH w1).
    destruct (run h (deleteOwned sub dpl owners logs) w1) as [[o tr] w2]. simpl in *.
    apply IH.
Qed.

(** A Deployable that the subscription does not own is fetched and left
    alone. *)
Lemma deleteIfOwned_not_owned sub key logs (w : W) :
  (∀ hubdpl, (h _ (GetDeployable key) w).1 = inr hubdpl →
             Forall (λ owner, metav1.ownerUID owner ≠ metav1.UID (ObjectMeta sub))
               (dplv1alpha1.GetOwnerReferences hubdpl)) →
  calls isDeployableDelete (trace h (deleteIfOwned sub key logs) w) = []
  ∧ outcome h (deleteIfOwned sub key logs) w = Done None.
Proof.
  intros Howners. unfold trace, outcome, deleteIfOwned. simpl.
  destruct (h _ (GetDeployable key) w) as [[err|hubdpl] w1]; simpl; [done|].
  by rewrite deleteOwned_not_owned by by apply Howners.
Qed.

(** The deletion step ends without error, or with the error of a deletion
    that failed; it never writes a status. *)
Lemma deleteIfOwned_run sub key logs (w : W) :
  ∃ o tr w1,
    run h (deleteIfOwned sub key logs) w = (Done o, tr, w1)
    ∧ calls isStatusUpdate tr = []
    ∧ ∀ e, o = Some e → e ∈ omap deleteError tr.
Proof.
  assert (∀ dpl owners w0, ∃ o tr w1,
            run h (deleteOwned sub dpl owners logs) w0 = (Done o, tr, w1)
            ∧ calls isStatusUpdate tr = []
            ∧ ∀ e, o = Some e → e ∈ omap deleteError tr) as Hloop.
  { intros dpl owners. induction owners as [|owner owners IH]; intros w0; simpl.
    { by eexists None, [], w0. }
    destruct (decide _) as [_|_]; [|by apply IH]. simpl.
    destruct (h _ (DeleteDeployable dpl) w0) as [[err|] w1].
    - destruct logs; simpl.
      + destruct (h _ (Klog INFO _) w1) as [[] w2]. simpl.
        eexists _, _, _. split; [done|]. split; [done|].
        intros e [= <-]. simpl. by left.
      + eexists _, _, _. split; [done|]. split; [done|].
        intros e [= <-]. simpl. by left.
    - destruct (IH w1) as (o & tr & w2 & -> & Hst & Herr).
      eexists _, _, _. split; [done|]. split; [done|]. intros e He. by apply Herr. }
  unfold deleteIfOwned. simpl.
  destruct (h _ (GetDeployable key) w) as [[err|hubdpl] w1]; simpl.
  - eexists None, _, _. by split.
  - destruct (Hloop hubdpl (dplv1alpha1.GetOwnerReferences hubdpl) w1)
      as (o & tr & w2 & -> & Hst & Herr).
    eexists _, _, _. split; [done|]. split; [done|]. intros e He. by apply Herr.
Qed.

(** Whatever the status was, a teardown in which no deletion fails writes the
    status once. *)
Lemma stopDeploySubscription_always_writes sub (w : W) :
  omap deleteError (trace h (stopDeploySubscription sub) w) = [] →
  ∃ now err,
    calls isStatusUpdate (trace h (stopDeploySubscription sub) w)
    = [Ev (StatusUpdate
             (setStatus sub
                (setLastUpdateTime (resetPropagated (clearStatuses (Status sub))) now)))
          err].
Proof.
  unfold trace, stopDeploySubscription. rewrite run_bind.
  destruct (deleteIfOwned_run sub (primaryKey sub) false w) as (o1 & tr1 & w1 & -> & Hst1 & He1).
  destruct o1 as [e1|]; cbv beta iota zeta.
  { simpl. intros Hnone. specialize (He1 e1 eq_refl).
    rewrite app_nil_r in Hnone. rewrite Hnone in He1. by apply elem_of_nil in He1. }
  rewrite run_bind.
  destruct (deleteIfOwned_run sub (targetKey sub) true w1) as (o2 & tr2 & w2 & -> & Hst2 & He2).
  destruct o2 as [e2|]; cbv beta iota zeta.
  { simpl. intros Hnone. specialize (He2 e2 eq_refl).
    rewrite app_nil_r, omap_app_events in Hnone.
    apply app_eq_nil in Hnone as [_ Hnone].
    rewrite Hnone in He2. by apply elem_of_nil in He2. }
  simpl. destruct (h _ Now w2) as [now w3].
  destruct (h _ (StatusUpdate _) w3) as [[err|] w4]; simpl.
  - destruct (h _ (Klog INFO _) w4) as [[] w5]. simpl. intros _.
    exists now, (Some err). by rewrite !calls_app, Hst1, Hst2.
  - intros _. exists now, None. by rewrite !calls_app, Hst1, Hst2.
Qed.

End Teardown.

(** * Annotations of the template *)

Section TemplateAnnotations.

Context `{Externals}.

Lemma index_lookup (m : gmap string string) k : index (Some m) k = default "" (m !! k).
Proof. done. Qed.

(** One turn of the merge loop. *)
Lemma merge_step_lookup (tpl dplanno : gmap string string) k0 k :
  (match tpl !! k0 with
   | Some v => if decide (index (Some dplanno) k0 = "") then assign dplanno k0 v else dplanno
   | None => dplanno
   end) !! k
  = if decide (k = k0) then
      match tpl !! k0 with
      | Some v => if decide (index (Some dplanno) k0 = "") then Some v else dplanno !! k0
      | None => dplanno !! k0
      end
    else dplanno !! k.
Proof.
  destruct (decide (k = k0)) as [->|Hne].
  - destruct (tpl !! k0) as [v|]; [|done].
    destruct (decide (index (Some dplanno) k0 = "")); [|done].
    apply lookup_insert_eq.
  - destruct (tpl !! k0) as [v|]; [|done].
    destruct (decide (index (Some dplanno) k0 = "")); [|done].
    by apply lookup_insert_ne.
Qed.

Lemma merge_step_index (tpl dplanno : gmap string string) k0 k :
  index (Some (match tpl !! k0 with
               | Some v => if decide (index (Some dplanno) k0 = "")
                           then assign dplanno k0 v else dplanno
               | None => dplanno
               end)) k
  = if decide (k = k0) then
      match tpl !! k0 with
      | Some v => if decide (index (Some dplanno) k0 = "") then v
                  else index (Some dplanno) k0
      | None => index (Some dplanno) k0
      end
    else index (Some dplanno) k.
Proof.
  rewrite index_lookup, merge_step_lookup.
  destruct (decide (k = k0)) as [->|Hne]; [|done].
  destruct (tpl !! k0) as [v|]; [|done].
  by destruct (decide (index (Some dplanno) k0 = "")).
Qed.

(** After the merge a key holds the template's value when the template has
    the key and the artifact's own value is the empty string, be the key
    absent or present; every other key holds what the artifact had. *)
Lemma mergeTemplateAnnotations_lookup tpl ks dplanno k :
  NoDup ks →
  mergeTemplateAnnotations tpl ks dplanno !! k
  = match tpl !! k with
    | Some v => if decide (k ∈ ks ∧ index (Some dplanno) k = "") then Some v
                else dplanno !! k
    | None => dplanno !! k
    end.
Proof.
  intros Hnd. revert dplanno.
  induction Hnd as [|k0 ks Hk0 Hnd IH]; intros dplanno.
  - simpl. destruct (tpl !! k) as [v|]; [|done].
    destruct (decide (k ∈ [] ∧ index (Some dplanno) k = "")) as [[Hk _]|_]; [|done].
    by apply elem_of_nil in Hk.
  - unfold mergeTemplateAnnotations in *. simpl. rewrite IH. clear IH.
    rewrite merge_step_index, merge_step_lookup.
    destruct (decide (k = k0)) as [->|Hne].
    + destruct (tpl !! k0) as [v|]; [|done].
      destruct (decide (index (Some dplanno) k0 = "")) as [He|Hn].
      * destruct (decide (k0 ∈ ks ∧ v = "")) as [[? _]|_]; [done|].
        destruct (decide (k0 ∈ k0 :: ks ∧ index (Some dplanno) k0 = "")) as [|Hn];
          [done|].
        exfalso. apply Hn. split; [by left|done].
      * destruct (decide (k0 ∈ ks ∧ index (Some dplanno) k0 = "")) as [[? _]|_]; [done|].
        destruct (decide (k0 ∈ k0 :: ks ∧ index (Some dplanno) k0 = "")) as [[_ ?]|];
          done.
    + destruct (tpl !! k) as [v|]; [|done].
      destruct (decide (k ∈ ks ∧ index (Some dplanno) k = "")) as [[Hin He]|Hn];
        destruct (decide (k ∈ k0 :: ks ∧ index (Some dplanno) k = "")) as [[Hin' He']|Hn'];
        try done.
      * exfalso. apply Hn'. split; [by right|done].
      * exfalso. apply Hn. split; [|done].
        apply elem_of_cons in Hin' as [|]; done.
Qed.

(** An artifact-level annotation with a value other than the empty string
    is what the filter matches against. *)
Lemma mergedAnnotations_keeps_nonempty dpl k :
  index (dplv1alpha1.GetAnnotations dpl) k ≠ "" →
  mergedAnnotations dpl !! k = default ∅ (dplv1alpha1.GetAnnotations dpl) !! k.
Proof.
  intros Hne. unfold mergedAnnotations.
  destruct (dplv1alpha1.Template _) as [t|]; [|done].
  destruct (unmarshalDoc _) as [|doc]; [done|].
  rewrite mergeTemplateAnnotations_lookup by apply rangeKeys_NoDup.
  destruct (_ !! k); [|done]. destruct (decide _) as [[_ He]|]; [|done].
  exfalso. apply Hne. unfold index in *.
  by destruct (dplv1alpha1.GetAnnotations dpl).
Qed.

End TemplateAnnotations.

(** * The claims on the test double *)

Section Examples.

Import Fake appv1alpha1.

(** C1. The primary path does not do what the claim says; the code run on the
    failing input. The first cycle creates the primary Deployable as
    synthesized, without overrides. A per-cluster override is then added to
    the subscription: the desired Deployable now differs from the stored one
    in its override list and not in its template, and the second cycle issues
    no call on the Deployable and leaves the store's Deployables as they
    were, while the path of the target Deployable, given the same desired
    Deployable against the same store, issues its update. *)
Theorem C1_primary_update_ignores_overrides :
  deployables afterFirstCycle !! "ns/sub-deployable" = prepared plainSub emptyStore
  ∧ dplv1alpha1.Template ∘ dplv1alpha1.Spec <$> prepared clusterOverrideSub afterFirstCycle
    = dplv1alpha1.Template ∘ dplv1alpha1.Spec <$> prepared plainSub emptyStore
  ∧ dplv1alpha1.Overrides_ ∘ dplv1alpha1.Spec <$> prepared plainSub emptyStore = Some None
  ∧ dplv1alpha1.Overrides_ ∘ dplv1alpha1.Spec <$> prepared clusterOverrideSub afterFirstCycle
    = Some (Some [override "clusterA" "q"])
  ∧ calls isDeployableWrite (trace client (doMCMHubReconcile clusterOverrideSub) afterFirstCycle)
    = []
  ∧ deployables (world client (doMCMHubReconcile clusterOverrideSub) afterFirstCycle)
    = deployables afterFirstCycle
  ∧ match prepared clusterOverrideSub afterFirstCycle with
    | Some desired =>
        length (calls isDeployableUpdate
                  (trace client (updateTargetSubscriptionDeployable clusterOverrideSub desired)
                     afterFirstCycle)) = 1
    | None => False
    end.
Proof. do 6 (split; [vm_compute; reflexivity|]). vm_compute. reflexivity. Qed.

(** C5. Teardown does not do what the claim says about a status that is
    already cleared; the code run on the failing input. The subscription has
    no placement, no per-cluster statuses and an empty phase, and the store
    holds no Deployable: clearing changes nothing in the status, yet the
    cycle's one mutating call writes the status, with the time of the
    clock. *)
Theorem C5_cleared_status_is_written_again :
  Placement (Spec withdrawnSub) = None
  ∧ resetPropagated (clearStatuses (Status withdrawnSub)) = Status withdrawnSub
  ∧ calls isWrite (trace client (doMCMHubReconcile withdrawnSub) emptyStore)
    = [Ev (StatusUpdate
             (setStatus withdrawnSub (setLastUpdateTime (Status withdrawnSub) 100%Z)))
          None].
Proof. do 2 (split; [vm_compute; reflexivity|]). vm_compute. reflexivity. Qed.

(** C9. The merge does not do what the claim says for a key that the
    artifact carries with the empty value; the code run on the failing input.
    The artifact has the annotation [a] with the empty value, its template
    has [a = x]: the value used for matching is [x], and a filter that asks
    for the artifact's own value of [a] does not match. *)
Theorem C9_empty_artifact_annotation_is_overridden :
  default ∅ (dplv1alpha1.GetAnnotations emptyValuedArtifact) !! "a" = Some ""
  ∧ mergedAnnotations emptyValuedArtifact !! "a" = Some "x"
  ∧ (PackageFilter_ (Spec emptyValueSub) ≫= Annotations) = Some {[ "a" := "" ]}
  ∧ (checkDeployableBySubcriptionPackageFilter emptyValueSub emptyValuedArtifact).1 = false.
Proof. do 3 (split; [vm_compute; reflexivity|]). vm_compute. reflexivity. Qed.

(** C2 on a subscription with two global overrides around a per-cluster
    one. *)
Lemma C2_witness :
  outcome client (prepareDeployableForSubscription overridingSub None) emptyStore
  = Done (inr (default emptyValuedArtifact (prepared overridingSub emptyStore)))
  ∧ elems (dplv1alpha1.Overrides_
             (dplv1alpha1.Spec (default emptyValuedArtifact (prepared overridingSub emptyStore))))
    = carriedEntries (elems (Overrides (Spec overridingSub)))
  ∧ carriedEntries (elems (Overrides (Spec overridingSub))) = [override "clusterA" "q"]
  ∧ dplv1alpha1.Template ∘ dplv1alpha1.Spec <$> prepared overridingSub emptyStore
    = Some (Some {| runtime.Raw := b "{subsubch-ns/ch}+1+2" |}).
Proof.
  assert (outcome client (prepareDeployableForSubscription overridingSub None) emptyStore
          = Done (inr (default emptyValuedArtifact (prepared overridingSub emptyStore)))) as H1
    by (vm_compute; reflexivity).
  split; [exact H1|]. split.
  - exact (proj1 (proj2 (C2_global_overrides_applied_others_carried
                           client overridingSub None emptyStore _ H1))).
  - split; vm_compute; reflexivity.
Defined.

(** C3 on the plain subscription against the catalog of two artifacts. *)
Lemma C3_witness :
  let allDpls := Some (foldl (keepMatching plainSub) ∅
                         [artifact "a1" None "{x}"; artifact "a2" None "{y}"]) in
  outcome client (getSubscriptionDeployables plainSub) catalog = Done allDpls
  ∧ ∃ updated sub',
      outcome client (UpdateDeployablesAnnotation plainSub) catalog = Done (updated, sub')
      ∧ (updated = true ↔
         (dom (default ∅ allDpls) : gset string) ≠ decodeDeployables (GetAnnotations plainSub)).
Proof.
  intros allDpls.
  assert (outcome client (getSubscriptionDeployables plainSub) catalog = Done allDpls) as H1
    by (vm_compute; reflexivity).
  split; [exact H1|].
  destruct (C3_annotation_is_the_matched_set client plainSub catalog allDpls H1)
    as (_ & updated & sub' & Hout & Hiff & _).
  exists updated, sub'. split; [exact Hout|exact Hiff].
Defined.

(** C4 on a Deployable with one deployed and one pending cluster. *)
Lemma C4_witness :
  let sts := Some (<["clusterB" := Some zeroPerClusterStatus]>
                     {[ "clusterA" := Some subscribed ]}) in
  newStatuses reportingFound = inr sts
  ∧ Phase (newSubStatus plainSub sts) = SubscriptionPropagated
  ∧ (dplv1alpha1.Phase (dplv1alpha1.Status reportingFound) = DeployableFailed → sts = None)
  ∧ Statuses (newSubStatus plainSub sts) = sts.
Proof.
  intros sts.
  assert (newStatuses reportingFound = inr sts) as H1 by (vm_compute; reflexivity).
  destruct (C4_status_rollup client plainSub reportingFound emptyStore sts H1)
    as (Hfailed & _ & Hphase & Hstatuses & _).
  split; [exact H1|]. split; [exact Hphase|]. split; [exact Hfailed|exact Hstatuses].
Defined.

(** C6 on a subscription whose target is gone, and on a store whose fetch
    fails with a conflict. *)
Lemma C6_witness :
  index (GetAnnotations rollingSub) AnnotationRollingUpdateTarget ≠ ""
  ∧ outcome client (createTargetDplForRollingUpdate rollingSub) emptyStore
    = Done (None, if IsNotFound notFound then None else Some notFound)
  ∧ outcome client (doMCMHubReconcile rollingSub) targetFetchFails
    = Done (rollingSub, Some conflict).
Proof.
  assert (index (GetAnnotations rollingSub) AnnotationRollingUpdateTarget ≠ "") as Hanno
    by (vm_compute; discriminate).
  assert (notFound ∈ omap fetchError
                       (trace client (createTargetDplForRollingUpdate rollingSub) emptyStore))
    as H1 by (vm_compute; apply list_elem_of_here).
  assert (conflict ∈ omap fetchError
                       (trace client (doMCMHubReconcile rollingSub) targetFetchFails))
    as H2 by (vm_compute; apply list_elem_of_here).
  split; [exact Hanno|]. split.
  - exact (proj2 (proj1 (proj2 (C6_retired_target_is_skipped_other_errors_abort
                                  client rollingSub notFound Hanno)) emptyStore H1)).
  - exact (proj1 (proj2 (proj2 (C6_retired_target_is_skipped_other_errors_abort
                                  client rollingSub conflict Hanno))
                    targetFetchFails H2 eq_refl)).
Defined.

(** C7 on a payload that does not decode, and on a store whose status write
    fails. *)
Lemma C7_witness :
  (∃ e', outcome client (updateSubscriptionStatus plainSub garbledFound) emptyStore
         = Done (plainSub, Some e'))
  ∧ calls isWrite (trace client (updateSubscriptionStatus plainSub garbledFound) emptyStore) = []
  ∧ (∃ sub', outcome client (updateSubscriptionStatus plainSub reportingFound) statusWriteFails
             = Done (sub', None))
  ∧ statusFailureLine
      ∈ omap logged (trace client (updateSubscriptionStatus plainSub reportingFound)
                       statusWriteFails).
Proof.
  assert (dplv1alpha1.Phase (dplv1alpha1.Status garbledFound) ≠ DeployableFailed) as Hphase
    by (vm_compute; discriminate).
  assert (default ∅ (dplv1alpha1.PropagatedStatus (dplv1alpha1.Status garbledFound))
            !! "clusterA" = Some (unit_ "Deployed" (Some "garbage"))) as Hv
    by (vm_compute; reflexivity).
  assert (unmarshalStatus (runtime.Raw {| runtime.Raw := b "garbage" |})
          = inl (PlainError "invalid character")) as Hdecode
    by (vm_compute; reflexivity).
  assert (omap statusWriteError
            (trace client (updateSubscriptionStatus plainSub reportingFound) statusWriteFails)
          ≠ []) as Hfails
    by (vm_compute; discriminate).
  destruct (proj1 (C7_decode_error_aborts_write_error_swallowed
                     client plainSub garbledFound emptyStore)
              "clusterA" _ _ _ Hphase Hv eq_refl eq_refl Hdecode) as [Hout Hnone].
  destruct (proj2 (C7_decode_error_aborts_write_error_swallowed
                     client plainSub reportingFound statusWriteFails) Hfails)
    as [Hout' Hlogged].
  split; [exact Hout|]. split; [exact Hnone|]. split; [exact Hout'|exact Hlogged].
Defined.

(** C8 on a selector with an unknown operator, and on a version range that
    does not parse. *)
Lemma C8_witness :
  PackageFilter_ (Spec bogusSelectorSub) = Some (filterWith (Some bogusSelector) None "")
  ∧ outcome client (getSubscriptionDeployables bogusSelectorSub) catalog = Done None
  ∧ calls isList (trace client (getSubscriptionDeployables bogusSelectorSub) catalog) = []
  ∧ (checkDeployableBySubcriptionPackageFilter badVersionSub (artifact "a1" None "{x}")).1
    = false.
Proof.
  assert (ConvertLabels bogusSelector = inl (PlainError "not a valid selector operator"))
    as Hconv by (vm_compute; reflexivity).
  assert (Version (filterWith None None "latest") ≠ "") as Hv by (vm_compute; discriminate).
  assert (parseRange (Version (filterWith None None "latest")) = None) as Hp
    by (vm_compute; reflexivity).
  destruct (proj1 (C8_selector_error_aborts_version_error_skips client bogusSelectorSub
                     (filterWith (Some bogusSelector) None "") eq_refl)
              bogusSelector _ catalog eq_refl Hconv) as [Hout Hlist].
  destruct (proj2 (C8_selector_error_aborts_version_error_skips client badVersionSub
                     (filterWith None None "latest") eq_refl) Hv Hp) as (Hskip & _).
  split; [reflexivity|]. split; [exact Hout|]. split; [exact Hlist|]. apply Hskip.
Defined.

(** C10 on a catalog the annotation does not list yet, against a store whose
    subscription update fails. *)
Lemma C10_witness :
  outcome client (UpdateDeployablesAnnotation plainSub) annotationWriteFails
  = Done (true, annotated plainSub catalogKeys)
  ∧ outcome client (doMCMHubReconcile plainSub) annotationWriteFails
    = Done (annotated plainSub catalogKeys, None)
  ∧ calls isDeployableWrite (trace client (doMCMHubReconcile plainSub) annotationWriteFails) = []
  ∧ annotationFailureLine
      ∈ omap logged (trace client (doMCMHubReconcile plainSub) annotationWriteFails).
Proof.
  assert (outcome client (UpdateDeployablesAnnotation plainSub) annotationWriteFails
          = Done (true, annotated plainSub catalogKeys)) as H1
    by (vm_compute; reflexivity).
  assert (omap annotationWriteError
            (trace client (doMCMHubReconcile plainSub) annotationWriteFails) ≠ []) as H2
    by (vm_compute; discriminate).
  destruct (C10_annotation_change_ends_the_cycle client plainSub annotationWriteFails _ H1)
    as (Hout & _ & Hnone & _ & Hlogged).
  split; [exact H1|]. split; [exact Hout|]. split; [exact Hnone|exact (Hlogged H2)].
Defined.

End Examples.

(** * Further properties of the reconciler *)

(** ** Drift, call by call *)

Section PrimaryDrift.

Context `{Externals} {W : Type} (h : Handler W).

Import appv1alpha1.

(** X1. When the Get of the primary Deployable answers not-found, the
    Deployable is created as synthesized: the creation is the only mutating
    call, an event is recorded with its error, and its error is the result.
    Any other error of the Get is the result, with no further call. *)
Theorem X1_missing_primary_is_created sub dpl (w : W) e :
  (h _ (GetDeployable (deployableKey dpl)) w).1 = inl e →
  if IsNotFound e then
    ∃ err,
      outcome h (reconcilePrimary sub dpl) w = Done (sub, err)
      ∧ calls isWrite (trace h (reconcilePrimary sub dpl) w) = [Ev (CreateDeployable dpl) err]
      ∧ omap recorded (trace h (reconcilePrimary sub dpl) w) = [("Deploy", err)]
  else
    outcome h (reconcilePrimary sub dpl) w = Done (sub, Some e)
    ∧ trace h (reconcilePrimary sub dpl) w = [Ev (GetDeployable (deployableKey dpl)) (inl e)].
Proof.
  intros Hget. unfold outcome, trace, reconcilePrimary. simpl.
  destruct (h _ (GetDeployable _) w) as [r w1]. simpl in Hget. subst r.
  destruct (IsNotFound e); simpl; [|done].
  destruct (h _ (CreateDeployable dpl) w1) as [err w2].
  destruct (h _ (RecordEvent _ _ _ _) w2) as [[] w3]. simpl. by exists err.
Qed.

(** X2. A primary Deployable that is found, with both templates decoding,
    is updated exactly when the decoded templates differ. Then the update,
    which sends the found object with the desired spec, is the only mutating
    call, an event is recorded with its error, its error is the result, and
    the status is not aggregated in that cycle. When the decoded templates
    are equal, however the bytes differ, the cycle goes on with the status
    aggregation of the found Deployable. *)
Theorem X2_primary_updated_iff_templates_differ sub dpl found (w : W) t ft org fnd :
  (h _ (GetDeployable (deployableKey dpl)) w).1 = inr found →
  dplv1alpha1.Template (dplv1alpha1.Spec dpl) = Some t →
  dplv1alpha1.Template (dplv1alpha1.Spec found) = Some ft →
  unmarshalDoc (runtime.Raw t) = inr org →
  unmarshalDoc (runtime.Raw ft) = inr fnd →
  (org ≠ fnd →
   ∃ err,
     outcome h (reconcilePrimary sub dpl) w = Done (sub, err)
     ∧ calls isWrite (trace h (reconcilePrimary sub dpl) w)
       = [Ev (UpdateDeployable (stampFound dpl found)) err]
     ∧ omap recorded (trace h (reconcilePrimary sub dpl) w) = [("Deploy", err)])
  ∧ (org = fnd →
     run h (reconcilePrimary sub dpl) w
     = let '(o, tr, w2) :=
         run h (updateSubscriptionStatus sub found)
           (h _ (GetDeployable (deployableKey dpl)) w).2 in
       (o, Ev (GetDeployable (deployableKey dpl)) (inr found) :: tr, w2)).
Proof.
  intros Hget Ht Hft Horg Hfnd. unfold outcome, trace, reconcilePrimary. simpl.
  destruct (h _ (GetDeployable _) w) as [r w1]. simpl in Hget. subst r.
  unfold reconcileFound. rewrite Ht, Horg, Hft, Hfnd. simpl. split.
  - intros Hne. rewrite bool_decide_eq_false_2 by congruence. simpl.
    destruct (h _ (UpdateDeployable _) w1) as [err w2].
    destruct (h _ (RecordEvent _ _ _ _) w2) as [[] w3]. simpl. by exists err.
  - intros ->. rewrite bool_decide_eq_true_2 by done. simpl.
    by destruct (run h _ w1) as [[o tr] w2].
Qed.

(** X3. With the primary Deployable found: a desired template that does not
    decode, or a found template that does not decode, ends the
    reconciliation with the decoding error, and nothing is written; a found
    Deployable without a template is a nil dereference. *)
Theorem X3_undecodable_template_is_an_error sub dpl found (w : W) t :
  (h _ (GetDeployable (deployableKey dpl)) w).1 = inr found →
  dplv1alpha1.Template (dplv1alpha1.Spec dpl) = Some t →
  (∀ e, unmarshalDoc (runtime.Raw t) = inl e →
        outcome h (reconcilePrimary sub dpl) w = Done (sub, Some e)
        ∧ calls isWrite (trace h (reconcilePrimary sub dpl) w) = [])
  ∧ (∀ org ft e,
       unmarshalDoc (runtime.Raw t) = inr org →
       dplv1alpha1.Template (dplv1alpha1.Spec found) = Some ft →
       unmarshalDoc (runtime.Raw ft) = inl e →
       outcome h (reconcilePrimary sub dpl) w = Done (sub, Some e)
       ∧ calls isWrite (trace h (reconcilePrimary sub dpl) w) = [])
  ∧ (∀ org,
       unmarshalDoc (runtime.Raw t) = inr org →
       dplv1alpha1.Template (dplv1alpha1.Spec found) = None →
       outcome h (reconcilePrimary sub dpl) w = Panicked
       ∧ calls isWrite (trace h (reconcilePrimary sub dpl) w) = []).
Proof.
  intros Hget Ht. unfold outcome, trace, reconcilePrimary. simpl.
  destruct (h _ (GetDeployable _) w) as [r w1]. simpl in Hget. subst r.
  unfold reconcileFound. rewrite Ht. split; [|split].
  - by intros e ->.
  - by intros org ft e -> -> ->.
  - by intros org -> ->.
Qed.

(** X4. An update reaches a fixed point. When the store answers with the
    object an update sent (the found object stamped with the desired spec),
    the reconciliation of the primary Deployable issues no write to a
    Deployable, and the reconciliation of the target Deployable issues no
    write at all and returns nil. *)
Theorem X4_stored_update_is_not_repeated sub dpl found (w : W) t org :
  dplv1alpha1.Template (dplv1alpha1.Spec dpl) = Some t →
  unmarshalDoc (runtime.Raw t) = inr org →
  (h _ (GetDeployable (deployableKey dpl)) w).1 = inr (stampFound dpl found) →
  calls isDeployableWrite (trace h (reconcilePrimary sub dpl) w) = []
  ∧ calls isWrite (trace h (updateTargetSubscriptionDeployable sub dpl) w) = []
  ∧ outcome h (updateTargetSubscriptionDeployable sub dpl) w = Done None.
Proof.
  intros Ht Horg Hget. split.
  - unfold trace, reconcilePrimary. simpl.
    destruct (h _ (GetDeployable _) w) as [r w1]. simpl in Hget. subst r.
    unfold reconcileFound. simpl. rewrite Ht, Horg.
    rewrite bool_decide_eq_true_2 by done. simpl.
    pose proof (noCall_calls h isDeployableWrite
                  (updateSubscriptionStatus sub (stampFound dpl found)) w1
                  (proj1 (updateSubscriptionStatus_footprint _ _))) as Hc.
    unfold trace in Hc. by destruct (run h _ w1) as [[o tr] w2].
  - unfold trace, outcome, updateTargetSubscriptionDeployable. simpl.
    destruct (h _ (GetDeployable _) w) as [r w1]. simpl in Hget. subst r.
    simpl. rewrite Ht, Horg. by rewrite !bool_decide_eq_true_2 by done.
Qed.

(** X5. The target Deployable is created when its Get answers not-found:
    the creation is the only mutating call, its error is the result and an
    event is recorded. Any other error of the Get is returned without a
    write. When the Deployable is found, with both templates decoding, it is
    updated exactly when the decoded templates or the override lists differ,
    the error of the update being the result, and left alone otherwise. *)
Theorem X5_target_created_or_updated sub targetSubDpl (w : W) :
  match (h _ (GetDeployable (deployableKey targetSubDpl)) w).1 with
  | inl e =>
      if IsNotFound e then
        ∃ err,
          outcome h (updateTargetSubscriptionDeployable sub targetSubDpl) w = Done err
          ∧ calls isWrite (trace h (updateTargetSubscriptionDeployable sub targetSubDpl) w)
            = [Ev (CreateDeployable targetSubDpl) err]
          ∧ omap recorded (trace h (updateTargetSubscriptionDeployable sub targetSubDpl) w)
            = [("Deploy", err)]
      else
        outcome h (updateTargetSubscriptionDeployable sub targetSubDpl) w = Done (Some e)
        ∧ calls isWrite (trace h (updateTargetSubscriptionDeployable sub targetSubDpl) w) = []
  | inr found =>
      ∀ t ft org fnd,
        dplv1alpha1.Template (dplv1alpha1.Spec targetSubDpl) = Some t →
        dplv1alpha1.Template (dplv1alpha1.Spec found) = Some ft →
        unmarshalDoc (runtime.Raw t) = inr org →
        unmarshalDoc (runtime.Raw ft) = inr fnd →
        if decide (org = fnd
                   ∧ dplv1alpha1.Overrides_ (dplv1alpha1.Spec targetSubDpl)
                     = dplv1alpha1.Overrides_ (dplv1alpha1.Spec found))
        then
          outcome h (updateTargetSubscriptionDeployable sub targetSubDpl) w = Done None
          ∧ calls isWrite (trace h (updateTargetSubscriptionDeployable sub targetSubDpl) w) = []
        else
          ∃ err,
            outcome h (updateTargetSubscriptionDeployable sub targetSubDpl) w = Done err
            ∧ calls isWrite (trace h (updateTargetSubscriptionDeployable sub targetSubDpl) w)
              = [Ev (UpdateDeployable (stampFound targetSubDpl found)) err]
            ∧ omap recorded (trace h (updateTargetSubscriptionDeployable sub targetSubDpl) w)
              = [("Deploy", err)]
  end.
Proof.
  unfold outcome, trace, updateTargetSubscriptionDeployable. simpl.
  destruct (h _ (GetDeployable _) w) as [[e|found] w1]; simpl.
  - destruct (IsNotFound e); simpl; [|done].
    destruct (h _ (Klog INFO _) w1) as [[] w2].
    destruct (h _ (CreateDeployable _) w2) as [err w3].
    destruct (h _ (RecordEvent _ _ _ _) w3) as [[] w4]. simpl. by exists err.
  - intros t ft org fnd -> -> -> ->.
    destruct (decide _) as [[-> ->]|Hne].
    + by rewrite !bool_decide_eq_true_2 by done.
    + assert (bool_decide (Some org = Some fnd)
              && bool_decide (dplv1alpha1.Overrides_ (dplv1alpha1.Spec targetSubDpl)
                              = dplv1alpha1.Overrides_ (dplv1alpha1.Spec found)) = false) as Hd.
      { apply andb_false_iff.
        destruct (decide (org = fnd)) as [->|Ho].
        - right. apply bool_decide_eq_false_2. intros Heq. by apply Hne.
        - left. apply bool_decide_eq_false_2. congruence. }
      rewrite <- negb_andb, Hd. simpl.
      destruct (h _ (UpdateDeployable _) w1) as [err w2].
      destruct (h _ (RecordEvent _ _ _ _) w2) as [[] w3]. simpl. by exists err.
Qed.

End PrimaryDrift.

(** ** The runs of the parts of a cycle *)

Section Pieces.

Context `{Externals} {W : Type} (h : Handler W).

Import appv1alpha1.

Lemma deployableWriteError_nil (tr : list Event) :
  calls isDeployableWrite tr = [] → omap deployableWriteError tr = [].
Proof.
  apply omap_calls_nil. intros [R e r] [x Hx]. destruct e; try done.
Qed.

Lemma statusWriteError_nil (tr : list Event) :
  calls isStatusUpdate tr = [] → omap statusWriteError tr = [].
Proof.
  apply omap_calls_nil. intros [R e r] [x Hx]. destruct e; try done.
Qed.

Lemma isWrite_nil_deployable (tr : list Event) :
  calls isWrite tr = [] → calls isDeployableWrite tr = [].
Proof.
  apply calls_nil_weaken. intros R e He. unfold isWrite. by rewrite He.
Qed.

Lemma isWrite_nil_status (tr : list Event) :
  calls isWrite tr = [] → calls isStatusUpdate tr = [].
Proof.
  apply calls_nil_weaken. intros R e He. unfold isWrite. rewrite He.
  by destruct (isDeployableWrite R e), (isSubscriptionUpdate R e).
Qed.

(** The synthesis always returns, and what it returns has a template. *)
Lemma prepareDeployableForSubscription_done sub rootSub (w : W) :
  ∃ r tr w1,
    run h (prepareDeployableForSubscription sub rootSub) w = (Done r, tr, w1)
    ∧ ∀ dpl, r = inr dpl → is_Some (dplv1alpha1.Template (dplv1alpha1.Spec dpl)).
Proof.
  unfold prepareDeployableForSubscription. rewrite run_bind.
  assert (∃ a tr0 w0,
            run h (if decide (Channel (Spec (subepClone sub rootSub)) = "")
                   then mret (assign ∅ AnnotationSubscription (hostingSubscription sub rootSub))
                   else
                     chng ← GetChannelGeneration (subepClone sub rootSub);
                     match chng with
                     | inr g => mret (assign (assign ∅ AnnotationSubscription
                                                (hostingSubscription sub rootSub))
                                        AnnotationChannelGeneration g)
                     | inl _ => mret (assign ∅ AnnotationSubscription
                                        (hostingSubscription sub rootSub))
                     end) w = (Done a, tr0, w0)) as (a & tr0 & w0 & ->).
  { destruct (decide _); [by eexists _, _, _|].
    unfold GetChannelGeneration. simpl.
    destruct (h _ (GetChannel _) w) as [[err|ch] w1]; simpl; by eexists _, _, _. }
  cbv beta iota zeta.
  destruct (marshalSubscription _) as [err|rawep]; simpl.
  { destruct (h _ (Klog INFO _) w0) as [[] w2]. by eexists _, _, _. }
  destruct (SetControllerReference _ _) as [err|dpl0]; simpl.
  { by eexists _, _, _. }
  destruct (overrideLoop _ _) as [[msg err]|[raw dplovs]]; simpl.
  { destruct (h _ (Klog INFO _) w0) as [[] w2]. by eexists _, _, _. }
  eexists _, _, _. split; [done|]. intros dpl [= <-]. by eexists.
Qed.

(** The runs of the deletion step: the error it returns is the error of its
    last call, a deletion; nothing else fails in it. *)
Lemma deleteOwned_run sub dpl owners logs (w : W) :
  ∃ o tr w1,
    run h (deleteOwned sub dpl owners logs) w = (Done o, tr, w1)
    ∧ calls isStatusUpdate tr = []
    ∧ calls isDeployableCreate tr = []
    ∧ calls isDeployableUpdate tr = []
    ∧ omap clockAnswer tr = []
    ∧ omap deployableWriteError tr = match o with Some e => [e] | None => [] end.
Proof.
  revert w. induction owners as [|owner owners IH]; intros w; simpl.
  { by eexists None, [], w. }
  destruct (decide _) as [_|_]; [|by apply IH]. simpl.
  destruct (h _ (DeleteDeployable dpl) w) as [[err|] w1].
  - destruct logs; simpl.
    + destruct (h _ (Klog INFO _) w1) as [[] w2]. simpl. by eexists _, _, _.
    + by eexists _, _, _.
  - destruct (IH w1) as (o & tr & w2 & -> & H1 & H2 & H3 & H4 & H5).
    by eexists _, _, _.
Qed.

Lemma deleteIfOwned_calls sub key logs (w : W) :
  ∃ o tr w1,
    run h (deleteIfOwned sub key logs) w = (Done o, tr, w1)
    ∧ calls isStatusUpdate tr = []
    ∧ calls isDeployableCreate tr = []
    ∧ calls isDeployableUpdate tr = []
    ∧ omap clockAnswer tr = []
    ∧ omap deployableWriteError tr = match o with Some e => [e] | None => [] end.
Proof.
  unfold deleteIfOwned. simpl.
  destruct (h _ (GetDeployable key) w) as [[err|hubdpl] w1]; simpl.
  - by eexists None, _, _.
  - destruct (deleteOwned_run sub hubdpl (dplv1alpha1.GetOwnerReferences hubdpl) logs w1)
      as (o & tr & w2 & -> & H1 & H2 & H3 & H4 & H5).
    by eexists _, _, _.
Qed.

(** The runs of teardown. *)
Lemma stopDeploySubscription_run sub (w : W) :
  ∃ tr w1,
    calls isStatusUpdate tr = []
    ∧ calls isDeployableCreate tr = []
    ∧ calls isDeployableUpdate tr = []
    ∧ omap clockAnswer tr = []
    ∧ ((∃ e, run h (stopDeploySubscription sub) w = (Done (sub, Some e), tr, w1)
             ∧ omap deployableWriteError tr = [e])
       ∨ (omap deployableWriteError tr = []
          ∧ ∃ now err w2,
              let sub' := setStatus sub
                            (setLastUpdateTime
                               (resetPropagated (clearStatuses (Status sub))) now) in
              run h (stopDeploySubscription sub) w
              = (Done (sub', err),
                 tr ++ Ev Now now :: Ev (StatusUpdate sub') err
                    :: match err with
                       | Some _ => [Ev (Klog INFO "Error in updating subscription obj: ") ()]
                       | None => []
                       end,
                 w2))).
Proof.
  unfold stopDeploySubscription. rewrite run_bind.
  destruct (deleteIfOwned_calls sub (primaryKey sub) false w)
    as (o1 & tr1 & w1 & -> & Hs1 & Hc1 & Hu1 & Hn1 & He1).
  destruct o1 as [e1|]; cbv beta iota zeta.
  { exists tr1, w1. do 4 (split; [done|]). left. exists e1. simpl. by rewrite app_nil_r. }
  rewrite run_bind.
  destruct (deleteIfOwned_calls sub (targetKey sub) true w1)
    as (o2 & tr2 & w2 & -> & Hs2 & Hc2 & Hu2 & Hn2 & He2).
  destruct o2 as [e2|]; cbv beta iota zeta.
  { exists (tr1 ++ tr2), w2.
    rewrite !calls_app, omap_app_events, Hs1, Hs2, Hc1, Hc2, Hu1, Hu2, Hn1, Hn2.
    do 4 (split; [done|]). left. exists e2. simpl.
    by rewrite app_nil_r, omap_app_events, He1, He2. }
  exists (tr1 ++ tr2), w2.
  rewrite !calls_app, !omap_app_events, Hs1, Hs2, Hc1, Hc2, Hu1, Hu2, Hn1, Hn2.
  do 4 (split; [done|]). right. rewrite He1, He2. split; [done|].
  simpl. destruct (h _ Now w2) as [now w3].
  destruct (h _ (StatusUpdate _) w3) as [[err|] w4]; simpl.
  - destruct (h _ (Klog INFO _) w4) as [[] w5]. simpl.
    exists now, (Some err), w5. by rewrite <- app_assoc.
  - exists now, None, w4. by rewrite <- app_assoc.
Qed.

End Pieces.

(** ** More on which calls a function can issue *)

Section MoreFootprints.

Context `{Externals}.

Import appv1alpha1.

Lemma noCall_weaken (P Q : CallPred) {A} (p : Prog A) :
  (∀ R (e : clientE R), Q R e = true → P R e = true) →
  noCall P p → noCall Q p.
Proof.
  intros HQP. induction p as [a| |R e k IH]; simpl; [done|done|].
  intros [He Hk]. split; [|by intros r; apply IH].
  destruct (Q R e) eqn:HQ; [|done]. apply HQP in HQ. congruence.
Qed.

Lemma isDeployableDelete_isWrite R (e : clientE R) :
  isDeployableDelete R e = true → isWrite R e = true.
Proof. by destruct e. Qed.

Lemma isDeployableDelete_isDeployableWrite R (e : clientE R) :
  isDeployableDelete R e = true → isDeployableWrite R e = true.
Proof. by destruct e. Qed.

Lemma getSubscriptionDeployables_no_get sub :
  noCall isGetDeployable (getSubscriptionDeployables sub).
Proof. unfold getSubscriptionDeployables, GetChannelNamespaceType; footprint. Qed.

Lemma UpdateDeployablesAnnotation_no_get sub :
  noCall isGetDeployable (UpdateDeployablesAnnotation sub).
Proof.
  unfold UpdateDeployablesAnnotation, getSubscriptionDeployables, GetChannelNamespaceType.
  footprint.
Qed.

Lemma prepareDeployableForSubscription_no_get sub rootSub :
  noCall isGetDeployable (prepareDeployableForSubscription sub rootSub).
Proof. unfold prepareDeployableForSubscription, GetChannelGeneration; footprint. Qed.

Lemma updateTargetSubscriptionDeployable_no_delete sub targetSubDpl :
  noCall isDeployableDelete (updateTargetSubscriptionDeployable sub targetSubDpl).
Proof. unfold updateTargetSubscriptionDeployable; footprint. Qed.

Lemma createTargetDplForRollingUpdate_footprint sub :
  noCall isDeployableDelete (createTargetDplForRollingUpdate sub)
  ∧ noCall isStatusUpdate (createTargetDplForRollingUpdate sub)
  ∧ noCall isSubscriptionUpdate (createTargetDplForRollingUpdate sub).
Proof.
  repeat split; unfold createTargetDplForRollingUpdate; footprint;
    first [ apply (noCall_weaken isWrite); [by intros ? []|];
            apply prepareDeployableForSubscription_reads
          | apply updateTargetSubscriptionDeployable_no_delete
          | apply updateTargetSubscriptionDeployable_footprint ].
Qed.

Lemma reconcilePrimary_no_delete sub dpl :
  noCall isDeployableDelete (reconcilePrimary sub dpl).
Proof.
  unfold reconcilePrimary, reconcileFound; footprint.
  apply (noCall_weaken isDeployableWrite); [apply isDeployableDelete_isDeployableWrite|].
  apply updateSubscriptionStatus_footprint.
Qed.

End MoreFootprints.

(** ** The calls and the errors of a whole cycle *)

Section CycleCalls.

Context `{Externals} {W : Type} (h : Handler W).

Import appv1alpha1.

Lemma calls_in {A} (P : CallPred) (p : Prog A) (w : W) :
  noCall P p → calls P (run h p w).1.2 = [].
Proof. intros Hp. apply (noCall_calls h _ p w Hp). Qed.

(** X6. Which calls a cycle issues depends on the placement: without a
    placement it creates and updates no Deployable and fetches no
    subscription; with a placement it deletes no Deployable. *)
Theorem X6_placement_decides_the_calls sub (w : W) :
  match Placement (Spec sub) with
  | None =>
      calls isDeployableCreate (trace h (doMCMHubReconcile sub) w) = []
      ∧ calls isDeployableUpdate (trace h (doMCMHubReconcile sub) w) = []
      ∧ calls isGetSubscription (trace h (doMCMHubReconcile sub) w) = []
  | Some _ =>
      calls isDeployableDelete (trace h (doMCMHubReconcile sub) w) = []
  end.
Proof.
  unfold trace.
  destruct (doMCMHubReconcile_run h sub w) as (allDpls & tr1 & w1 & Hg & Hrun).
  pose proof (calls_in isWrite _ w (proj1 (getSubscriptionDeployables_reads sub))) as Hw1.
  pose proof (calls_in isGetSubscription _ w (proj2 (getSubscriptionDeployables_reads sub)))
    as Hf1.
  rewrite Hg in Hw1, Hf1. simpl in Hw1, Hf1.
  pose proof (isWrite_nil_deployable _ Hw1) as Hd1.
  destruct (annotationChanged _ _).
  { destruct Hrun as (tr & w2 & Hu & ->). simpl.
    pose proof (calls_in isDeployableWrite _ w
                  (proj1 (UpdateDeployablesAnnotation_footprint sub))) as Hd.
    pose proof (calls_in isGetSubscription _ w
                  (proj2 (proj2 (UpdateDeployablesAnnotation_footprint sub)))) as Hf.
    rewrite Hu in Hd, Hf. simpl in Hd, Hf.
    destruct (Placement (Spec sub)).
    - revert Hd. apply calls_nil_weaken. by intros ? [].
    - split; [|split]; [| |done]; revert Hd; apply calls_nil_weaken; by intros ? []. }
  destruct (Placement (Spec sub)) as [p|].
  2: { rewrite Hrun.
       destruct (stopDeploySubscription_run h sub w1) as (tr & w2 & _ & Hc & Hu & _ & Hcases).
       pose proof (calls_in isGetSubscription _ w1
                     (proj1 (stopDeploySubscription_footprint sub))) as Hf.
       assert (calls isDeployableCreate tr1 = []) as Hc1
         by (revert Hd1; apply calls_nil_weaken; by intros ? []).
       assert (calls isDeployableUpdate tr1 = []) as Hu1
         by (revert Hd1; apply calls_nil_weaken; by intros ? []).
       destruct Hcases as [(e & Hs & _)|(_ & now & err & w3 & Hs)];
         rewrite Hs in Hf |- *; simpl in Hf |- *;
         rewrite !(calls_app _ tr1), Hc1, Hu1, Hf1, Hf;
         (split; [|split; [|done]]); rewrite ?calls_app, ?Hc, ?Hu; try done;
         by destruct err. }
  assert (calls isDeployableDelete tr1 = []) as Hx1
    by (revert Hd1; apply calls_nil_weaken; by intros ? []).
  pose proof (calls_in isDeployableDelete _ w1
                (noCall_weaken isWrite _ _ isDeployableDelete_isWrite
                   (proj1 (prepareDeployableForSubscription_reads sub None)))) as Hx2.
  destruct (run h (prepareDeployableForSubscription sub None) w1)
    as [[[[err|dpl]|] tr2] w2]; simpl in Hx2.
  - rewrite Hrun. simpl. by rewrite calls_app, Hx1, Hx2.
  - pose proof (calls_in isDeployableDelete _ w2
                  (proj1 (createTargetDplForRollingUpdate_footprint sub))) as Hx3.
    destruct (run h (createTargetDplForRollingUpdate sub) w2)
      as [[[[targetDpl [e'|]]|] tr3] w3]; simpl in Hx3.
    + rewrite Hrun. simpl. by rewrite !calls_app, Hx1, Hx2, Hx3.
    + pose proof (calls_in isDeployableDelete _ w3
                    (reconcilePrimary_no_delete sub (markRollingUpdateTarget dpl targetDpl)))
        as Hx4.
      rewrite Hrun. destruct (run h (reconcilePrimary _ _) w3) as [[o tr4] w4].
      simpl in *. by rewrite !calls_app, Hx1, Hx2, Hx3, Hx4.
    + rewrite Hrun. simpl. by rewrite !calls_app, Hx1, Hx2, Hx3.
  - rewrite Hrun. simpl. by rewrite calls_app, Hx1, Hx2.
Qed.

End CycleCalls.

Ltac fold_omap :=
  repeat match goal with
         | |- context [list_omap ?A ?B ?f ?l] => change (list_omap A B f l) with (omap f l)
         | H : context [list_omap ?A ?B ?f ?l] |- _ =>
             change (list_omap A B f l) with (omap f l) in H
         end.

Section Components.

Context `{Externals} {W : Type} (h : Handler W).

Import appv1alpha1.

(** The target Deployable from the Get on: a failed write is the result;
    a crash is due to a fetched Deployable without a template. *)
Lemma updateTargetSubscriptionDeployable_facts sub targetSubDpl (w : W) :
  is_Some (dplv1alpha1.Template (dplv1alpha1.Spec targetSubDpl)) →
  (∀ e, e ∈ omap deployableWriteError
              (trace h (updateTargetSubscriptionDeployable sub targetSubDpl) w) →
        outcome h (updateTargetSubscriptionDeployable sub targetSubDpl) w = Done (Some e))
  ∧ (outcome h (updateTargetSubscriptionDeployable sub targetSubDpl) w = Panicked →
     ∃ found,
       found ∈ omap fetchedDeployable
                 (trace h (updateTargetSubscriptionDeployable sub targetSubDpl) w)
       ∧ dplv1alpha1.Template (dplv1alpha1.Spec found) = None).
Proof.
  intros [t Ht]. unfold outcome, trace, updateTargetSubscriptionDeployable. simpl.
  destruct (h _ (GetDeployable _) w) as [[err|found] w1].
  - destruct (IsNotFound err); simpl.
    + destruct (h _ (Klog INFO _) w1) as [[] w2].
      destruct (h _ (CreateDeployable _) w2) as [[e'|] w3];
        destruct (h _ (RecordEvent _ _ _ _) w3) as [[] w4]; simpl.
      * split; [by intros e ->%list_elem_of_singleton|done].
      * split; [by intros e ?%elem_of_nil|done].
    + split; [by intros e ?%elem_of_nil|done].
  - rewrite Ht. simpl.
    destruct (unmarshalDoc (runtime.Raw t)) as [err|org]; simpl.
    { split; [by intros e ?%elem_of_nil|done]. }
    destruct (dplv1alpha1.Template (dplv1alpha1.Spec found)) as [ft|] eqn:Hft; simpl.
    2: { split; [by intros e ?%elem_of_nil|]. intros _. exists found. split; [by left|done]. }
    destruct (unmarshalDoc (runtime.Raw ft)) as [err|fnd]; simpl.
    { split; [by intros e ?%elem_of_nil|done]. }
    destruct (_ || _); simpl.
    + destruct (h _ (UpdateDeployable _) w1) as [[e'|] w2];
        destruct (h _ (RecordEvent _ _ _ _) w2) as [[] w3]; simpl.
      * split; [by intros e ->%list_elem_of_singleton|done].
      * split; [by intros e ?%elem_of_nil|done].
    + split; [by intros e ?%elem_of_nil|done].
Qed.

(** The primary Deployable from the Get on. *)
Lemma reconcilePrimary_facts sub dpl (w : W) :
  is_Some (dplv1alpha1.Template (dplv1alpha1.Spec dpl)) →
  (∀ e, e ∈ omap deployableWriteError (trace h (reconcilePrimary sub dpl) w) →
        outcome h (reconcilePrimary sub dpl) w = Done (sub, Some e)
        ∧ calls isStatusUpdate (trace h (reconcilePrimary sub dpl) w) = [])
  ∧ (omap statusWriteError (trace h (reconcilePrimary sub dpl) w) ≠ [] →
     ∃ sub', outcome h (reconcilePrimary sub dpl) w = Done (sub', None))
  ∧ (outcome h (reconcilePrimary sub dpl) w = Panicked →
     ∃ found,
       found ∈ omap fetchedDeployable (trace h (reconcilePrimary sub dpl) w)
       ∧ dplv1alpha1.Template (dplv1alpha1.Spec found) = None).
Proof.
  intros [t Ht]. unfold outcome, trace, reconcilePrimary. simpl.
  destruct (h _ (GetDeployable _) w) as [[err|found] w1].
  - destruct (IsNotFound err); simpl.
    + destruct (h _ (CreateDeployable _) w1) as [[e'|] w3];
        destruct (h _ (RecordEvent _ _ _ _) w3) as [[] w4]; simpl.
      * split; [by intros e ->%list_elem_of_singleton|done].
      * split; [by intros e ?%elem_of_nil|done].
    + split; [by intros e ?%elem_of_nil|done].
  - unfold reconcileFound. rewrite Ht.
    destruct (unmarshalDoc (runtime.Raw t)) as [err|org]; simpl.
    { split; [by intros e ?%elem_of_nil|done]. }
    destruct (dplv1alpha1.Template (dplv1alpha1.Spec found)) as [ft|] eqn:Hft; simpl.
    2: { split; [by intros e ?%elem_of_nil|]. split; [done|].
         intros _. exists found. split; [by left|done]. }
    destruct (unmarshalDoc (runtime.Raw ft)) as [err|fnd]; simpl.
    { split; [by intros e ?%elem_of_nil|done]. }
    destruct (negb _); simpl.
    + destruct (h _ (UpdateDeployable _) w1) as [[e'|] w2];
        destruct (h _ (RecordEvent _ _ _ _) w2) as [[] w3]; simpl.
      * split; [by intros e ->%list_elem_of_singleton|done].
      * split; [by intros e ?%elem_of_nil|done].
    + pose proof (updateSubscriptionStatus_run h sub found w1) as Hrun.
      pose proof (calls_in h isDeployableWrite _ w1
                    (proj1 (updateSubscriptionStatus_footprint sub found))) as Hd.
      apply deployableWriteError_nil in Hd.
      destruct (run h (updateSubscriptionStatus sub found) w1) as [[o tr] w2].
      simpl in Hd |- *. fold_omap. rewrite Hd.
      split; [by intros e ?%elem_of_nil|].
      destruct (newStatuses found) as [err|sts].
      * destruct Hrun as [w3 [= -> -> ->]]. done.
      * cbv zeta in Hrun. destruct (decide _).
        -- injection Hrun as -> -> ->. done.
        -- destruct Hrun as (now & err & w3 & [= -> -> ->]). split; [by eexists|done].
Qed.

(** The runs of the rolling-update step. *)
Lemma createTargetDplForRollingUpdate_run sub (w : W) :
  run h (createTargetDplForRollingUpdate sub) w = (Done (None, None), [], w)
  ∨ ∃ r w1,
      h _ (GetSubscription (targetSubKey sub)) w = (r, w1)
      ∧ match r with
        | inl e =>
            ∃ line w2,
              run h (createTargetDplForRollingUpdate sub) w
              = (Done (None, if IsNotFound e then None else Some e),
                 [Ev (GetSubscription (targetSubKey sub)) r; Ev (Klog INFO line) ()], w2)
        | inr targetSub =>
            ∃ p tr2 w2,
              run h (prepareDeployableForSubscription targetSub (Some sub)) w1
              = (Done p, tr2, w2)
              ∧ match p with
                | inl err =>
                    run h (createTargetDplForRollingUpdate sub) w
                    = (Done (None, Some err),
                       Ev (GetSubscription (targetSubKey sub)) r :: tr2, w2)
                | inr d =>
                    let d' :=
                      dplv1alpha1.setObjectMeta d
                        (metav1.setNamespace
                           (metav1.setName (dplv1alpha1.ObjectMeta d)
                              (metav1.Name (ObjectMeta sub) +:+ "-target-deployable"))
                           (metav1.Namespace (ObjectMeta sub))) in
                    is_Some (dplv1alpha1.Template (dplv1alpha1.Spec d'))
                    ∧ run h (createTargetDplForRollingUpdate sub) w
                      = let '(o, tr3, w3) :=
                          run h (updateTargetSubscriptionDeployable sub d') w2 in
                        (match o with
                         | Done err => Done (Some d', err)
                         | Panicked => Panicked
                         end,
                         Ev (GetSubscription (targetSubKey sub)) r :: tr2 ++ tr3, w3)
                end
        end.
Proof.
  unfold createTargetDplForRollingUpdate.
  destruct (_ || _); [by left|]. right.
  cbn [run bind mbind Prog_bind trigger].
  destruct (h _ (GetSubscription _) w) as [[err|targetSub] w1].
  - exists (inl err), w1. split; [done|].
    destruct (IsNotFound err); simpl;
      destruct (h _ (Klog INFO _) w1) as [[] w2]; by eexists _, _.
  - exists (inr targetSub), w1. split; [done|].
    destruct (prepareDeployableForSubscription_done h targetSub (Some sub) w1)
      as (p & tr2 & w2 & Hp & Htpl).
    exists p, tr2, w2. split; [done|].
    change (bind ?p ?f) with (p ≫= f). rewrite run_bind, Hp.
    destruct p as [err|d]; cbv beta iota zeta.
    + simpl. by rewrite app_nil_r.
    + split; [by apply (Htpl d)|].
      rewrite run_bind.
      destruct (run h (updateTargetSubscriptionDeployable _ _) w2) as [[[err|] tr3] w3];
        cbv beta iota zeta; simpl; by rewrite ?app_nil_r.
Qed.

End Components.

Section CycleErrors.

Context `{Externals} {W : Type} (h : Handler W).

Import appv1alpha1.

Lemma fetchedDeployable_nil (tr : list Event) :
  calls isGetDeployable tr = [] → omap fetchedDeployable tr = [].
Proof.
  apply omap_calls_nil. intros [R e r] [x Hx]. destruct e; try done.
Qed.

Lemma createTargetDplForRollingUpdate_facts sub (w : W) :
  (∀ e, e ∈ omap deployableWriteError (trace h (createTargetDplForRollingUpdate sub) w) →
        ∃ d, outcome h (createTargetDplForRollingUpdate sub) w = Done (d, Some e))
  ∧ (outcome h (createTargetDplForRollingUpdate sub) w = Panicked →
     ∃ found,
       found ∈ omap fetchedDeployable (trace h (createTargetDplForRollingUpdate sub) w)
       ∧ dplv1alpha1.Template (dplv1alpha1.Spec found) = None).
Proof.
  unfold outcome, trace.
  destruct (createTargetDplForRollingUpdate_run h sub w) as [->|(r & w1 & Hr & Hrun)].
  { split; [by intros e ?%elem_of_nil|done]. }
  destruct r as [e0|targetSub].
  { destruct Hrun as (line & w2 & ->). split; [by intros e ?%elem_of_nil|done]. }
  destruct Hrun as (p & tr2 & w2 & Hp & Hrun).
  pose proof (calls_in h isWrite _ w1
                (proj1 (prepareDeployableForSubscription_reads targetSub (Some sub)))) as Hw2.
  pose proof (calls_in h isGetDeployable _ w1
                (prepareDeployableForSubscription_no_get targetSub (Some sub))) as Hg2.
  rewrite Hp in Hw2, Hg2. simpl in Hw2, Hg2.
  apply isWrite_nil_deployable, deployableWriteError_nil in Hw2.
  apply fetchedDeployable_nil in Hg2.
  destruct p as [err|d].
  { rewrite Hrun. simpl. fold_omap. rewrite Hw2. split; [by intros e ?%elem_of_nil|done]. }
  cbv zeta in Hrun. destruct Hrun as [Htpl ->].
  match goal with
  | |- context [run h (updateTargetSubscriptionDeployable sub ?d') w2] =>
      pose proof (updateTargetSubscriptionDeployable_facts h sub d' w2 Htpl) as [Hd Hpanic];
      unfold outcome, trace in Hd, Hpanic;
      destruct (run h (updateTargetSubscriptionDeployable sub d') w2) as [[o tr3] w3]
  end.
  simpl in *. fold_omap. rewrite !omap_app_events, Hw2, Hg2. simpl. split.
  - intros e He. rewrite (Hd e He). by eexists.
  - destruct o as [err|]; [done|]. intros _. by apply Hpanic.
Qed.

Lemma markRollingUpdateTarget_template dpl targetDpl :
  dplv1alpha1.Spec (markRollingUpdateTarget dpl targetDpl) = dplv1alpha1.Spec dpl.
Proof. by destruct targetDpl. Qed.

(** X7. A failed creation, update or deletion of a Deployable ends the cycle
    with that error: the subscription is returned as it was, and neither its
    status nor the subscription itself is written in that cycle. *)
Theorem X7_failed_deployable_write_ends_the_cycle sub (w : W) e :
  e ∈ omap deployableWriteError (trace h (doMCMHubReconcile sub) w) →
  outcome h (doMCMHubReconcile sub) w = Done (sub, Some e)
  ∧ calls isStatusUpdate (trace h (doMCMHubReconcile sub) w) = []
  ∧ calls isSubscriptionUpdate (trace h (doMCMHubReconcile sub) w) = [].
Proof.
  unfold trace, outcome. intros He.
  destruct (doMCMHubReconcile_run h sub w) as (allDpls & tr1 & w1 & Hg & Hrun).
  pose proof (calls_in h isWrite _ w (proj1 (getSubscriptionDeployables_reads sub))) as Hw1.
  rewrite Hg in Hw1. simpl in Hw1.
  pose proof (deployableWriteError_nil _ (isWrite_nil_deployable _ Hw1)) as Hd1.
  pose proof (isWrite_nil_status _ Hw1) as Hs1.
  assert (calls isSubscriptionUpdate tr1 = []) as Hu1.
  { revert Hw1. apply calls_nil_weaken. intros R c Hc. unfold isWrite. rewrite Hc.
    by destruct (isDeployableWrite R c). }
  destruct (annotationChanged _ _).
  { exfalso. destruct Hrun as (tr & w2 & Hu & Hrun). rewrite Hrun in He. simpl in He.
    pose proof (calls_in h isDeployableWrite _ w
                  (proj1 (UpdateDeployablesAnnotation_footprint sub))) as Hd.
    rewrite Hu in Hd. simpl in Hd. apply deployableWriteError_nil in Hd.
    rewrite Hd in He. by apply elem_of_nil in He. }
  destruct (Placement (Spec sub)) as [p|].
  2: { rewrite Hrun in He |- *.
       pose proof (calls_in h isSubscriptionUpdate _ w1
                     (proj2 (stopDeploySubscription_footprint sub))) as Hu.
       destruct (stopDeploySubscription_run h sub w1) as (tr & w2 & Hs & _ & _ & _ & Hcases).
       destruct Hcases as [(e' & Hstop & Hd)|(Hd & now & err & w3 & Hstop)];
         rewrite Hstop in He, Hu |- *; simpl in He, Hu |- *.
       - rewrite omap_app_events, Hd1, Hd in He. simpl in He.
         apply list_elem_of_singleton in He as ->.
         by rewrite !calls_app, Hs1, Hs, Hu1, Hu.
       - exfalso. rewrite !omap_app_events, Hd1, Hd in He. simpl in He.
         destruct err; by apply elem_of_nil in He. }
  pose proof (calls_in h isWrite _ w1
                (proj1 (prepareDeployableForSubscription_reads sub None))) as Hw2.
  destruct (prepareDeployableForSubscription_done h sub None w1)
    as (r & tr2 & w2 & Hp & Htpl).
  rewrite Hp in Hrun, Hw2. simpl in Hw2.
  pose proof (deployableWriteError_nil _ (isWrite_nil_deployable _ Hw2)) as Hd2.
  pose proof (isWrite_nil_status _ Hw2) as Hs2.
  assert (calls isSubscriptionUpdate tr2 = []) as Hu2.
  { revert Hw2. apply calls_nil_weaken. intros R c Hc. unfold isWrite. rewrite Hc.
    by destruct (isDeployableWrite R c). }
  destruct r as [err|dpl].
  { exfalso. rewrite Hrun in He. simpl in He.
    rewrite omap_app_events, Hd1, Hd2 in He. by apply elem_of_nil in He. }
  pose proof (createTargetDplForRollingUpdate_facts sub w2) as [Hd3 _].
  pose proof (createTargetDplForRollingUpdate_footprint sub) as (_ & Hfs & Hfu).
  pose proof (calls_in h _ _ w2 Hfs) as Hs3.
  pose proof (calls_in h _ _ w2 Hfu) as Hu3.
  unfold outcome, trace in Hd3.
  destruct (run h (createTargetDplForRollingUpdate sub) w2)
    as [[[[targetDpl [e'|]]|] tr3] w3]; simpl in Hd3, Hs3, Hu3.
  - rewrite Hrun in He |- *. simpl in He |- *.
    rewrite !calls_app, Hs1, Hs2, Hs3, Hu1, Hu2, Hu3.
    rewrite !omap_app_events, Hd1, Hd2 in He. simpl in He.
    destruct (Hd3 e He) as [d [= _ ->]]. done.
  - pose proof (reconcilePrimary_facts h sub (markRollingUpdateTarget dpl targetDpl) w3)
      as [Hd4 _].
    { rewrite markRollingUpdateTarget_template. by apply Htpl. }
    pose proof (calls_in h _ _ w3
                  (proj2 (reconcilePrimary_footprint sub
                            (markRollingUpdateTarget dpl targetDpl)))) as Hu4.
    unfold outcome, trace in Hd4.
    rewrite Hrun in He |- *.
    destruct (run h (reconcilePrimary _ _) w3) as [[o tr4] w4]. simpl in *.
    rewrite !omap_app_events, Hd1, Hd2 in He. simpl in He.
    apply elem_of_app in He as [He|He].
    { by destruct (Hd3 e He) as [d ?]. }
    destruct (Hd4 e He) as [-> Hs4].
    by rewrite !calls_app, Hs1, Hs2, Hs3, Hs4, Hu1, Hu2, Hu3, Hu4.
  - exfalso. rewrite Hrun in He. simpl in He.
    rewrite !omap_app_events, Hd1, Hd2 in He. simpl in He.
    by destruct (Hd3 e He) as [d ?].
Qed.

(** X8. A failed status write is the cycle's error on teardown only, that
    is, when the subscription has no placement; with a placement the failure
    is swallowed and the cycle returns nil. *)
Theorem X8_failed_status_write_is_returned_by_teardown_only sub (w : W) e :
  e ∈ omap statusWriteError (trace h (doMCMHubReconcile sub) w) →
  ∃ sub', outcome h (doMCMHubReconcile sub) w
          = Done (sub', match Placement (Spec sub) with
                        | None => Some e
                        | Some _ => None
                        end).
Proof.
  unfold trace, outcome. intros He.
  destruct (doMCMHubReconcile_run h sub w) as (allDpls & tr1 & w1 & Hg & Hrun).
  pose proof (calls_in h isWrite _ w (proj1 (getSubscriptionDeployables_reads sub))) as Hw1.
  rewrite Hg in Hw1. simpl in Hw1.
  pose proof (statusWriteError_nil _ (isWrite_nil_status _ Hw1)) as Hs1.
  destruct (annotationChanged _ _).
  { exfalso. destruct Hrun as (tr & w2 & Hu & Hrun). rewrite Hrun in He. simpl in He.
    pose proof (calls_in h isStatusUpdate _ w
                  (proj1 (proj2 (UpdateDeployablesAnnotation_footprint sub)))) as Hs.
    rewrite Hu in Hs. simpl in Hs. apply statusWriteError_nil in Hs.
    rewrite Hs in He. by apply elem_of_nil in He. }
  destruct (Placement (Spec sub)) as [p|].
  2: { rewrite Hrun in He |- *.
       destruct (stopDeploySubscription_run h sub w1) as (tr & w2 & Hs & _ & _ & _ & Hcases).
       apply statusWriteError_nil in Hs.
       destruct Hcases as [(e' & Hstop & Hd)|(Hd & now & err & w3 & Hstop)];
         rewrite Hstop in He |- *; simpl in He |- *.
       - exfalso. rewrite omap_app_events, Hs1, Hs in He. by apply elem_of_nil in He.
       - rewrite !omap_app_events, Hs1, Hs in He. simpl in He.
         destruct err as [e'|]; simpl in He.
         + apply list_elem_of_singleton in He as ->. by eexists.
         + by apply elem_of_nil in He. }
  pose proof (calls_in h isWrite _ w1
                (proj1 (prepareDeployableForSubscription_reads sub None))) as Hw2.
  destruct (prepareDeployableForSubscription_done h sub None w1)
    as (r & tr2 & w2 & Hp & Htpl).
  rewrite Hp in Hrun, Hw2. simpl in Hw2.
  pose proof (statusWriteError_nil _ (isWrite_nil_status _ Hw2)) as Hs2.
  destruct r as [err|dpl].
  { exfalso. rewrite Hrun in He. simpl in He.
    rewrite omap_app_events, Hs1, Hs2 in He. by apply elem_of_nil in He. }
  pose proof (createTargetDplForRollingUpdate_footprint sub) as (_ & Hfs & _).
  pose proof (statusWriteError_nil _ (calls_in h _ _ w2 Hfs)) as Hs3.
  destruct (run h (createTargetDplForRollingUpdate sub) w2)
    as [[[[targetDpl [e'|]]|] tr3] w3]; simpl in Hs3.
  - exfalso. rewrite Hrun in He. simpl in He.
    rewrite !omap_app_events, Hs1, Hs2, Hs3 in He. by apply elem_of_nil in He.
  - pose proof (reconcilePrimary_facts h sub (markRollingUpdateTarget dpl targetDpl) w3)
      as (_ & Hs4 & _).
    { rewrite markRollingUpdateTarget_template. by apply Htpl. }
    unfold outcome, trace in Hs4.
    rewrite Hrun in He |- *.
    destruct (run h (reconcilePrimary _ _) w3) as [[o tr4] w4]. simpl in *.
    rewrite !omap_app_events, Hs1, Hs2, Hs3 in He. simpl in He.
    apply Hs4. intros Hnil. rewrite Hnil in He. by apply elem_of_nil in He.
  - exfalso. rewrite Hrun in He. simpl in He.
    rewrite !omap_app_events, Hs1, Hs2, Hs3 in He. by apply elem_of_nil in He.
Qed.

(** X9. When the refresh finds no change and the synthesis fails, a
    subscription with a placement ends the cycle with the error of the
    synthesis: nothing is written, and neither the target subscription nor a
    Deployable is fetched. *)
Theorem X9_failed_synthesis_ends_the_cycle sub (w : W) err :
  is_Some (Placement (Spec sub)) →
  outcome h (UpdateDeployablesAnnotation sub) w = Done (false, sub) →
  outcome h (prepareDeployableForSubscription sub None)
    (world h (UpdateDeployablesAnnotation sub) w) = Done (inl err) →
  outcome h (doMCMHubReconcile sub) w = Done (sub, Some err)
  ∧ calls isWrite (trace h (doMCMHubReconcile sub) w) = []
  ∧ calls isGetSubscription (trace h (doMCMHubReconcile sub) w) = []
  ∧ calls isGetDeployable (trace h (doMCMHubReconcile sub) w) = [].
Proof.
  unfold trace, outcome, world. intros [p Hp] Hu Hs.
  destruct (doMCMHubReconcile_run h sub w) as (allDpls & tr1 & w1 & Hg & Hrun).
  pose proof (calls_in h isWrite _ w (proj1 (getSubscriptionDeployables_reads sub))) as Hw1.
  pose proof (calls_in h isGetSubscription _ w (proj2 (getSubscriptionDeployables_reads sub)))
    as Hf1.
  pose proof (calls_in h isGetDeployable _ w (getSubscriptionDeployables_no_get sub)) as Hg1.
  rewrite Hg in Hw1, Hf1, Hg1. simpl in Hw1, Hf1, Hg1.
  pose proof (UpdateDeployablesAnnotation_run h sub w allDpls tr1 w1 Hg) as Hrefresh.
  cbv zeta in Hrefresh.
  destruct (annotationChanged _ _).
  { destruct Hrefresh as (e & w2 & Hrefresh). by rewrite Hrefresh in Hu. }
  rewrite Hrefresh in Hs. simpl in Hs. rewrite Hp in Hrun.
  pose proof (calls_in h isWrite _ w1
                (proj1 (prepareDeployableForSubscription_reads sub None))) as Hw2.
  pose proof (calls_in h isGetSubscription _ w1
                (proj2 (prepareDeployableForSubscription_reads sub None))) as Hf2.
  pose proof (calls_in h isGetDeployable _ w1
                (prepareDeployableForSubscription_no_get sub None)) as Hg2.
  destruct (run h (prepareDeployableForSubscription sub None) w1) as [[o tr2] w2].
  simpl in Hs, Hw2, Hf2, Hg2. subst o. rewrite Hrun. simpl.
  by rewrite !calls_app, Hw1, Hw2, Hf1, Hf2, Hg1, Hg2.
Qed.

End CycleErrors.

(** ** Teardown, call by call *)

Section TeardownExtras.

Context `{Externals} {W : Type} (h : Handler W).

Import appv1alpha1.

(** X10. The deletion step of teardown. A failed Get, whatever its error,
    means that there is nothing to delete: the step returns nil after that
    one call. A fetched Deployable is deleted once for each of its owner
    references that carries the subscription's UID, as long as no deletion
    fails. *)
Theorem X10_one_deletion_for_each_owner_reference sub key logs (w : W) :
  match (h _ (GetDeployable key) w).1 with
  | inl e =>
      outcome h (deleteIfOwned sub key logs) w = Done None
      ∧ trace h (deleteIfOwned sub key logs) w = [Ev (GetDeployable key) (inl e)]
  | inr hubdpl =>
      omap deleteError (trace h (deleteIfOwned sub key logs) w) = [] →
      outcome h (deleteIfOwned sub key logs) w = Done None
      ∧ calls isDeployableDelete (trace h (deleteIfOwned sub key logs) w)
        = (λ _, Ev (DeleteDeployable hubdpl) None)
            <$> List.filter
                  (λ owner, bool_decide (metav1.ownerUID owner = metav1.UID (ObjectMeta sub)))
                  (dplv1alpha1.GetOwnerReferences hubdpl)
  end.
Proof.
  unfold outcome, trace, deleteIfOwned. simpl.
  destruct (h _ (GetDeployable key) w) as [[e|hubdpl] w1]; simpl; [done|].
  generalize (dplv1alpha1.GetOwnerReferences hubdpl). intros owners. revert w1.
  induction owners as [|owner owners IH]; intros w1; simpl; [done|].
  destruct (decide _) as [Heq|Hne].
  - rewrite bool_decide_eq_true_2 by done. simpl.
    destruct (h _ (DeleteDeployable hubdpl) w1) as [[err|] w2].
    + destruct logs; simpl; [destruct (h _ (Klog INFO _) w2) as [[] w3]|]; done.
    + specialize (IH w2).
      destruct (run h (deleteOwned sub hubdpl owners logs) w2) as [[o tr] w3].
      simpl in *. fold_omap. intros Hnone. destruct (IH Hnone) as [-> ->]. done.
  - rewrite bool_decide_eq_false_2 by done. apply IH.
Qed.

Lemma foldl_delete_lookup {A} (m : gmap string A) (ks : list string) k :
  foldl (λ acc k, delete k acc) m ks !! k = if decide (k ∈ ks) then None else m !! k.
Proof.
  revert m. induction ks as [|k0 ks IH]; intros m; cbn [foldl].
  - by rewrite decide_False by apply not_elem_of_nil.
  - rewrite IH. destruct (decide (k ∈ ks)) as [Hin|Hout].
    + rewrite decide_True by by right. done.
    + destruct (decide (k = k0)) as [->|Hne].
      * rewrite decide_True by by left. apply lookup_delete_eq.
      * rewrite decide_False by (intros [?|?]%elem_of_cons; done).
        by apply lookup_delete_ne.
Qed.

(** The clearing loop leaves a map without entries, and a nil map nil. *)
Lemma clearStatuses_spec st :
  clearStatuses st = setStatuses st ((λ _, ∅) <$> Statuses st).
Proof.
  unfold clearStatuses. destruct (Statuses st) as [m|] eqn:Hm; simpl.
  - f_equal. f_equal. apply map_eq. intros k.
    rewrite foldl_delete_lookup, lookup_empty.
    destruct (decide _) as [|Hout]; [done|].
    apply not_elem_of_dom. intros Hk. apply Hout. by apply elem_of_rangeKeys.
  - unfold setStatuses. destruct st. simpl in *. by subst.
Qed.

Lemma sentStatus_nil (tr : list Event) :
  calls isStatusUpdate tr = [] → omap sentStatus tr = [].
Proof.
  apply omap_calls_nil. intros [R e r] [x Hx]. destruct e; try done.
Qed.

(** X11. What teardown writes. A status is written at most once, and only
    when no deletion failed. The status sent has every per-cluster entry
    removed, a nil map staying nil; its phase, message and reason are emptied
    when the phase was Propagated and kept otherwise; its time is the one
    the clock gave. *)
Theorem X11_what_teardown_writes sub (w : W) s :
  s ∈ omap sentStatus (trace h (stopDeploySubscription sub) w) →
  (∃ now,
     omap clockAnswer (trace h (stopDeploySubscription sub) w) = [now]
     ∧ s = setStatus sub
             {| Phase := if decide (Phase (Status sub) = SubscriptionPropagated)
                         then "" else Phase (Status sub);
                Message := if decide (Phase (Status sub) = SubscriptionPropagated)
                           then "" else Message (Status sub);
                Reason := if decide (Phase (Status sub) = SubscriptionPropagated)
                          then "" else Reason (Status sub);
                LastUpdateTime := now;
                Statuses := (λ _, ∅) <$> Statuses (Status sub) |})
  ∧ omap sentStatus (trace h (stopDeploySubscription sub) w) = [s]
  ∧ omap deployableWriteError (trace h (stopDeploySubscription sub) w) = [].
Proof.
  unfold trace.
  destruct (stopDeploySubscription_run h sub w) as (tr & w2 & Hs & _ & _ & Hn & Hcases).
  apply sentStatus_nil in Hs.
  destruct Hcases as [(e' & -> & Hd)|(Hd & now & err & w3 & Hstop)].
  { simpl. rewrite Hs. by intros ?%elem_of_nil. }
  cbv zeta in Hstop. rewrite Hstop. cbn [fst snd].
  rewrite !omap_app_events, Hs, Hn, Hd.
  assert (setLastUpdateTime (resetPropagated (clearStatuses (Status sub))) now
          = {| Phase := if decide (Phase (Status sub) = SubscriptionPropagated)
                        then "" else Phase (Status sub);
               Message := if decide (Phase (Status sub) = SubscriptionPropagated)
                          then "" else Message (Status sub);
               Reason := if decide (Phase (Status sub) = SubscriptionPropagated)
                         then "" else Reason (Status sub);
               LastUpdateTime := now;
               Statuses := (λ _, ∅) <$> Statuses (Status sub) |}) as Hst.
  { rewrite clearStatuses_spec. unfold resetPropagated, setStatuses, setLastUpdateTime. simpl.
    by destruct (decide _). }
  destruct err; simpl; intros ->%list_elem_of_singleton; (split; [|done]);
    exists now; by rewrite Hst.
Qed.

End TeardownExtras.

(** ** The Deployables a subscription owns *)

Section Ownership.

Context `{Externals} {W : Type} (h : Handler W).

Import appv1alpha1.

Lemma createdDeployable_nil (tr : list Event) :
  calls isDeployableWrite tr = [] → omap createdDeployable tr = [].
Proof.
  apply omap_calls_nil. intros [R e r] [x Hx]. destruct e; try done.
Qed.

Lemma updatedDeployable_nil (tr : list Event) :
  calls isDeployableWrite tr = [] → omap updatedDeployable tr = [].
Proof.
  apply omap_calls_nil. intros [R e r] [x Hx]. destruct e; try done.
Qed.

(** X12. The name of the rollout target reaches the primary Deployable on
    creation only. A Deployable that the reconciliation creates carries the
    rollout-target annotation with the target's name; a Deployable that it
    updates carries the desired spec and, for that annotation, the value the
    found object had. *)
Theorem X12_rollout_target_is_named_on_create_only sub dpl target (w : W) :
  AnnotationRollingUpdateTarget ≠ AnnotationIsGenerated →
  AnnotationRollingUpdateTarget ≠ AnnotationLocal →
  let desired := markRollingUpdateTarget dpl (Some target) in
  (∀ d, d ∈ omap createdDeployable (trace h (reconcilePrimary sub desired) w) →
        index (dplv1alpha1.GetAnnotations d) AnnotationRollingUpdateTarget
        = dplv1alpha1.GetName target)
  ∧ (∀ d, d ∈ omap updatedDeployable (trace h (reconcilePrimary sub desired) w) →
        ∃ found,
          omap fetchedDeployable (trace h (reconcilePrimary sub desired) w) = [found]
          ∧ index (dplv1alpha1.GetAnnotations d) AnnotationRollingUpdateTarget
            = index (dplv1alpha1.GetAnnotations found) AnnotationRollingUpdateTarget
          ∧ dplv1alpha1.Spec d = dplv1alpha1.Spec dpl).
Proof.
  intros Hg Hl desired. subst desired. unfold trace, reconcilePrimary. simpl.
  destruct (h _ (GetDeployable _) w) as [[err|found] w1].
  - destruct (IsNotFound err); simpl.
    + destruct (h _ (CreateDeployable _) w1) as [e' w3];
        destruct (h _ (RecordEvent _ _ _ _) w3) as [[] w4]; simpl.
      split; [|by intros d ?%elem_of_nil].
      intros d ->%list_elem_of_singleton. unfold index, assign. simpl.
      by rewrite lookup_insert_eq.
    + split; by intros d ?%elem_of_nil.
  - unfold reconcileFound.
    destruct (dplv1alpha1.Template _) as [t|]; [|split; by intros d ?%elem_of_nil].
    destruct (unmarshalDoc (runtime.Raw t)) as [err|org]; simpl;
      [split; by intros d ?%elem_of_nil|].
    destruct (dplv1alpha1.Template (dplv1alpha1.Spec found)) as [ft|]; simpl;
      [|split; by intros d ?%elem_of_nil].
    destruct (unmarshalDoc (runtime.Raw ft)) as [err|fnd]; simpl;
      [split; by intros d ?%elem_of_nil|].
    destruct (negb _); simpl.
    + destruct (h _ (UpdateDeployable _) w1) as [e' w2];
        destruct (h _ (RecordEvent _ _ _ _) w2) as [[] w3]; simpl.
      split; [by intros d ?%elem_of_nil|].
      intros d ->%list_elem_of_singleton. exists found. split; [done|]. split; [|done].
      unfold index. simpl. unfold assign, dplv1alpha1.GetAnnotations. simpl.
      rewrite !lookup_insert_ne by done.
      by destruct (metav1.Annotations (dplv1alpha1.ObjectMeta found)).
    + pose proof (calls_in h isDeployableWrite _ w1
                    (proj1 (updateSubscriptionStatus_footprint sub found))) as Hd.
      destruct (run h (updateSubscriptionStatus sub found) w1) as [[o tr] w2].
      simpl in Hd |- *. fold_omap.
      rewrite (createdDeployable_nil _ Hd), (updatedDeployable_nil _ Hd).
      split; by intros d ?%elem_of_nil.
Qed.

(** The metadata of the Deployable the synthesis returns. *)
Lemma prepareDeployableForSubscription_meta sub rootSub (w : W) dpl :
  outcome h (prepareDeployableForSubscription sub rootSub) w = Done (inr dpl) →
  ∃ gvk, GVKForSubscription = inr gvk
         ∧ dplv1alpha1.GetOwnerReferences dpl = [NewControllerRef sub gvk]
         ∧ deployableKey dpl = primaryKey sub.
Proof.
  intros (subepanno & rawep & dpl0 & raw & dplovs & Hm & Hs & Hl & ->)
    %prepareDeployableForSubscription_ok.
  unfold SetControllerReference in Hs.
  destruct GVKForSubscription as [err|gvk]; [done|]. injection Hs as <-.
  by exists gvk.
Qed.

(** X13. Teardown deletes what the synthesis builds. The Deployable that the
    synthesis returns for a subscription has the key that teardown fetches,
    and its one owner reference is the controller reference to the
    subscription; the deletion loop of teardown, run on it, issues exactly
    one deletion, whose error is the result of the loop. *)
Theorem X13_teardown_deletes_what_the_synthesis_built sub rootSub (w : W) dpl :
  outcome h (prepareDeployableForSubscription sub rootSub) w = Done (inr dpl) →
  deployableKey dpl = primaryKey sub
  ∧ (∃ gvk, GVKForSubscription = inr gvk
            ∧ dplv1alpha1.GetOwnerReferences dpl = [NewControllerRef sub gvk])
  ∧ ∀ logs (w' : W),
      ∃ err,
        outcome h (deleteOwned sub dpl (dplv1alpha1.GetOwnerReferences dpl) logs) w' = Done err
        ∧ calls isDeployableDelete
            (trace h (deleteOwned sub dpl (dplv1alpha1.GetOwnerReferences dpl) logs) w')
          = [Ev (DeleteDeployable dpl) err].
Proof.
  intros (gvk & Hgvk & Howners & Hkey)%prepareDeployableForSubscription_meta.
  split; [done|]. split; [by exists gvk|].
  intros logs w'. rewrite Howners. unfold outcome, trace. simpl.
  destruct (decide _) as [_|Hne]; [|done]. simpl.
  destruct (h _ (DeleteDeployable dpl) w') as [[err|] w1]; simpl.
  - destruct logs; simpl; [destruct (h _ (Klog INFO _) w1) as [[] w2]|]; by eexists.
  - by eexists.
Qed.

(** X14. The target Deployable that the rolling-update step creates has the
    key of the root subscription's target Deployable, and its one owner
    reference names the target subscription that was fetched, not the root.
    Unless the two subscriptions have the same UID, the deletion loop of the
    root's teardown leaves it alone. *)
Theorem X14_rollout_target_deployable_belongs_to_the_target_subscription sub (w : W) d :
  d ∈ omap createdDeployable (trace h (createTargetDplForRollingUpdate sub) w) →
  deployableKey d = targetKey sub
  ∧ ∃ targetSub gvk,
      omap fetchedSubscription (trace h (createTargetDplForRollingUpdate sub) w) = [targetSub]
      ∧ GVKForSubscription = inr gvk
      ∧ dplv1alpha1.GetOwnerReferences d = [NewControllerRef targetSub gvk]
      ∧ (metav1.UID (ObjectMeta targetSub) ≠ metav1.UID (ObjectMeta sub) →
         ∀ logs, deleteOwned sub d (dplv1alpha1.GetOwnerReferences d) logs = mret None).
Proof.
  unfold trace.
  destruct (createTargetDplForRollingUpdate_run h sub w) as [->|(r & w1 & Hr & Hrun)].
  { by intros ?%elem_of_nil. }
  destruct r as [e0|targetSub].
  { destruct Hrun as (line & w2 & ->). by intros ?%elem_of_nil. }
  destruct Hrun as (p & tr2 & w2 & Hp & Hrun).
  pose proof (calls_in h isWrite _ w1
                (proj1 (prepareDeployableForSubscription_reads targetSub (Some sub)))) as Hw2.
  pose proof (calls_in h isGetSubscription _ w1
                (proj2 (prepareDeployableForSubscription_reads targetSub (Some sub)))) as Hg2.
  rewrite Hp in Hw2, Hg2. simpl in Hw2, Hg2.
  apply isWrite_nil_deployable, createdDeployable_nil in Hw2.
  assert (omap fetchedSubscription tr2 = []) as Hf2.
  { revert Hg2. apply omap_calls_nil. intros [R e r] [x Hx]. destruct e; try done. }
  destruct p as [err|d0].
  { rewrite Hrun. simpl. fold_omap. rewrite Hw2. by intros ?%elem_of_nil. }
  cbv zeta in Hrun. destruct Hrun as [Htpl ->].
  destruct (prepareDeployableForSubscription_meta targetSub (Some sub) w1 d0)
    as (gvk & Hgvk & Howners & Hkey).
  { unfold outcome. by rewrite Hp. }
  match goal with
  | |- context [run h (updateTargetSubscriptionDeployable sub ?d') w2] =>
      set (target := d');
      pose proof (calls_in h isGetSubscription _ w2
                    (proj1 (updateTargetSubscriptionDeployable_footprint sub target))) as Hg3;
      assert (∀ x, x ∈ omap createdDeployable
                         (run h (updateTargetSubscriptionDeployable sub target) w2).1.2 →
                   x = target) as Hc3
  end.
  { unfold updateTargetSubscriptionDeployable. simpl.
    destruct (h _ (GetDeployable _) w2) as [[err|found] w3].
    - destruct (IsNotFound err); simpl; [|by intros x ?%elem_of_nil].
      destruct (h _ (Klog INFO _) w3) as [[] w4].
      destruct (h _ (CreateDeployable _) w4) as [e' w5].
      destruct (h _ (RecordEvent _ _ _ _) w5) as [[] w6]. simpl.
      by intros x ->%list_elem_of_singleton.
    - destruct (dplv1alpha1.Template _) as [t|]; [|by intros x ?%elem_of_nil].
      destruct (unmarshalDoc (runtime.Raw t)) as [err|org]; simpl;
        [by intros x ?%elem_of_nil|].
      destruct (dplv1alpha1.Template (dplv1alpha1.Spec found)) as [ft|]; simpl;
        [|by intros x ?%elem_of_nil].
      destruct (unmarshalDoc (runtime.Raw ft)) as [err|fnd]; simpl;
        [by intros x ?%elem_of_nil|].
      destruct (_ || _); simpl; [|by intros x ?%elem_of_nil].
      destruct (h _ (UpdateDeployable _) w3) as [e' w4];
        destruct (h _ (RecordEvent _ _ _ _) w4) as [[] w5]; simpl.
      by intros x ?%elem_of_nil. }
  assert (omap fetchedSubscription
            (run h (updateTargetSubscriptionDeployable sub target) w2).1.2 = []) as Hf3.
  { revert Hg3. apply omap_calls_nil. intros [R e r] [x Hx]. destruct e; try done. }
  destruct (run h (updateTargetSubscriptionDeployable sub target) w2) as [[o tr3] w3].
  simpl in *. fold_omap. rewrite !omap_app_events, Hw2, Hf2, Hf3. simpl.
  intros ->%Hc3. split; [done|]. exists targetSub, gvk.
  split; [done|]. split; [done|]. split; [done|].
  intros Hne logs.
  replace (dplv1alpha1.GetOwnerReferences target) with [NewControllerRef targetSub gvk]
    by done.
  simpl. by destruct (decide _).
Qed.

End Ownership.

(** ** More on the status aggregation *)

Section AggregationExtras.

Context `{Externals} {W : Type} (h : Handler W).

Import appv1alpha1.

(** X15. The aggregation is idempotent: run again on the subscription it
    returned, against the same Deployable, it issues no call at all and
    returns the same subscription. *)
Theorem X15_aggregation_is_idempotent sub found (w w' : W) sub' :
  outcome h (updateSubscriptionStatus sub found) w = Done (sub', None) →
  run h (updateSubscriptionStatus sub' found) w' = (Done (sub', None), [], w').
Proof.
  unfold outcome. intros Hout.
  pose proof (updateSubscriptionStatus_run h sub found w) as Hrun.
  pose proof (updateSubscriptionStatus_run h sub' found w') as Hrun'.
  destruct (newStatuses found) as [err|sts].
  { destruct Hrun as [w1 Hrun]. rewrite Hrun in Hout. done. }
  cbv zeta in Hrun, Hrun'.
  destruct (decide (newSubStatus sub sts = Status sub)) as [Heq|Hne].
  - rewrite Hrun in Hout. injection Hout as <-. by rewrite decide_True in Hrun'.
  - destruct Hrun as (now & err & w1 & Hrun). rewrite Hrun in Hout. injection Hout as <-.
    by rewrite decide_True in Hrun'.
Qed.

Lemma aggregateStatuses_error ps ks acc e :
  aggregateStatuses ps ks acc = inl e →
  ∃ k v, k ∈ ks ∧ ps !! k = Some v ∧ clusterEntry v = inl e.
Proof.
  revert acc. induction ks as [|k0 ks IH]; intros acc; simpl; [done|].
  destruct (ps !! k0) as [v0|] eqn:Hk0.
  - destruct (clusterEntry v0) as [err|entry] eqn:He.
    + intros [= ->]. exists k0, v0. split; [by left|done].
    + intros (k & v & Hk & Hv)%IH. exists k, v. split; [by right|done].
  - intros (k & v & Hk & Hv)%IH. exists k, v. split; [by right|done].
Qed.

(** X16. The aggregator returns an error only for a payload that does not
    decode: the Deployable is not Failed, and some cluster that reports
    Deployed carries a payload whose decoding fails with that very error.
    The subscription is returned unchanged and the failure line is the only
    call. *)
Theorem X16_aggregation_fails_on_an_undecodable_payload_only sub found (w : W) sub' e :
  outcome h (updateSubscriptionStatus sub found) w = Done (sub', Some e) →
  sub' = sub
  ∧ trace h (updateSubscriptionStatus sub found) w = [Ev (Klog INFO decodeFailureLine) ()]
  ∧ dplv1alpha1.Phase (dplv1alpha1.Status found) ≠ DeployableFailed
  ∧ ∃ k v rs,
      default ∅ (dplv1alpha1.PropagatedStatus (dplv1alpha1.Status found)) !! k = Some v
      ∧ dplv1alpha1.unitPhase v = DeployableDeployed
      ∧ dplv1alpha1.ResourceStatus v = Some rs
      ∧ unmarshalStatus (runtime.Raw rs) = inl e.
Proof.
  unfold outcome, trace. intros Hout.
  pose proof (updateSubscriptionStatus_run h sub found w) as Hrun.
  destruct (newStatuses found) as [err|sts] eqn:Hnew.
  2: { cbv zeta in Hrun. destruct (decide _).
       - by rewrite Hrun in Hout.
       - destruct Hrun as (now & err & w1 & Hrun). by rewrite Hrun in Hout. }
  destruct Hrun as [w1 Hrun]. rewrite Hrun in Hout |- *. injection Hout as <- <-.
  split; [done|]. split; [done|].
  unfold newStatuses in Hnew. destruct (decide _) as [|Hphase]; [done|]. split; [done|].
  destruct (aggregateStatuses _ _ _) as [err'|m] eqn:Hagg; [|done]. injection Hnew as ->.
  apply aggregateStatuses_error in Hagg as (k & v & _ & Hv & He).
  unfold clusterEntry, decodeResourceStatus in He.
  destruct (decide _) as [Hd|]; [|done].
  destruct (dplv1alpha1.ResourceStatus v) as [rs|] eqn:Hrs; [|done].
  destruct (unmarshalStatus _) as [e'|] eqn:Hu; [|done]. injection He as ->.
  by exists k, v, rs.
Qed.

End AggregationExtras.

(** ** The package filter as a whole *)

Section FilterExtras.

Context `{Externals}.

Import appv1alpha1.

Lemma annotationsMatch_spec (a : gmap string string) ks (m : gmap string string) :
  annotationsMatch a ks m = true
  ↔ ∀ k v, k ∈ ks → a !! k = Some v → index (Some m) k = v.
Proof.
  induction ks as [|k0 ks IH]; simpl.
  - split; [|done]. by intros _ k v ?%elem_of_nil.
  - destruct (a !! k0) as [v0|] eqn:Hk0.
    + destruct (decide (index (Some m) k0 = v0)) as [Heq|Hne].
      * rewrite IH. split.
        -- intros Hall k v [->|Hk]%elem_of_cons Hv; [congruence|by apply Hall].
        -- intros Hall k v Hk. apply Hall. by right.
      * split; [done|]. intros Hall. exfalso. apply Hne. apply Hall; [by left|done].
    + rewrite IH. split.
      * intros Hall k v [->|Hk]%elem_of_cons Hv; [congruence|by apply Hall].
      * intros Hall k v Hk. apply Hall. by right.
Qed.

(** X17. The verdict of the package filter. Without a filter every artifact
    matches, whatever the package name. With a filter an artifact matches
    exactly when the package name is empty or is the artifact's name, every
    annotation the filter asks for has the asked value in the merged
    annotations (an absent key counting as the empty value), and the version
    range is empty or [SemverCheck] accepts the recorded version for it, the
    recorded version being read from the merged annotations when the artifact has an annotation map and is empty
    when it has none. *)
Theorem X17_filter_verdict sub dpl :
  (checkDeployableBySubcriptionPackageFilter sub dpl).1 = true
  ↔ match PackageFilter_ (Spec sub) with
    | None => True
    | Some pf =>
        (Package (Spec sub) = "" ∨ Package (Spec sub) = dplv1alpha1.GetName dpl)
        ∧ (∀ k v, default ∅ (Annotations pf) !! k = Some v →
                  index (Some (mergedAnnotations dpl)) k = v)
        ∧ (Version pf = ""
           ∨ SemverCheck (Version pf)
               (index (match dplv1alpha1.GetAnnotations dpl with
                       | Some _ => Some (mergedAnnotations dpl)
                       | None => None
                       end) AnnotationDeployableVersion) = true)
    end.
Proof.
  unfold checkDeployableBySubcriptionPackageFilter.
  destruct (PackageFilter_ (Spec sub)) as [pf|]; [|done].
  destruct (decide (Package (Spec sub) = "")) as [Hp|Hp].
  2: destruct (decide (Package (Spec sub) = dplv1alpha1.GetName dpl)) as [Hn|Hn].
  3: { rewrite !bool_decide_eq_true_2 by done. simpl. split; [done|].
       intros ([|] & _); done. }
  all: rewrite ?(bool_decide_eq_false_2 (Package (Spec sub) ≠ "")) by (intros Hx; by apply Hx);
    rewrite ?(bool_decide_eq_false_2 (Package (Spec sub) ≠ dplv1alpha1.GetName dpl))
      by (intros Hx; by apply Hx);
    rewrite ?andb_false_r; cbn [andb]; cbv zeta.
  all: assert ((match Annotations pf with
                | Some a => annotationsMatch a (rangeKeys rangeFilterAnnotations (dom a))
                              (mergedAnnotations dpl)
                | None => true
                end) = true
               ↔ ∀ k v, default ∅ (Annotations pf) !! k = Some v →
                        index (Some (mergedAnnotations dpl)) k = v) as Hanno.
  1, 3: destruct (Annotations pf) as [a|]; simpl;
    [rewrite annotationsMatch_spec; split;
     [intros Hall k v Hv; apply Hall; [|done];
      apply elem_of_rangeKeys, elem_of_dom; by exists v
     |intros Hall k v _; apply Hall]
    |split; [by intros _ k v|done]].
  all: assert (dplv1alpha1.GetAnnotations
                 match dplv1alpha1.GetAnnotations dpl with
                 | Some _ => dplv1alpha1.SetAnnotations dpl (mergedAnnotations dpl)
                 | None => dpl
                 end
               = match dplv1alpha1.GetAnnotations dpl with
                 | Some _ => Some (mergedAnnotations dpl)
                 | None => None
                 end) as -> by (by destruct (dplv1alpha1.GetAnnotations dpl) eqn:Ha).
  all: destruct (match Annotations pf with
                 | Some a => _
                 | None => true
                 end) eqn:Hm; simpl.
  all: try (split; [done|]; intros (_ & Hall & _); by apply Hanno in Hall).
  all: destruct (decide (Version pf = "")) as [Hv|Hv].
  all: try (rewrite (bool_decide_eq_false_2 (Version pf ≠ "")) by (intros Hx; by apply Hx);
            simpl; split; [intros _|done];
            split; [by auto|]; split; [by apply Hanno|by left]).
  all: rewrite (bool_decide_eq_true_2 (Version pf ≠ "")) by done; simpl.
  all: destruct (SemverCheck _ _); simpl.
  all: try (split; [intros _|done]; split; [by auto|]; split; [by apply Hanno|by right]).
  all: split; [done|]; intros (_ & _ & [|]); done.
Qed.

(** X18. The merged annotations, key by key. When the template decodes and
    carries the key, the template's value is taken if the artifact's own
    value is absent or empty, and the artifact's own entry stays otherwise.
    When there is no template, or it does not decode, or it does not carry
    the key, the artifact's own entry stays. *)
Theorem X18_merge_takes_the_template_value_for_absent_and_empty_keys dpl k :
  let own := default ∅ (dplv1alpha1.GetAnnotations dpl) in
  mergedAnnotations dpl !! k
  = match dplv1alpha1.Template (dplv1alpha1.Spec dpl) with
    | Some t =>
        match unmarshalDoc (runtime.Raw t) with
        | inr dpltemplate =>
            match default ∅ (docAnnotations dpltemplate) !! k with
            | Some v => if decide (default "" (own !! k) = "") then Some v else own !! k
            | None => own !! k
            end
        | inl _ => own !! k
        end
    | None => own !! k
    end.
Proof.
  intros own. unfold mergedAnnotations. fold own.
  destruct (dplv1alpha1.Template _) as [t|]; [|done].
  destruct (unmarshalDoc _) as [|doc]; [done|].
  rewrite mergeTemplateAnnotations_lookup by apply rangeKeys_NoDup.
  destruct (_ !! k) as [v|] eqn:Hk; [|done].
  rewrite index_lookup.
  destruct (decide (default "" (own !! k) = "")) as [He|Hne].
  - rewrite decide_True; [done|]. split; [|done].
    apply elem_of_rangeKeys, elem_of_dom. by exists v.
  - rewrite decide_False; [done|]. by intros [_ ?].
Qed.

End FilterExtras.

(** ** More on the refresh, and the channel reference *)

Section SplitAtSeparator.

#[local] Arguments String.append !_ _ / : simpl nomatch.

Lemma Split_sepFree sep (s : string) : sepFree sep s = true → Split s sep = [s].
Proof.
  induction s as [|c s IH]; simpl; [done|].
  intros [Hc Hs]%andb_prop. apply negb_true_iff in Hc. rewrite Hc.
  by rewrite IH.
Qed.

Lemma Split_app sep (s1 s2 : string) :
  sepFree sep s1 = true →
  Split (s1 +:+ String sep s2) sep = s1 :: Split s2 sep.
Proof.
  induction s1 as [|c s1 IH]; simpl.
  - intros _. by rewrite Ascii.eqb_refl.
  - intros [Hc Hs]%andb_prop. apply negb_true_iff in Hc. rewrite Hc.
    by rewrite IH.
Qed.

End SplitAtSeparator.

Section RefreshExtras.

Context `{Externals} {W : Type} (h : Handler W).

Import appv1alpha1.

Lemma rangeKeys_empty site : rangeKeys site ∅ = [].
Proof.
  apply Permutation_nil_r. rewrite rangeKeys_perm. by rewrite elements_empty.
Qed.

(** X19. When the match pass returns the nil map (the selector did not
    convert, or the list call failed) and the annotation lists some
    artifact, the refresh takes the matched set to be empty: it reports a
    change, sends the subscription with the annotation emptied as its only
    mutating call, and the cycle ends there with nil. *)
Theorem X19_failed_match_pass_empties_the_annotation sub (w : W) :
  outcome h (getSubscriptionDeployables sub) w = Done None →
  decodeDeployables (GetAnnotations sub) ≠ ∅ →
  outcome h (UpdateDeployablesAnnotation sub) w = Done (true, annotated sub ∅)
  ∧ index (GetAnnotations (annotated sub ∅)) AnnotationDeployables = ""
  ∧ (∃ err, calls isWrite (trace h (UpdateDeployablesAnnotation sub) w)
            = [Ev (UpdateSubscription (annotated sub ∅)) err])
  ∧ outcome h (doMCMHubReconcile sub) w = Done (annotated sub ∅, None).
Proof.
  unfold outcome, trace. intros Hout Hanno.
  destruct (doMCMHubReconcile_run h sub w) as (allDpls & tr1 & w1 & Hg & Hrun).
  rewrite Hg in Hout. injection Hout as ->.
  pose proof (calls_in h isWrite _ w (proj1 (getSubscriptionDeployables_reads sub))) as Hw1.
  rewrite Hg in Hw1. simpl in Hw1.
  pose proof (UpdateDeployablesAnnotation_run h sub w None tr1 w1 Hg) as Hu.
  cbv zeta in Hu.
  assert (dom (default ∅ (None : option (gmap string dplv1alpha1.Deployable)))
          = (∅ : gset string)) as Hdom by apply dom_empty_L.
  rewrite Hdom in Hrun, Hu.
  assert (annotationChanged ∅ (GetAnnotations sub) = true) as Hch.
  { apply annotationChanged_iff. congruence. }
  rewrite Hch in Hrun, Hu.
  destruct Hu as (err & w2 & Hu). destruct Hrun as (tr & w3 & Hu' & Hrun).
  rewrite Hrun, Hu. simpl. split; [done|]. split.
  - unfold annotated, index, assign. simpl. rewrite lookup_insert_eq.
    by rewrite rangeKeys_empty.
  - split; [|done]. exists err. rewrite calls_app, Hw1. simpl. by destruct err.
Qed.

(** X20. The refresh is idempotent. For a subscription whose annotation was
    written from the keys the match pass returns, none of them holding a
    comma, the refresh reports no change, issues the calls of the match pass
    only and writes nothing. Writing the annotation leaves the spec, the
    status and every other annotation of the subscription as they were. *)
Theorem X20_refresh_is_idempotent sub (w : W) allDpls :
  outcome h (getSubscriptionDeployables sub) w = Done allDpls →
  let matched : gset string := dom (default ∅ allDpls) in
  forallb commaFree (elements matched) = true →
  let sub' := annotated sub matched in
  run h (UpdateDeployablesAnnotation sub') w
  = (Done (false, sub'), trace h (getSubscriptionDeployables sub) w,
     world h (getSubscriptionDeployables sub) w)
  ∧ calls isWrite (trace h (UpdateDeployablesAnnotation sub') w) = []
  ∧ Spec sub' = Spec sub ∧ Status sub' = Status sub
  ∧ ∀ k, k ≠ AnnotationDeployables →
         index (GetAnnotations sub') k = index (GetAnnotations sub) k.
Proof.
  intros Hout matched Hcomma sub'. unfold outcome, trace, world in *.
  destruct (getSubscriptionDeployables_done h sub w) as (a & tr1 & w1 & Hg & Hne).
  rewrite Hg in Hout |- *. injection Hout as ->. cbn [fst snd].
  pose proof (calls_in h isWrite _ w (proj1 (getSubscriptionDeployables_reads sub))) as Hw1.
  rewrite Hg in Hw1. simpl in Hw1.
  pose proof (UpdateDeployablesAnnotation_run h sub' w allDpls tr1 w1 Hg) as Hu.
  cbv zeta in Hu. fold matched in Hu.
  assert (annotationChanged matched (GetAnnotations sub') = false) as Hch.
  { apply not_true_is_false. rewrite annotationChanged_iff. intros Hx. apply Hx.
    symmetry. apply decode_annotated. intros k Hk. split; [|by apply Hne].
    rewrite forallb_forall in Hcomma. apply Hcomma.
    apply list_elem_of_In, elem_of_elements, Hk. }
  rewrite Hch in Hu. rewrite Hu. simpl. split; [done|]. split; [done|].
  split; [done|]. split; [done|].
  intros k Hk. unfold sub', annotated, index, assign. simpl.
  rewrite lookup_insert_ne by done.
  unfold GetAnnotations. by destruct (metav1.Annotations (ObjectMeta sub)).
Qed.

(** X21. The channel reference. An empty reference gives the empty key;
    a reference of the form namespace/name gives that namespace and name; a
    reference without a slash, or with more than one, gives the
    subscription's own namespace and the empty name. The catalog is listed
    in the namespace of that key. *)
Theorem X21_channel_reference sub (ns n : string) :
  sepFree "/" ns = true → sepFree "/" n = true →
  (Channel (Spec sub) = "" →
   channelKey sub = {| types.Namespace := ""; types.Name := "" |})
  ∧ (Channel (Spec sub) = ns +:+ "/" +:+ n →
     channelKey sub = {| types.Namespace := ns; types.Name := n |})
  ∧ (Channel (Spec sub) = n → n ≠ "" →
     channelKey sub = {| types.Namespace := metav1.Namespace (ObjectMeta sub);
                         types.Name := "" |})
  ∧ (∀ rest, Channel (Spec sub) = ns +:+ "/" +:+ n +:+ "/" +:+ rest →
     channelKey sub = {| types.Namespace := metav1.Namespace (ObjectMeta sub);
                         types.Name := "" |})
  ∧ ∀ (w : W) selector,
      listSelector sub = inr selector →
      ∃ r, calls isList (trace h (getSubscriptionDeployables sub) w)
           = [Ev (ListDeployables (types.Namespace (channelKey sub)) selector) r].
Proof.
  intros Hns Hn. unfold channelKey. split; [|split; [|split; [|split]]].
  - intros ->. by rewrite decide_True.
  - intros ->. rewrite decide_False.
    + change (ns +:+ "/" +:+ n) with (ns +:+ String "/" n).
      by rewrite Split_app, Split_sepFree.
    + by destruct ns.
  - intros -> Hne. rewrite decide_False by done. by rewrite Split_sepFree.
  - intros rest ->. rewrite decide_False by by destruct ns.
    change (ns +:+ "/" +:+ n +:+ "/" +:+ rest) with (ns +:+ String "/" (n +:+ String "/" rest)).
    rewrite !Split_app by done.
    by destruct (Split_nonempty rest "/") as (piece & pieces & ->).
  - intros w selector Hsel.
    unfold trace, getSubscriptionDeployables, GetChannelNamespaceType. simpl.
    fold (channelKey sub).
    destruct (h _ (GetChannel (channelKey sub)) w) as [r w1].
    rewrite Hsel. simpl.
    destruct (h _ (ListDeployables _ selector) w1) as [[err|items] w2]; simpl.
    + destruct (h _ (Klog ERROR _) w2) as [[] w3]. simpl. by eexists.
    + by eexists.
Qed.

End RefreshExtras.

(** ** The synthesis as a whole *)

Section SynthesisExtras.

Context `{Externals} {W : Type} (h : Handler W).

Import appv1alpha1.

(** The loop over the overrides never fails on an entry for a cluster, and
    leaves the override list nil when there is none. *)
Lemma overrideLoop_total ovs raw dplovs :
  overrideLoop ovs (raw, dplovs)
  = match applyInOrder raw (globalEntries ovs) with
    | inl e => inl e
    | inr raw' =>
        inr (raw', match carriedEntries ovs with
                   | [] => dplovs
                   | c => Some (elems dplovs ++ c)
                   end)
    end.
Proof.
  revert raw dplovs. induction ovs as [|ov ovs IH]; intros raw dplovs; [done|].
  cbn [overrideLoop]. unfold globalEntries, carriedEntries. cbn [List.filter].
  fold (globalEntries ovs). fold (carriedEntries ovs).
  destruct (decide (dplv1alpha1.ClusterName ov = "/")) as [Hg|Hc].
  - rewrite overrideStep_global by done.
    assert (isGlobal ov = true) as -> by by apply bool_decide_eq_true_2.
    cbn [negb applyInOrder].
    destruct (patchTemplate raw ov) as [e|raw1]; [done|]. apply IH.
  - rewrite overrideStep_carried by done.
    assert (isGlobal ov = false) as -> by by apply bool_decide_eq_false_2.
    cbn [negb]. rewrite IH.
    destruct (applyInOrder raw (globalEntries ovs)) as [e|raw1]; [done|].
    f_equal. f_equal. unfold append. simpl.
    destruct (carriedEntries ovs); [done|]. by rewrite <- app_assoc.
Qed.

(** X22. The synthesis as a function of the channel lookup. It always
    returns and writes nothing. The template clone carries the
    channel-generation annotation exactly when the subscription names a
    channel and the lookup succeeded; a failed lookup is ignored. The result
    is the error of the serialization, else the error of the controller
    reference, else the error of the first override for [/] that fails, in
    input order; the entries for clusters never make it fail. Otherwise it
    is the Deployable with the template after the entries for [/] were
    applied and with the entries for clusters as its override list, nil
    when there is none. *)
Theorem X22_synthesis_result sub rootSub (w : W) :
  let subep := subepClone sub rootSub in
  let base := assign ∅ AnnotationSubscription (hostingSubscription sub rootSub) in
  let subepanno :=
    if decide (Channel (Spec sub) = "") then base
    else match (h _ (GetChannel (channelKey subep)) w).1 with
         | inr chobj =>
             assign base AnnotationChannelGeneration
               (pretty (metav1.Generation (chnv1alpha1.ObjectMeta chobj)))
         | inl _ => base
         end in
  let ovs := elems (Overrides (Spec sub)) in
  outcome h (prepareDeployableForSubscription sub rootSub) w
  = Done match marshalSubscription (subepFinal subep subepanno) with
         | inl err => inl err
         | inr rawep =>
             match SetControllerReference sub (newDeployable sub rawep) with
             | inl err => inl err
             | inr dpl =>
                 match applyInOrder rawep (globalEntries ovs) with
                 | inl (_, err) => inl err
                 | inr raw =>
                     inr (dplv1alpha1.setSpec dpl
                            (dplv1alpha1.setOverrides
                               (dplv1alpha1.setTemplate (dplv1alpha1.Spec dpl)
                                  (Some {| runtime.Raw := raw |}))
                               match carriedEntries ovs with
                               | [] => None
                               | c => Some c
                               end))
                 end
             end
         end
  ∧ calls isWrite (trace h (prepareDeployableForSubscription sub rootSub) w) = [].
Proof.
  intros subep base subepanno ovs. split.
  2: { apply (noCall_calls h isWrite _ w).
       apply prepareDeployableForSubscription_reads. }
  unfold outcome, prepareDeployableForSubscription. rewrite run_bind.
  fold subep. fold base. change (Channel (Spec subep)) with (Channel (Spec sub)).
  assert (∃ tr0 w0,
            run h (if decide (Channel (Spec sub) = "")
                   then mret base
                   else
                     chng ← GetChannelGeneration subep;
                     match chng with
                     | inr g => mret (assign base AnnotationChannelGeneration g)
                     | inl _ => mret base
                     end) w = (Done subepanno, tr0, w0)) as (tr0 & w0 & ->).
  { subst subepanno. destruct (decide _); [by eexists _, _|].
    unfold GetChannelGeneration. simpl.
    destruct (h _ (GetChannel _) w) as [[err|ch] w1]; simpl; by eexists _, _. }
  cbv beta iota zeta.
  destruct (marshalSubscription _) as [err|rawep]; simpl.
  { by destruct (h _ (Klog INFO _) w0) as [[] w2]. }
  destruct (SetControllerReference _ _) as [err|dpl0]; simpl; [done|].
  fold ovs. rewrite overrideLoop_total.
  destruct (applyInOrder rawep (globalEntries ovs)) as [[msg err]|raw]; simpl.
  { by destruct (h _ (Klog INFO _) w0) as [[] w2]. }
  by destruct (carriedEntries ovs).
Qed.

End SynthesisExtras.

(** * The object store client *)

Section ObjectStore.

Context `{aws.SDK}.

Lemma collectKeys_step keys (objs : list aws.Object) :
  elems (foldl (λ keys obj, append keys (aws.Key obj)) keys objs)
  = elems keys ++ (aws.Key <$> objs)
  ∧ (foldl (λ keys obj, append keys (aws.Key obj)) keys objs = None
     ↔ keys = None ∧ objs = []).
Proof.
  revert keys. induction objs as [|obj objs IH]; intros keys; simpl.
  - rewrite app_nil_r. split; [done|]. split; [done|by intros [? _]].
  - destruct (IH (append keys (aws.Key obj))) as [IH1 IH2]. split.
    + rewrite IH1. unfold append. simpl. by rewrite <- app_assoc.
    + rewrite IH2. split; [by intros [? _]|by intros [_ ?]].
Qed.

Lemma collectKeys_from keys (pages : list aws.ListObjectsOutput) :
  elems (foldl (λ keys page,
                  foldl (λ keys obj, append keys (aws.Key obj)) keys (aws.Contents page))
           keys pages)
  = elems keys ++ (aws.Key <$> concat (aws.Contents <$> pages))
  ∧ (foldl (λ keys page,
              foldl (λ keys obj, append keys (aws.Key obj)) keys (aws.Contents page))
       keys pages = None
     ↔ keys = None ∧ concat (aws.Contents <$> pages) = []).
Proof.
  revert keys. induction pages as [|page pages IH]; intros keys.
  - simpl. rewrite app_nil_r. split; [done|]. split; [done|by intros [? _]].
  - cbn [foldl].
    change (concat (aws.Contents <$> page :: pages))
      with (aws.Contents page ++ concat (aws.Contents <$> pages)).
    destruct (IH (foldl (λ keys obj, append keys (aws.Key obj)) keys (aws.Contents page)))
      as [IH1 IH2].
    destruct (collectKeys_step keys (aws.Contents page)) as [S1 S2].
    split.
    + rewrite IH1, S1, fmap_app. by rewrite <- app_assoc.
    + rewrite IH2, S2. split.
      * intros [[-> ->] ->]. done.
      * intros [-> [-> ->]%app_eq_nil]. done.
Qed.

(** X23. [List] returns the keys of the objects of all pages, page after
    page and in the order of each page, and the nil slice when there is no
    object. When the paginator ends with an error it returns the nil slice
    and that error, whatever pages were delivered before, and logs the
    failure. *)
Theorem X23_list_returns_the_keys_of_all_pages_or_the_error c bucket (s : aws.Store) :
  let '((pages, err), s') := aws.ListObjectsPages c bucket s in
  let objects := concat (aws.Contents <$> pages) in
  aws.List c bucket s
  = match err with
    | Some e => ((None, Some e), ["failed to list objects. error: "], s')
    | None =>
        ((match objects with
          | [] => None
          | _ => Some (aws.Key <$> objects)
          end, None), [], s')
    end.
Proof.
  unfold aws.List.
  destruct (aws.ListObjectsPages c bucket s) as [[pages err] s'].
  destruct err as [e|]; [done|].
  destruct (collectKeys_from None pages) as [H1 H2].
  fold (aws.collectKeys pages) in H1, H2. simpl in H1.
  destruct (concat (aws.Contents <$> pages)) as [|obj objs] eqn:Hc.
  - assert (aws.collectKeys pages = None) as -> by by apply H2. done.
  - destruct (aws.collectKeys pages) as [keys|] eqn:Hk.
    + simpl in H1. by rewrite H1.
    + by destruct (proj1 H2 eq_refl).
Qed.

(** X24. [Get] returns the error of the request, and no content, when the
    request fails. Otherwise it returns what was read of the body and never
    an error: a failed read is logged only, and nothing is logged when the
    read succeeds. *)
Theorem X24_get_reports_the_request_error_only c bucket name (s : aws.Store) :
  let '(resp, s') := aws.SendGetObject c bucket name s in
  match resp with
  | inl e =>
      aws.Get c bucket name s
      = ((None, Some e), ["Failed to send Get request. error: "], s')
  | inr body =>
      (aws.Get c bucket name s).1.1 = (Some (aws.ReadAll body).1, None)
      ∧ ((aws.Get c bucket name s).1.2 = [] ↔ (aws.ReadAll body).2 = None)
  end.
Proof.
  unfold aws.Get.
  destruct (aws.SendGetObject c bucket name s) as [[e|body] s']; [done|].
  destruct (aws.ReadAll body) as [data [err|]]; simpl; split; done.
Qed.

(** X25. [InitObjectStoreConnection] returns the error of loading the
    default configuration, leaving the handler as it was, and returns nil in
    every other case, including the one in which [s3.New] yields no client:
    the handler then has no client and the failure is only logged. The
    configuration handed to [s3.New] has the region minio and the other
    settings of the default configuration; its resolver answers the given
    endpoint for the service s3 in every region and as the default resolver
    for any other service; the retrieval of its credentials gives the given
    key pair and never fails. The client obtained is stored with path-style
    addressing forced. *)
Theorem X25_connection_fails_only_when_the_configuration_cannot_be_loaded
    h endpoint accessKeyID secretAccessKey :
  match aws.LoadDefaultAWSConfig with
  | inl e =>
      aws.InitObjectStoreConnection h endpoint accessKeyID secretAccessKey
      = (Some e, h, ["Preparing S3 settings"; "Failed to load aws config. error: "])
  | inr cfg =>
      let used := aws.connectionConfig cfg endpoint accessKeyID secretAccessKey in
      let result := aws.InitObjectStoreConnection h endpoint accessKeyID secretAccessKey in
      result.1.1 = None
      ∧ match aws.New used with
        | Some c =>
            aws.HandlerClient result.1.2
            = Some {| aws.ClientConfig := aws.ClientConfig c; aws.ForcePathStyle := true |}
        | None =>
            aws.HandlerClient result.1.2 = None
            ∧ "Failed to connect to s3 service" ∈ result.2
        end
      ∧ aws.Region used = "minio"
      ∧ aws.Other used = aws.Other cfg
      ∧ (∀ region, aws.EndpointResolver used "s3" region = inr {| aws.URL := endpoint |})
      ∧ (∀ service region, service ≠ "s3" →
           aws.EndpointResolver used service region = aws.ResolveEndpoint service region)
      ∧ ∃ p, aws.Credentials_ used = aws.staticProvider p
             ∧ aws.Retrieve p
               = ({| aws.AccessKeyID := accessKeyID;
                     aws.SecretAccessKey := secretAccessKey |}, None)
  end.
Proof.
  unfold aws.InitObjectStoreConnection.
  destruct aws.LoadDefaultAWSConfig as [e|cfg]; [done|]. cbv zeta.
  split; [by destruct (aws.New _)|]. split.
  { destruct (aws.New _); simpl; [done|]. split; [done|]. set_solver. }
  split; [done|]. split; [done|]. split.
  { intros region. simpl. unfold aws.s3CustResolverFn. by rewrite decide_True. }
  split.
  { intros service region Hne. simpl. unfold aws.s3CustResolverFn.
    by rewrite decide_False. }
  by eexists.
Qed.

End ObjectStore.

(** * The further properties on the test double *)

Section MoreExamples.

Import Fake Cases appv1alpha1.

(** X1 on a store without the Deployable. *)
Lemma X1_witness :
  (client _ (GetDeployable (deployableKey desiredA1)) emptyStore).1 = inl notFound
  ∧ ∃ err,
      outcome client (reconcilePrimary plainSub desiredA1) emptyStore = Done (plainSub, err)
      ∧ calls isWrite (trace client (reconcilePrimary plainSub desiredA1) emptyStore)
        = [Ev (CreateDeployable desiredA1) err].
Proof.
  assert ((client _ (GetDeployable (deployableKey desiredA1)) emptyStore).1 = inl notFound)
    as H1 by (vm_compute; reflexivity).
  split; [exact H1|].
  destruct (X1_missing_primary_is_created client plainSub desiredA1 emptyStore notFound H1)
    as (err & Hout & Hcalls & _).
  exists err. split; [exact Hout|exact Hcalls].
Defined.

(** X2 on the catalog, whose artifact of the same name has another
    template. *)
Lemma X2_witness :
  (client _ (GetDeployable (deployableKey desiredA1)) catalog).1
  = inr (artifact "a1" None "{x}")
  ∧ ∃ err,
      outcome client (reconcilePrimary plainSub desiredA1) catalog = Done (plainSub, err)
      ∧ calls isWrite (trace client (reconcilePrimary plainSub desiredA1) catalog)
        = [Ev (UpdateDeployable (stampFound desiredA1 (artifact "a1" None "{x}"))) err].
Proof.
  assert ((client _ (GetDeployable (deployableKey desiredA1)) catalog).1
          = inr (artifact "a1" None "{x}")) as H1 by (vm_compute; reflexivity).
  assert (b "{z}" ≠ b "{x}") as Hne by (vm_compute; discriminate).
  split; [exact H1|].
  destruct (proj1 (X2_primary_updated_iff_templates_differ client plainSub desiredA1
                     (artifact "a1" None "{x}") catalog
                     {| runtime.Raw := b "{z}" |} {| runtime.Raw := b "{x}" |}
                     (b "{z}" : @Doc externals) (b "{x}" : @Doc externals) H1 eq_refl eq_refl eq_refl eq_refl)
              Hne)
    as (err & Hout & Hcalls & _).
  exists err. split; [exact Hout|exact Hcalls].
Defined.

(** X3 on a stored Deployable without a template. *)
Lemma X3_witness :
  let desired := dplv1alpha1.setSpec templateLess (dplv1alpha1.Spec desiredA1) in
  (client _ (GetDeployable (deployableKey desired)) brokenStore).1 = inr templateLess
  ∧ outcome client (reconcilePrimary plainSub desired) brokenStore = Panicked.
Proof.
  intros desired.
  assert ((client _ (GetDeployable (deployableKey desired)) brokenStore).1 = inr templateLess)
    as H1 by (vm_compute; reflexivity).
  split; [exact H1|].
  exact (proj1 (proj2 (proj2 (X3_undecodable_template_is_an_error client plainSub desired
                                templateLess brokenStore {| runtime.Raw := b "{z}" |}
                                H1 eq_refl))
                  (b "{z}" : @Doc externals) eq_refl eq_refl)).
Defined.

(** X4 on the store that holds the update. *)
Lemma X4_witness :
  (client _ (GetDeployable (deployableKey desiredA1)) afterUpdate).1
  = inr (stampFound desiredA1 (artifact "a1" None "{x}"))
  ∧ calls isDeployableWrite (trace client (reconcilePrimary plainSub desiredA1) afterUpdate)
    = [].
Proof.
  assert ((client _ (GetDeployable (deployableKey desiredA1)) afterUpdate).1
          = inr (stampFound desiredA1 (artifact "a1" None "{x}"))) as H1
    by (vm_compute; reflexivity).
  split; [exact H1|].
  exact (proj1 (X4_stored_update_is_not_repeated client plainSub desiredA1
                  (artifact "a1" None "{x}") afterUpdate
                  {| runtime.Raw := b "{z}" |} (b "{z}" : @Doc externals) eq_refl eq_refl H1)).
Defined.

(** X7 on a teardown whose deletion of the primary Deployable fails. *)
Lemma X7_witness :
  conflict ∈ omap deployableWriteError (trace client (doMCMHubReconcile withdrawnSub) deleteFails)
  ∧ outcome client (doMCMHubReconcile withdrawnSub) deleteFails
    = Done (withdrawnSub, Some conflict)
  ∧ calls isStatusUpdate (trace client (doMCMHubReconcile withdrawnSub) deleteFails) = [].
Proof.
  assert (conflict ∈ omap deployableWriteError
                       (trace client (doMCMHubReconcile withdrawnSub) deleteFails)) as H1
    by (vm_compute; apply list_elem_of_here).
  split; [exact H1|].
  destruct (X7_failed_deployable_write_ends_the_cycle client withdrawnSub deleteFails
              conflict H1) as (Hout & Hst & _).
  split; [exact Hout|exact Hst].
Defined.

(** X8 on a teardown whose status write fails. *)
Lemma X8_witness :
  conflict ∈ omap statusWriteError
               (trace client (doMCMHubReconcile withdrawnSub) statusWriteFails)
  ∧ ∃ sub', outcome client (doMCMHubReconcile withdrawnSub) statusWriteFails
            = Done (sub', Some conflict).
Proof.
  assert (conflict ∈ omap statusWriteError
                       (trace client (doMCMHubReconcile withdrawnSub) statusWriteFails)) as H1
    by (vm_compute; apply list_elem_of_here).
  split; [exact H1|].
  exact (X8_failed_status_write_is_returned_by_teardown_only client withdrawnSub
           statusWriteFails conflict H1).
Defined.

(** X9 on a subscription whose global override is refused. *)
Lemma X9_witness :
  is_Some (Placement (Spec refusedSub))
  ∧ outcome client (UpdateDeployablesAnnotation refusedSub) emptyStore
    = Done (false, refusedSub)
  ∧ outcome client (doMCMHubReconcile refusedSub) emptyStore
    = Done (refusedSub, Some (PlainError "cannot apply override")).
Proof.
  assert (is_Some (Placement (Spec refusedSub))) as H1 by (by eexists).
  assert (outcome client (UpdateDeployablesAnnotation refusedSub) emptyStore
          = Done (false, refusedSub)) as H2 by (vm_compute; reflexivity).
  assert (outcome client (prepareDeployableForSubscription refusedSub None)
            (world client (UpdateDeployablesAnnotation refusedSub) emptyStore)
          = Done (inl (PlainError "cannot apply override"))) as H3
    by (vm_compute; reflexivity).
  split; [exact H1|]. split; [exact H2|].
  exact (proj1 (X9_failed_synthesis_ends_the_cycle client refusedSub emptyStore _ H1 H2 H3)).
Defined.

(** X11 on the teardown of a subscription whose placement was withdrawn. *)
Lemma X11_witness :
  let s := setStatus withdrawnSub (setLastUpdateTime (Status withdrawnSub) 100%Z) in
  s ∈ omap sentStatus (trace client (stopDeploySubscription withdrawnSub) emptyStore)
  ∧ omap sentStatus (trace client (stopDeploySubscription withdrawnSub) emptyStore) = [s].
Proof.
  intros s.
  assert (s ∈ omap sentStatus (trace client (stopDeploySubscription withdrawnSub) emptyStore))
    as H1 by (vm_compute; apply list_elem_of_here).
  split; [exact H1|].
  exact (proj1 (proj2 (X11_what_teardown_writes client withdrawnSub emptyStore s H1))).
Defined.

(** X12 on a creation. *)
Lemma X12_witness :
  AnnotationRollingUpdateTarget ≠ AnnotationIsGenerated
  ∧ AnnotationRollingUpdateTarget ≠ AnnotationLocal
  ∧ index (dplv1alpha1.GetAnnotations
             (markRollingUpdateTarget desiredA1 (Some templateLess)))
      AnnotationRollingUpdateTarget = "sub-deployable".
Proof.
  assert (AnnotationRollingUpdateTarget ≠ AnnotationIsGenerated) as H1
    by (vm_compute; discriminate).
  assert (AnnotationRollingUpdateTarget ≠ AnnotationLocal) as H2
    by (vm_compute; discriminate).
  assert (markRollingUpdateTarget desiredA1 (Some templateLess)
            ∈ omap createdDeployable
                (trace client
                   (reconcilePrimary plainSub
                      (markRollingUpdateTarget desiredA1 (Some templateLess))) emptyStore))
    as H3 by (vm_compute; apply list_elem_of_here).
  split; [exact H1|]. split; [exact H2|].
  exact (proj1 (X12_rollout_target_is_named_on_create_only client plainSub desiredA1
                  templateLess emptyStore H1 H2) _ H3).
Defined.

(** X13 on the primary Deployable of the subscription. *)
Lemma X13_witness :
  outcome client (prepareDeployableForSubscription withdrawnSub None) emptyStore
  = Done (inr ownedPrimary)
  ∧ deployableKey ownedPrimary = primaryKey withdrawnSub.
Proof.
  assert (outcome client (prepareDeployableForSubscription withdrawnSub None) emptyStore
          = Done (inr ownedPrimary)) as H1 by (vm_compute; reflexivity).
  split; [exact H1|].
  exact (proj1 (X13_teardown_deletes_what_the_synthesis_built client withdrawnSub None
                  emptyStore ownedPrimary H1)).
Defined.

(** X14 on a rollout whose target subscription is in the store. *)
Lemma X14_witness :
  rolloutTarget
    ∈ omap createdDeployable (trace client (createTargetDplForRollingUpdate rollingSub) rollout)
  ∧ deployableKey rolloutTarget = targetKey rollingSub.
Proof.
  assert (rolloutTarget
            ∈ omap createdDeployable
                (trace client (createTargetDplForRollingUpdate rollingSub) rollout)) as H1
    by (vm_compute; apply list_elem_of_here).
  split; [exact H1|].
  exact (proj1 (X14_rollout_target_deployable_belongs_to_the_target_subscription client
                  rollingSub rollout rolloutTarget H1)).
Defined.

(** X15 on the Deployable with one deployed and one pending cluster. *)
Lemma X15_witness :
  let sts := Some (<["clusterB" := Some zeroPerClusterStatus]>
                     {[ "clusterA" := Some subscribed ]}) in
  let sub' := setStatus plainSub (setLastUpdateTime (newSubStatus plainSub sts) 100%Z) in
  outcome client (updateSubscriptionStatus plainSub reportingFound) emptyStore
  = Done (sub', None)
  ∧ run client (updateSubscriptionStatus sub' reportingFound) emptyStore
    = (Done (sub', None), [], emptyStore).
Proof.
  intros sts sub'.
  assert (outcome client (updateSubscriptionStatus plainSub reportingFound) emptyStore
          = Done (sub', None)) as H1 by (vm_compute; reflexivity).
  split; [exact H1|].
  exact (X15_aggregation_is_idempotent client plainSub reportingFound emptyStore emptyStore
           sub' H1).
Defined.

(** X16 on a payload that does not decode. *)
Lemma X16_witness :
  outcome client (updateSubscriptionStatus plainSub garbledFound) emptyStore
  = Done (plainSub, Some (PlainError "invalid character"))
  ∧ trace client (updateSubscriptionStatus plainSub garbledFound) emptyStore
    = [Ev (Klog INFO decodeFailureLine) ()].
Proof.
  assert (outcome client (updateSubscriptionStatus plainSub garbledFound) emptyStore
          = Done (plainSub, Some (PlainError "invalid character"))) as H1
    by (vm_compute; reflexivity).
  split; [exact H1|].
  exact (proj1 (proj2 (X16_aggregation_fails_on_an_undecodable_payload_only client plainSub
                         garbledFound emptyStore plainSub _ H1))).
Defined.

(** X19 on a subscription whose selector does not convert. *)
Lemma X19_witness :
  outcome client (getSubscriptionDeployables staleSub) catalog = Done None
  ∧ decodeDeployables (GetAnnotations staleSub) ≠ ∅
  ∧ outcome client (doMCMHubReconcile staleSub) catalog = Done (annotated staleSub ∅, None).
Proof.
  assert (outcome client (getSubscriptionDeployables staleSub) catalog = Done None) as H1
    by (vm_compute; reflexivity).
  assert (decodeDeployables (GetAnnotations staleSub) ≠ ∅) as H2.
  { intros Heq. apply (f_equal elements) in Heq. vm_compute in Heq. discriminate Heq. }
  split; [exact H1|]. split; [exact H2|].
  exact (proj2 (proj2 (proj2 (X19_failed_match_pass_empties_the_annotation client staleSub
                                catalog H1 H2)))).
Defined.

(** X20 on the plain subscription against the catalog of two artifacts. *)
Lemma X20_witness :
  let allDpls := Some (foldl (keepMatching plainSub) ∅
                         [artifact "a1" None "{x}"; artifact "a2" None "{y}"]) in
  outcome client (getSubscriptionDeployables plainSub) catalog = Done allDpls
  ∧ forallb commaFree (elements (dom (default ∅ allDpls) : gset string)) = true
  ∧ calls isWrite
      (trace client
         (UpdateDeployablesAnnotation (annotated plainSub (dom (default ∅ allDpls)))) catalog)
    = [].
Proof.
  intros allDpls.
  assert (outcome client (getSubscriptionDeployables plainSub) catalog = Done allDpls) as H1
    by (vm_compute; reflexivity).
  assert (forallb commaFree (elements (dom (default ∅ allDpls) : gset string)) = true) as H2
    by (vm_compute; reflexivity).
  split; [exact H1|]. split; [exact H2|].
  exact (proj1 (proj2 (X20_refresh_is_idempotent client plainSub catalog allDpls H1 H2))).
Defined.

(** X21 on the channel reference of the examples. *)
Lemma X21_witness :
  sepFree "/" "ch-ns" = true ∧ sepFree "/" "ch" = true
  ∧ channelKey plainSub = {| types.Namespace := "ch-ns"; types.Name := "ch" |}.
Proof.
  split; [reflexivity|]. split; [reflexivity|].
  exact (proj1 (proj2 (X21_channel_reference client plainSub "ch-ns" "ch" eq_refl eq_refl))
           eq_refl).
Defined.

End MoreExamples.
